(** * stackdriver_exporter: the monitoring collector

    A shallow embedding of [collectors/monitoring_collector.go] and the
    properties of its scrape pipeline: the newest-point reduction of a
    time-series page, the value and kind mapping, the label layout, the
    per-page request window, the error channel of a fan-out scope and the
    bookkeeping metrics of [Collect]. *)

From Stdlib Require Import ZArith List String Ascii Bool Lia QArith.
From Stdlib Require Import Floats.SpecFloat.
From Stdlib Require Import Permutation.
Import ListNotations.

Local Open Scope string_scope.
Local Open Scope Z_scope.

(** ** Values of the Go runtime *)

(** A Go call returning [(value, error)]. *)
Inductive result (A : Type) : Type :=
| Ok (a : A)
| Err (msg : string).
Arguments Ok {A} a.
Arguments Err {A} msg.

(** [time.Time], as the instant it denotes: nanoseconds since the Unix epoch.
    [After] compares instants only, whatever the location. *)
Definition Time : Type := Z.

Definition time_Unix (sec nsec : Z) : Time := sec * 1000000000 + nsec.

Definition After (t u : Time) : bool := u <? t.

(** [time.Duration]: a count of nanoseconds. *)
Definition Duration : Type := Z.

Definition Second : Duration := 1000000000.

Definition Add (t : Time) (d : Duration) : Time := t + d.

(** [float64]: IEEE 754 binary64. *)
Definition float64 : Type := spec_float.

Definition prec64 : Z := 53.
Definition emax64 : Z := 1024.

(** The conversion [float64(i)] of an integer: rounding to nearest, ties to
    even. *)
Definition float64_of_int (i : Z) : float64 :=
  binary_normalize prec64 emax64 i 0 false.

Definition float64_zero : float64 := S754_zero false.
Definition float64_one : float64 := S754_finite false 4503599627370496 (-52).

(** The rational a finite float64 denotes; [None] for infinities and NaN. *)
Definition float64_toQ (f : float64) : option Q :=
  match f with
  | S754_zero _ => Some 0%Q
  | S754_finite s m e =>
      let mag := match e with
                 | Zneg p => Qmake (Zpos m) (2 ^ p)%positive
                 | _ => inject_Z (Zpos m * 2 ^ e)
                 end in
      Some (if s then Qopp mag else mag)
  | _ => None
  end.

Definition int64_min : Z := - 2 ^ 63.
Definition int64_max : Z := 2 ^ 63 - 1.
Definition is_int64 (i : Z) : Prop := int64_min <= i <= int64_max.

(** ** The monitoring API types used by the collector

    Pointers to structs that the response decoder allocates (the elements
    of [Points], [Interval], [Value], [Metric], [Resource]) are plain
    values; the scalar pointers of a typed value, of which the API sets one,
    are options: dereferencing an unset one is a nil dereference. *)

Record TypedValue : Type := {
  BoolValue : option bool;
  Int64Value : option Z;
  DoubleValue : option float64
}.

Record TimeInterval : Type := {
  EndTime : string;
  StartTime : string
}.

Record Point : Type := {
  Interval : TimeInterval;
  Value : TypedValue
}.

(** A Go [map[string]string] is given by its entries in the order the [range]
    statement visits them, an order the runtime chooses. *)
Definition Labels : Type := list (string * string).

Record Metric : Type := {
  Metric_Labels : Labels;
  Metric_Type : string
}.

Record MonitoredResource : Type := {
  Resource_Labels : Labels;
  Resource_Type : string
}.

Record TimeSeries : Type := {
  TS_Metric : Metric;
  MetricKind : string;
  Points : list Point;
  Resource : MonitoredResource;
  ValueType : string
}.

Record ListTimeSeriesResponse : Type := {
  NextPageToken : string;
  TimeSeries_ : list TimeSeries
}.

Record MetricDescriptor : Type := {
  Description : string;
  MD_Type : string;
  Unit : string
}.

Record ListMetricDescriptorsResponse : Type := {
  MetricDescriptors : list MetricDescriptor;
  MD_NextPageToken : string
}.

(** The builder of a [projects.timeSeries.list] request. *)
Record TimeSeriesListCall : Type := {
  call_name : string;
  call_filter : string;
  call_intervalStartTime : string;
  call_intervalEndTime : string;
  call_pageToken : string
}.

(** ** The Prometheus values the collector builds *)

Inductive PromValueType : Type :=
| CounterValue
| GaugeValue
| UntypedValue.

Record Desc : Type := {
  fqName : string;
  help : string;
  variableLabels : list string;
  constLabels : list (string * string)
}.

(** The arguments handed to [prometheus.NewDesc] and
    [prometheus.MustNewConstMetric], whose result is sent on the channel.
    The checks the library makes on them are not part of the collector. *)
Record ConstMetric : Type := {
  desc : Desc;
  valType : PromValueType;
  value : float64;
  labelValues : list string
}.

(** [prometheus.BuildFQName]. *)
Definition BuildFQName (namespace subsystem name : string) : string :=
  if String.eqb name "" then ""
  else if (negb (String.eqb namespace "")
           && negb (String.eqb subsystem ""))%bool
       then namespace ++ "_" ++ subsystem ++ "_" ++ name
  else if negb (String.eqb namespace "") then namespace ++ "_" ++ name
  else if negb (String.eqb subsystem "") then subsystem ++ "_" ++ name
  else name.

(** ** Collaborators outside the collector

    The time layout functions of the Go library and the two helpers of the
    [utils] package. *)
Class Collaborators : Type := {
  (** [time.Parse(time.RFC3339Nano, s)] *)
  time_Parse : string -> result Time;
  (** [t.Format(time.RFC3339Nano)] of a UTC time *)
  time_Format : Time -> string;
  (** [utils.NormalizeMetricName] *)
  NormalizeMetricName : string -> string;
  (** [utils.ProjectResource] *)
  ProjectResource : string -> string
}.

(** ** reportTimeSeriesMetrics *)

(** How a call ends: it returns its error value, or the goroutine panics on a
    nil pointer dereference. *)
Inductive exit : Type :=
| Return (err : option string)
| Panic.

(** What the [switch] on the value type leads to: a value, the [continue] of
    the default case, or a nil pointer dereference. *)
Inductive switched (A : Type) : Type :=
| Chosen (a : A)
| Continue
| NilDereference.
Arguments Chosen {A} a.
Arguments Continue {A}.
Arguments NilDereference {A}.

Definition endTimeError (endTime err : string) : string :=
  "Error parsing TimeSeries Point interval end time `" ++ endTime ++ "`: "
    ++ err.

Section Reduction.
Context {ext : Collaborators}.

(** The loop over [timeSeries.Points] (lines 245-254), from the values
    [newestEndTime] and [newestTSPoint] have when it is entered. *)
Fixpoint rangePoints (points : list Point) (newestEndTime : Time)
    (newestTSPoint : option Point) : result (Time * option Point) :=
  match points with
  | [] => Ok (newestEndTime, newestTSPoint)
  | point :: rest =>
      match time_Parse (EndTime (Interval point)) with
      | Err err => Err (endTimeError (EndTime (Interval point)) err)
      | Ok endTime =>
          if After endTime newestEndTime
          then rangePoints rest endTime (Some point)
          else rangePoints rest newestEndTime newestTSPoint
      end
  end.

(** [switch timeSeries.MetricKind] (lines 256-265); [None] is the
    [continue] of the default case. *)
Definition switchMetricKind (metricKind : string) : option PromValueType :=
  if String.eqb metricKind "GAUGE" then Some GaugeValue
  else if String.eqb metricKind "DELTA" then Some CounterValue
  else if String.eqb metricKind "CUMULATIVE" then Some CounterValue
  else None.

(** [*p.Value.F] for a pointer [p] to a point and a scalar pointer [F]. *)
Definition deref {A : Type} (newestTSPoint : option Point)
    (field : TypedValue -> option A) : switched A :=
  match newestTSPoint with
  | None => NilDereference
  | Some p =>
      match field (Value p) with
      | None => NilDereference
      | Some v => Chosen v
      end
  end.

(** [switch timeSeries.ValueType] (lines 267-280). *)
Definition switchValueType (valueType : string)
    (newestTSPoint : option Point) : switched float64 :=
  if String.eqb valueType "BOOL" then
    match deref newestTSPoint BoolValue with
    | Chosen b => Chosen (if b then float64_one else float64_zero)
    | Continue => Continue
    | NilDereference => NilDereference
    end
  else if String.eqb valueType "INT64" then
    match deref newestTSPoint Int64Value with
    | Chosen i => Chosen (float64_of_int i)
    | Continue => Continue
    | NilDereference => NilDereference
    end
  else if String.eqb valueType "DOUBLE" then
    deref newestTSPoint DoubleValue
  else Continue.

(** The two [append] loops (lines 282-291). *)
Definition labelKeysOf (timeSeries : TimeSeries) : list string :=
  ((["unit"; "resource_type"]
      ++ map fst (Metric_Labels (TS_Metric timeSeries)))
     ++ map fst (Resource_Labels (Resource timeSeries)))%list.

Definition labelValuesOf (metricDescriptor : MetricDescriptor)
    (timeSeries : TimeSeries) : list string :=
  (([Unit metricDescriptor; Resource_Type (Resource timeSeries)]
      ++ map snd (Metric_Labels (TS_Metric timeSeries)))
     ++ map snd (Resource_Labels (Resource timeSeries)))%list.

(** The metric sent on [ch] (lines 293-303). *)
Definition constMetricOf (metricDescriptor : MetricDescriptor)
    (timeSeries : TimeSeries) (metricValueType : PromValueType)
    (metricValue : float64) : ConstMetric :=
  {| desc :=
       {| fqName :=
            BuildFQName "stackdriver" "monitoring"
              (NormalizeMetricName (Metric_Type (TS_Metric timeSeries)));
          help := Description metricDescriptor;
          variableLabels := labelKeysOf timeSeries;
          constLabels := [] |};
     valType := metricValueType;
     value := metricValue;
     labelValues := labelValuesOf metricDescriptor timeSeries |}.

(** The loop over [page.TimeSeries] (lines 243-304). [newestTSPoint] is
    declared before the loop and keeps its value from one series to the
    next; [ch] is the sequence of metrics sent so far. [metricValue] and
    [metricValueType] are assigned in every iteration before they are
    read. *)
Fixpoint rangeTimeSeries (metricDescriptor : MetricDescriptor)
    (series : list TimeSeries) (newestTSPoint : option Point)
    (ch : list ConstMetric) : list ConstMetric * exit :=
  match series with
  | [] => (ch, Return None)
  | timeSeries :: rest =>
      match rangePoints (Points timeSeries) (time_Unix 0 0) newestTSPoint with
      | Err err => (ch, Return (Some err))
      | Ok (_, newestTSPoint) =>
          match switchMetricKind (MetricKind timeSeries) with
          | None => rangeTimeSeries metricDescriptor rest newestTSPoint ch
          | Some metricValueType =>
              match switchValueType (ValueType timeSeries) newestTSPoint with
              | Continue =>
                  rangeTimeSeries metricDescriptor rest newestTSPoint ch
              | NilDereference => (ch, Panic)
              | Chosen metricValue =>
                  rangeTimeSeries metricDescriptor rest newestTSPoint
                    (ch ++ [constMetricOf metricDescriptor timeSeries
                              metricValueType metricValue])%list
              end
          end
      end
  end.

(** [reportTimeSeriesMetrics page metricDescriptor ch] on a channel that
    has received nothing yet: the metrics it sends, in order, and how it
    ends. *)
Definition reportTimeSeriesMetrics (page : ListTimeSeriesResponse)
    (metricDescriptor : MetricDescriptor) : list ConstMetric * exit :=
  rangeTimeSeries metricDescriptor (TimeSeries_ page) None [].

End Reduction.

(** ** The layout [time.RFC3339Nano]

    A model of the Go library's [Parse] and [Format] for the layout
    [2006-01-02T15:04:05.999999999Z07:00]: date and time of day with an
    optional fraction of a second and a zone that is [Z] or a numeric
    offset. [Format] is that of a UTC time. *)
Module RFC3339.

Definition digit (c : ascii) : option Z :=
  let n := Z.of_nat (nat_of_ascii c) in
  if ((48 <=? n) && (n <=? 57))%bool then Some (n - 48) else None.

(** Exactly [n] decimal digits. *)
Fixpoint digits (n : nat) (s : string) (acc : Z) : option (Z * string) :=
  match n with
  | O => Some (acc, s)
  | S n' =>
      match s with
      | String c rest =>
          match digit c with
          | Some d => digits n' rest (acc * 10 + d)
          | None => None
          end
      | EmptyString => None
      end
  end.

Definition expect (c : ascii) (s : string) : option string :=
  match s with
  | String c' rest => if Ascii.eqb c c' then Some rest else None
  | EmptyString => None
  end.

(** The digits of a fraction of a second, as nanoseconds; digits after the
    ninth are dropped. *)
Fixpoint fraction (s : string) (scale acc : Z) : Z * string :=
  match s with
  | String c rest =>
      match digit c with
      | Some d => fraction rest (scale / 10) (acc + d * scale)
      | None => (acc, s)
      end
  | EmptyString => (acc, s)
  end.

Definition isLeap (y : Z) : bool :=
  ((y mod 4 =? 0) && (negb (y mod 100 =? 0) || (y mod 400 =? 0)))%bool.

Definition daysIn (y m : Z) : Z :=
  if m =? 2 then (if isLeap y then 29 else 28)
  else if ((m =? 4) || (m =? 6) || (m =? 9) || (m =? 11))%bool then 30
  else 31.

(** Days from 1970-01-01 to the civil date [y-m-d]. *)
Definition daysFromCivil (y m d : Z) : Z :=
  let y' := if m <=? 2 then y - 1 else y in
  let era := y' / 400 in
  let yoe := y' - era * 400 in
  let doy := (153 * (if 2 <? m then m - 3 else m + 9) + 2) / 5 + d - 1 in
  let doe := yoe * 365 + yoe / 4 - yoe / 100 + doy in
  era * 146097 + doe - 719468.

(** The civil date of a day count from 1970-01-01. *)
Definition civilFromDays (z : Z) : Z * Z * Z :=
  let z' := z + 719468 in
  let era := z' / 146097 in
  let doe := z' - era * 146097 in
  let yoe := (doe - doe / 1460 + doe / 36524 - doe / 146096) / 365 in
  let doy := doe - (365 * yoe + yoe / 4 - yoe / 100) in
  let mp := (5 * doy + 2) / 153 in
  let d := doy - (153 * mp + 2) / 5 + 1 in
  let m := if mp <? 10 then mp + 3 else mp - 9 in
  let y := yoe + era * 400 in
  (if m <=? 2 then y + 1 else y, m, d).

(** The zone: [Z], or a sign and [hh:mm]; the offset in seconds east of
    UTC. *)
Definition zone (s : string) : option (Z * string) :=
  match s with
  | String c rest =>
      if Ascii.eqb c "Z" then Some (0, rest)
      else if (Ascii.eqb c "+" || Ascii.eqb c "-")%bool then
        match digits 2 rest 0 with
        | Some (hh, rest1) =>
            match expect ":" rest1 with
            | Some rest2 =>
                match digits 2 rest2 0 with
                | Some (mm, rest3) =>
                    if ((hh <=? 23) && (mm <=? 59))%bool
                    then Some ((if Ascii.eqb c "-" then -1 else 1)
                               * (hh * 3600 + mm * 60), rest3)
                    else None
                | None => None
                end
            | None => None
            end
        | None => None
        end
      else None
  | EmptyString => None
  end.

Definition parseFields (s : string) : option Time :=
  match digits 4 s 0 with
  | None => None
  | Some (y, s1) =>
  match expect "-" s1 with
  | None => None
  | Some s2 =>
  match digits 2 s2 0 with
  | None => None
  | Some (m, s3) =>
  match expect "-" s3 with
  | None => None
  | Some s4 =>
  match digits 2 s4 0 with
  | None => None
  | Some (d, s5) =>
  match expect "T" s5 with
  | None => None
  | Some s6 =>
  match digits 2 s6 0 with
  | None => None
  | Some (hh, s7) =>
  match expect ":" s7 with
  | None => None
  | Some s8 =>
  match digits 2 s8 0 with
  | None => None
  | Some (mi, s9) =>
  match expect ":" s9 with
  | None => None
  | Some s10 =>
  match digits 2 s10 0 with
  | None => None
  | Some (ss, s11) =>
      let '(ns, s12) :=
        match expect "." s11 with
        | Some s' => fraction s' 100000000 0
        | None => (0, s11)
        end in
      match zone s12 with
      | Some (offset, EmptyString) =>
          if ((1 <=? m) && (m <=? 12) && (1 <=? d) && (d <=? daysIn y m)
              && (hh <=? 23) && (mi <=? 59) && (ss <=? 59))%bool
          then Some (time_Unix
                       (daysFromCivil y m d * 86400
                        + hh * 3600 + mi * 60 + ss - offset) ns)
          else None
      | _ => None
      end
  end end end end end end end end end end end.

Definition Parse (s : string) : result Time :=
  match parseFields s with
  | Some t => Ok t
  | None => Err ("parsing time `" ++ s ++ "` as RFC3339Nano")
  end.

Definition digitChar (d : Z) : ascii := ascii_of_nat (Z.to_nat (48 + d)).

(** [z] in [w] decimal digits, zero padded. *)
Fixpoint pad (w : nat) (z : Z) : string :=
  match w with
  | O => ""
  | S w' => pad w' (z / 10) ++ String (digitChar (z mod 10)) ""
  end.

(** The digits of [ns / (10 * scale)] as a fraction, without trailing
    zeros. *)
Fixpoint fractionDigits (w : nat) (ns scale : Z) : string :=
  match w with
  | O => ""
  | S w' =>
      if ns =? 0 then ""
      else String (digitChar (ns / scale))
             (fractionDigits w' (ns mod scale) (scale / 10))
  end.

Definition Format (t : Time) : string :=
  let sec := t / 1000000000 in
  let ns := t mod 1000000000 in
  let days := sec / 86400 in
  let rem := sec mod 86400 in
  let '(y, m, d) := civilFromDays days in
  pad 4 y ++ "-" ++ pad 2 m ++ "-" ++ pad 2 d ++ "T"
    ++ pad 2 (rem / 3600) ++ ":" ++ pad 2 (rem mod 3600 / 60) ++ ":"
    ++ pad 2 (rem mod 60)
    ++ (if ns =? 0 then "" else "." ++ fractionDigits 9 ns 100000000)
    ++ "Z".

End RFC3339.

(** ** The collector *)

Definition float64_add (x y : float64) : float64 := SFadd prec64 emax64 x y.
Definition float64_div (x y : float64) : float64 := SFdiv prec64 emax64 x y.

(** The collector's configuration and the current values of its six
    bookkeeping metrics. *)
Record MonitoringCollector : Type := {
  projectID : string;
  metricsTypePrefixes : list string;
  metricsInterval : Duration;
  apiCallsTotalMetric : float64;
  scrapesTotalMetric : float64;
  scrapeErrorsTotalMetric : float64;
  lastScrapeErrorMetric : float64;
  lastScrapeTimestampMetric : float64;
  lastScrapeDurationSecondsMetric : float64
}.

(** [time.Now()] reads a clock: the readings it will give, and how many
    have been taken. *)
Record Clock : Type := {
  reading : nat -> Time;
  reads : nat
}.

Definition time_Now (clk : Clock) : Time * Clock :=
  (reading clk (reads clk),
   {| reading := reading clk; reads := S (reads clk) |}).

(** An [int64] product, wrapped. *)
Definition wrap64 (z : Z) : Z := (z + 2 ^ 63) mod 2 ^ 64 - 2 ^ 63.

(** The character [U+0022]. *)
Definition dquote : string := String (ascii_of_nat 34) "".

(** ** One fan-out scope: a call of metricDescriptorsFunction

    The goroutines started for the descriptors of a page, the two channels
    and the [select] of the function, as a transition system whose steps a
    scheduler picks. *)

(** Where a descriptor's goroutine stands (lines 156-188). *)
Inductive pc : Type :=
| AtDo                                     (* lines 165-166 *)
| AtSend (err : string)                    (* lines 168 and 180 *)
| AtSelect (page : ListTimeSeriesResponse) (* lines 174-178 *)
| AtReport (page : ListTimeSeriesResponse) (* lines 179-186 *)
| Finished.                                (* after [break]; [wg.Done()] ran *)

Record goroutine : Type := {
  g_metricDescriptor : MetricDescriptor;
  g_timeSeriesListCall : TimeSeriesListCall;
  g_pc : pc
}.

Record scope : Type := {
  goroutines : list goroutine;
  (** [errChannel], of capacity 1: the value it buffers *)
  errChannel : option string;
  (** whether [doneChannel] is closed *)
  doneChannel : bool;
  (** what the function returned, once its [select] has fired *)
  returned : option (option string);
  (** the value of [c.apiCallsTotalMetric], as the increments of this call
      move it from the value it had when the call was entered; the counter
      is one for the whole collector, and [stepShared] adds the increments
      made elsewhere *)
  apiCalls : float64;
  (** the metrics sent on [ch] *)
  sent : list ConstMetric;
  (** the requests [Do] has been called on *)
  issued : list TimeSeriesListCall;
  (** a goroutine panicked *)
  crashed : bool
}.

(** What the scheduler lets run next: the goroutine of descriptor [i], the
    goroutine that waits for the group and closes [doneChannel], or the
    [select] of the function on one of its two cases. *)
Inductive action : Type :=
| Run (i : nat)
| CloseDone
| SelectDone
| SelectErr.

Definition isFinished (g : goroutine) : bool :=
  match g_pc g with
  | Finished => true
  | _ => false
  end.

Fixpoint update {A : Type} (l : list A) (i : nat) (a : A) : list A :=
  match l, i with
  | [], _ => []
  | _ :: l', O => a :: l'
  | x :: l', S i' => x :: update l' i' a
  end.

Definition goto (g : goroutine) (p : pc) : goroutine :=
  {| g_metricDescriptor := g_metricDescriptor g;
     g_timeSeriesListCall := g_timeSeriesListCall g;
     g_pc := p |}.

Definition PageToken (call : TimeSeriesListCall) (token : string)
    : TimeSeriesListCall :=
  {| call_name := call_name call;
     call_filter := call_filter call;
     call_intervalStartTime := call_intervalStartTime call;
     call_intervalEndTime := call_intervalEndTime call;
     call_pageToken := token |}.

Section FanOut.
Context {ext : Collaborators}.

(** [timeSeriesListCall.Do()]: an error, a nil page or a page. *)
Variable Do : TimeSeriesListCall -> result (option ListTimeSeriesResponse).

(** Lines 159-162. *)
Definition timeSeriesListCall (c : MonitoringCollector)
    (metricDescriptor : MetricDescriptor) (startTime endTime : Time)
    : TimeSeriesListCall :=
  {| call_name := ProjectResource (projectID c);
     call_filter :=
       "metric.type=" ++ dquote ++ MD_Type metricDescriptor ++ dquote;
     call_intervalStartTime := time_Format startTime;
     call_intervalEndTime := time_Format endTime;
     call_pageToken := "" |}.

(** Lines 144-194: the state when the function reaches its [select], every
    goroutine started and none of them run yet. *)
Definition metricDescriptorsFunction (c : MonitoringCollector)
    (page : ListMetricDescriptorsResponse) (calls : float64) (clk : Clock)
    : scope * Clock :=
  let '(now1, clk1) := time_Now clk in
  let startTime := Add now1 (wrap64 (metricsInterval c * -1)) in
  let '(endTime, clk2) := time_Now clk1 in
  ({| goroutines :=
        map (fun metricDescriptor =>
               {| g_metricDescriptor := metricDescriptor;
                  g_timeSeriesListCall :=
                    timeSeriesListCall c metricDescriptor startTime endTime;
                  g_pc := AtDo |})
            (MetricDescriptors page);
      errChannel := None;
      doneChannel := false;
      returned := None;
      apiCalls := float64_add calls float64_one;
      sent := [];
      issued := [];
      crashed := false |},
   clk2).

(** One step of the goroutine of descriptor [i]; [None] when it cannot
    move: it has finished, or its send finds the channel full. *)
Definition runGoroutine (s : scope) (i : nat) : option scope :=
  match nth_error (goroutines s) i with
  | None => None
  | Some g =>
      match g_pc g with
      | AtDo =>
          let next :=
            match Do (g_timeSeriesListCall g) with
            | Err err => AtSend err
            | Ok None => Finished
            | Ok (Some page) => AtSelect page
            end in
          Some {| goroutines := update (goroutines s) i (goto g next);
                  errChannel := errChannel s;
                  doneChannel := doneChannel s;
                  returned := returned s;
                  apiCalls := float64_add (apiCalls s) float64_one;
                  sent := sent s;
                  issued := (issued s ++ [g_timeSeriesListCall g])%list;
                  crashed := crashed s |}
      | AtSend err =>
          match errChannel s with
          | Some _ => None
          | None =>
              Some {| goroutines := update (goroutines s) i (goto g Finished);
                      errChannel := Some err;
                      doneChannel := doneChannel s;
                      returned := returned s;
                      apiCalls := apiCalls s;
                      sent := sent s;
                      issued := issued s;
                      crashed := crashed s |}
          end
      | AtSelect page =>
          Some {| goroutines :=
                    update (goroutines s) i (goto g (AtReport page));
                  errChannel := None;
                  doneChannel := doneChannel s;
                  returned := returned s;
                  apiCalls := apiCalls s;
                  sent := sent s;
                  issued := issued s;
                  crashed := crashed s |}
      | AtReport page =>
          let '(metrics, how) :=
            reportTimeSeriesMetrics page (g_metricDescriptor g) in
          let g' :=
            match how with
            | Return (Some err) => goto g (AtSend err)
            | Return None =>
                if String.eqb (NextPageToken page) "" then goto g Finished
                else {| g_metricDescriptor := g_metricDescriptor g;
                        g_timeSeriesListCall :=
                          PageToken (g_timeSeriesListCall g)
                            (NextPageToken page);
                        g_pc := AtDo |}
            | Panic => g
            end in
          Some {| goroutines := update (goroutines s) i g';
                  errChannel := errChannel s;
                  doneChannel := doneChannel s;
                  returned := returned s;
                  apiCalls := apiCalls s;
                  sent := (sent s ++ metrics)%list;
                  issued := issued s;
                  crashed :=
                    match how with Panic => true | _ => crashed s end |}
      | Finished => None
      end
  end.

(** One step of the scope; [None] when the action is not enabled. After a
    panic the process is gone and nothing moves. *)
Definition step (s : scope) (a : action) : option scope :=
  if crashed s then None
  else
    match a with
    | Run i => runGoroutine s i
    | CloseDone =>
        if (forallb isFinished (goroutines s) && negb (doneChannel s))%bool
        then Some {| goroutines := goroutines s;
                     errChannel := errChannel s;
                     doneChannel := true;
                     returned := returned s;
                     apiCalls := apiCalls s;
                     sent := sent s;
                     issued := issued s;
                     crashed := crashed s |}
        else None
    | SelectDone =>
        match returned s with
        | Some _ => None
        | None =>
            if doneChannel s
            then Some {| goroutines := goroutines s;
                         errChannel := errChannel s;
                         doneChannel := doneChannel s;
                         returned := Some None;
                         apiCalls := apiCalls s;
                         sent := sent s;
                         issued := issued s;
                         crashed := crashed s |}
            else None
        end
    | SelectErr =>
        match returned s, errChannel s with
        | None, Some err =>
            Some {| goroutines := goroutines s;
                    errChannel := None;
                    doneChannel := doneChannel s;
                    returned := Some (Some err);
                    apiCalls := apiCalls s;
                    sent := sent s;
                    issued := issued s;
                    crashed := crashed s |}
        | _, _ => None
        end
    end.

(** The scope after a schedule, when each of its actions is enabled in
    turn. *)
Fixpoint steps (s : scope) (schedule : list action) : option scope :=
  match schedule with
  | [] => Some s
  | a :: rest =>
      match step s a with
      | Some s' => steps s' rest
      | None => None
      end
  end.

End FanOut.

(** ** The descriptor pages of one prefix

    [Pages] of the descriptor listing call, as the goroutine of a prefix runs
    it (lines 216-218): each page it fetches is handed to
    metricDescriptorsFunction, and the next page is fetched when that call
    has returned nil. One schedule is given per page; the result is [None]
    when a schedule is not executable, leaves the function in its [select],
    or when the schedules run out. *)
Section Pages.
Context {ext : Collaborators}.
Variable Do : TimeSeriesListCall -> result (option ListTimeSeriesResponse).

(** [Do] of the descriptor listing call with the filter of a prefix, at a
    page token. *)
Variable ListDo : string -> string -> result ListMetricDescriptorsResponse.

Definition prefixFilter (metricsTypePrefix : string) : string :=
  "metric.type = starts_with(" ++ dquote ++ metricsTypePrefix ++ dquote ++ ")".

(** The scopes of the pages visited, in order, each as it is when its
    function returns, and the error [Pages] returns. *)
Fixpoint Pages (c : MonitoringCollector) (filter pageToken : string)
    (schedules : list (list action)) (calls : float64) (clk : Clock)
    : option (list scope * option string) :=
  match schedules with
  | [] => None
  | schedule :: rest =>
      match ListDo filter pageToken with
      | Err err => Some ([], Some err)
      | Ok page =>
          let '(s0, clk') := metricDescriptorsFunction c page calls clk in
          match steps Do s0 schedule with
          | None => None
          | Some s =>
              match returned s with
              | None => None
              | Some (Some err) => Some ([s], Some err)
              | Some None =>
                  if String.eqb (MD_NextPageToken page) "" then Some ([s], None)
                  else
                    match Pages c filter (MD_NextPageToken page) rest
                            (apiCalls s) clk' with
                    | Some (ss, err) => Some (s :: ss, err)
                    | None => None
                    end
              end
          end
      end
  end.

End Pages.

(** ** Collect *)

Inductive bookkeeping : Type :=
| ApiCallsTotal
| ScrapesTotal
| ScrapeErrorsTotal
| LastScrapeError
| LastScrapeTimestamp
| LastScrapeDurationSeconds.

Definition metricOf (c : MonitoringCollector) (m : bookkeeping) : float64 :=
  match m with
  | ApiCallsTotal => apiCallsTotalMetric c
  | ScrapesTotal => scrapesTotalMetric c
  | ScrapeErrorsTotal => scrapeErrorsTotalMetric c
  | LastScrapeError => lastScrapeErrorMetric c
  | LastScrapeTimestamp => lastScrapeTimestampMetric c
  | LastScrapeDurationSeconds => lastScrapeDurationSecondsMetric c
  end.

Definition withMetrics (c : MonitoringCollector)
    (apiCallsTotal scrapesTotal scrapeErrorsTotal lastScrapeError
       lastScrapeTimestamp lastScrapeDurationSeconds : float64)
    : MonitoringCollector :=
  {| projectID := projectID c;
     metricsTypePrefixes := metricsTypePrefixes c;
     metricsInterval := metricsInterval c;
     apiCallsTotalMetric := apiCallsTotal;
     scrapesTotalMetric := scrapesTotal;
     scrapeErrorsTotalMetric := scrapeErrorsTotal;
     lastScrapeErrorMetric := lastScrapeError;
     lastScrapeTimestampMetric := lastScrapeTimestamp;
     lastScrapeDurationSecondsMetric := lastScrapeDurationSeconds |}.

Definition setMetric (c : MonitoringCollector) (m : bookkeeping) (v : float64)
    : MonitoringCollector :=
  match m with
  | ApiCallsTotal =>
      withMetrics c v (scrapesTotalMetric c) (scrapeErrorsTotalMetric c)
        (lastScrapeErrorMetric c) (lastScrapeTimestampMetric c)
        (lastScrapeDurationSecondsMetric c)
  | ScrapesTotal =>
      withMetrics c (apiCallsTotalMetric c) v (scrapeErrorsTotalMetric c)
        (lastScrapeErrorMetric c) (lastScrapeTimestampMetric c)
        (lastScrapeDurationSecondsMetric c)
  | ScrapeErrorsTotal =>
      withMetrics c (apiCallsTotalMetric c) (scrapesTotalMetric c) v
        (lastScrapeErrorMetric c) (lastScrapeTimestampMetric c)
        (lastScrapeDurationSecondsMetric c)
  | LastScrapeError =>
      withMetrics c (apiCallsTotalMetric c) (scrapesTotalMetric c)
        (scrapeErrorsTotalMetric c) v (lastScrapeTimestampMetric c)
        (lastScrapeDurationSecondsMetric c)
  | LastScrapeTimestamp =>
      withMetrics c (apiCallsTotalMetric c) (scrapesTotalMetric c)
        (scrapeErrorsTotalMetric c) (lastScrapeErrorMetric c) v
        (lastScrapeDurationSecondsMetric c)
  | LastScrapeDurationSeconds =>
      withMetrics c (apiCallsTotalMetric c) (scrapesTotalMetric c)
        (scrapeErrorsTotalMetric c) (lastScrapeErrorMetric c)
        (lastScrapeTimestampMetric c) v
  end.

(** The [Name] of the options a bookkeeping metric is created with (lines
    31-89), and whether it is a counter or a gauge. *)
Definition nameOf (m : bookkeeping) : string :=
  match m with
  | ApiCallsTotal => "api_calls_total"
  | ScrapesTotal => "scrapes_total"
  | ScrapeErrorsTotal => "scrape_errors_total"
  | LastScrapeError => "last_scrape_error"
  | LastScrapeTimestamp => "last_scrape_timestamp"
  | LastScrapeDurationSeconds => "last_scrape_duration_seconds"
  end.

Definition helpOf (m : bookkeeping) : string :=
  match m with
  | ApiCallsTotal =>
      "Total number of Google Stackdriver Monitoring API calls made."
  | ScrapesTotal =>
      "Total number of Google Stackdriver Monitoring metrics scrapes."
  | ScrapeErrorsTotal =>
      "Total number of Google Stackdriver Monitoring metrics scrape errors."
  | LastScrapeError =>
      "Whether the last metrics scrape from Google Stackdriver Monitoring resulted in an error (1 for error, 0 for success)."
  | LastScrapeTimestamp =>
      "Number of seconds since 1970 since last metrics scrape from Google Stackdriver Monitoring."
  | LastScrapeDurationSeconds =>
      "Duration of the last metrics scrape from Google Stackdriver Monitoring."
  end.

Definition typeOf (m : bookkeeping) : PromValueType :=
  match m with
  | ApiCallsTotal | ScrapesTotal | ScrapeErrorsTotal => CounterValue
  | _ => GaugeValue
  end.

(** What [Collect] of a bookkeeping metric sends: its description and its
    current value. *)
Definition bookkeepingMetric (c : MonitoringCollector) (m : bookkeeping)
    : ConstMetric :=
  {| desc := {| fqName := BuildFQName "stackdriver" "monitoring" (nameOf m);
                help := helpOf m;
                variableLabels := [];
                constLabels := [("project_id", projectID c)] |};
     valType := typeOf m;
     value := metricOf c m;
     labelValues := [] |}.

(** [t.Unix()]. *)
Definition Unix (t : Time) : Z := t / 1000000000.

(** [t.Sub(u)], which saturates. *)
Definition Sub (t u : Time) : Duration :=
  let d := t - u in
  if d <? int64_min then int64_min
  else if int64_max <? d then int64_max
  else d.

(** [d.Seconds()]. *)
Definition Seconds (d : Duration) : float64 :=
  let sec := Z.quot d Second in
  let nsec := Z.rem d Second in
  float64_add (float64_of_int sec)
    (float64_div (float64_of_int nsec) (float64_of_int 1000000000)).

(** What a scrape acts on: the collector, the metrics sent on [ch], the
    clock and the log. *)
Record world : Type := {
  collector : MonitoringCollector;
  ch : list ConstMetric;
  clock : Clock;
  logged : list string
}.

(** Statements of [Collect], as functions of the world. *)
Definition M (A : Type) : Type := world -> A * world.

Definition ret {A : Type} (a : A) : M A := fun w => (a, w).

Definition bind {A B : Type} (m : M A) (k : A -> M B) : M B :=
  fun w => let '(a, w') := m w in k a w'.

Declare Scope collect_scope.
Delimit Scope collect_scope with collect.
Notation "x <- m ;; k" := (bind m (fun x => k))
  (at level 61, m at next level, right associativity) : collect_scope.
Notation "m ;; k" := (bind m (fun _ => k))
  (at level 61, right associativity) : collect_scope.

Definition Now : M Time :=
  fun w =>
    let '(t, clk) := time_Now (clock w) in
    (t, {| collector := collector w; ch := ch w; clock := clk;
           logged := logged w |}).

Definition Inc (m : bookkeeping) : M unit :=
  fun w =>
    (tt, {| collector :=
              setMetric (collector w) m
                (float64_add (metricOf (collector w) m) float64_one);
            ch := ch w; clock := clock w; logged := logged w |}).

Definition GaugeSet (m : bookkeeping) (v : float64) : M unit :=
  fun w =>
    (tt, {| collector := setMetric (collector w) m v;
            ch := ch w; clock := clock w; logged := logged w |}).

Definition MetricCollect (m : bookkeeping) : M unit :=
  fun w =>
    (tt, {| collector := collector w;
            ch := (ch w ++ [bookkeepingMetric (collector w) m])%list;
            clock := clock w; logged := logged w |}).

Definition Errorf (msg : string) : M unit :=
  fun w =>
    (tt, {| collector := collector w; ch := ch w; clock := clock w;
            logged := (logged w ++ [msg])%list |}).

Section Collect.

(** [c.reportMonitoringMetrics(ch)], for the calls that return: what it
    does to the world until then, and the error it returns. *)
Variable reportMonitoringMetrics : M (option string).

(** Lines 116-140. *)
Definition Collect : M unit :=
  (begun <- Now ;;
   err <- reportMonitoringMetrics ;;
   errorMetric <-
     match err with
     | Some err =>
         Inc ScrapeErrorsTotal ;;
         Errorf ("Error while getting Google Stackdriver Monitoring metrics: "
                   ++ err) ;;
         ret float64_one
     | None => ret float64_zero
     end ;;
   MetricCollect ScrapeErrorsTotal ;;
   MetricCollect ApiCallsTotal ;;
   Inc ScrapesTotal ;;
   MetricCollect ScrapesTotal ;;
   GaugeSet LastScrapeError errorMetric ;;
   MetricCollect LastScrapeError ;;
   now <- Now ;;
   GaugeSet LastScrapeTimestamp (float64_of_int (Unix now)) ;;
   MetricCollect LastScrapeTimestamp ;;
   now' <- Now ;;
   GaugeSet LastScrapeDurationSeconds (Seconds (Sub now' begun)) ;;
   MetricCollect LastScrapeDurationSeconds)%collect.

End Collect.

(** ** A concrete runtime and sample data *)

Definition isNameChar (c : ascii) : bool :=
  let n := nat_of_ascii c in
  (((48 <=? n) && (n <=? 57)) || ((65 <=? n) && (n <=? 90))
   || ((97 <=? n) && (n <=? 122)) || (n =? 95))%nat%bool.

(** Modelled from the spec: [utils.NormalizeMetricName] is not among the
    sources. The spec says of it that it is a pure deterministic function
    turning a raw metric type into an exposition-safe name; this stand-in
    replaces every character that is not a letter, a digit or an underscore
    by an underscore. No property below depends on it. *)
Fixpoint normalizeModel (s : string) : string :=
  match s with
  | EmptyString => EmptyString
  | String c rest =>
      String (if isNameChar c then c else "_"%char) (normalizeModel rest)
  end.

(** Modelled from the spec: [utils.ProjectResource] is not among the
    sources, and the spec says nothing of the resource name of a project;
    this stand-in is the resource path of the monitoring API. No property
    below depends on it. *)
Definition projectResourceModel (projectID : string) : string :=
  "projects/" ++ projectID.

Definition goRuntime : Collaborators :=
  {| time_Parse := RFC3339.Parse;
     time_Format := RFC3339.Format;
     NormalizeMetricName := normalizeModel;
     ProjectResource := projectResourceModel |}.

Module Samples.

Definition double (f : float64) : TypedValue :=
  {| BoolValue := None; Int64Value := None; DoubleValue := Some f |}.

Definition int64 (i : Z) : TypedValue :=
  {| BoolValue := None; Int64Value := Some i; DoubleValue := None |}.

Definition boolean (b : bool) : TypedValue :=
  {| BoolValue := Some b; Int64Value := None; DoubleValue := None |}.

Definition point (endTime : string) (v : TypedValue) : Point :=
  {| Interval := {| EndTime := endTime; StartTime := endTime |};
     Value := v |}.

Definition series (kind valueType : string)
    (metricLabels resourceLabels : Labels) (points : list Point)
    : TimeSeries :=
  {| TS_Metric :=
       {| Metric_Labels := metricLabels;
          Metric_Type := "compute.googleapis.com/instance/cpu/utilization" |};
     MetricKind := kind;
     Points := points;
     Resource := {| Resource_Labels := resourceLabels;
                    Resource_Type := "gce_instance" |};
     ValueType := valueType |}.

Definition page (ts : list TimeSeries) : ListTimeSeriesResponse :=
  {| NextPageToken := ""; TimeSeries_ := ts |}.

Definition cpu : MetricDescriptor :=
  {| Description := "CPU utilization";
     MD_Type := "compute.googleapis.com/instance/cpu/utilization";
     Unit := "1" |}.

Definition descriptor (type : string) : MetricDescriptor :=
  {| Description := type; MD_Type := type; Unit := "1" |}.

(** 1.5, 2.0 and 2.5 *)
Definition f1_5 : float64 := S754_finite false 6755399441055744 (-52).
Definition f2_0 : float64 := S754_finite false 4503599627370496 (-51).
Definition f2_5 : float64 := S754_finite false 5629499534213120 (-51).

(** A gauge with one point, and a gauge of the same kind and value type
    with none. *)
Definition withPoint : TimeSeries :=
  series "GAUGE" "DOUBLE" [] [] [point "2020-01-01T00:00:00Z" (double f1_5)].

Definition noPoints : TimeSeries := series "GAUGE" "DOUBLE" [] [] [].

(** End times [T], [T+5s], [T+2s]. *)
Definition threePoints : TimeSeries :=
  series "GAUGE" "DOUBLE" [] []
    [point "2020-01-01T00:00:00Z" (double f1_5);
     point "2020-01-01T00:00:05Z" (double f2_0);
     point "2020-01-01T00:00:02Z" (double f2_5)].

(** Two points with the same end time. *)
Definition tied : TimeSeries :=
  series "GAUGE" "DOUBLE" [] []
    [point "2020-01-01T00:00:05Z" (double f1_5);
     point "2020-01-01T00:00:05Z" (double f2_0)].

(** A single point at the Unix epoch. *)
Definition atEpoch : TimeSeries :=
  series "GAUGE" "DOUBLE" [] [] [point "1970-01-01T00:00:00Z" (double f1_5)].

(** A point whose end time does not parse. *)
Definition unparsable : TimeSeries :=
  series "GAUGE" "DOUBLE" [] [] [point "yesterday" (double f1_5)].

Definition distributionUnparsable : TimeSeries :=
  series "GAUGE" "DISTRIBUTION" [] []
    [point "yesterday"
       {| BoolValue := None; Int64Value := None; DoubleValue := None |}].

Definition unknownKind : TimeSeries :=
  series "METRIC_KIND_UNSPECIFIED" "DOUBLE" [] []
    [point "2020-01-01T00:00:00Z" (double f1_5)].

Definition distribution : TimeSeries :=
  series "CUMULATIVE" "DISTRIBUTION" [] []
    [point "2020-01-01T00:00:00Z"
       {| BoolValue := None; Int64Value := None; DoubleValue := None |}].

Definition bigInt : TimeSeries :=
  series "DELTA" "INT64" [] []
    [point "2020-01-01T00:00:00Z" (int64 9007199254740993)].

Definition fortyTwo : TimeSeries :=
  series "DELTA" "INT64" [] [] [point "2020-01-01T00:00:00Z" (int64 42)].

Definition flag : TimeSeries :=
  series "GAUGE" "BOOL" [] [] [point "2020-01-01T00:00:00Z" (boolean true)].

(** The key [zone] is a metric label and a resource label. *)
Definition labelled : TimeSeries :=
  series "GAUGE" "DOUBLE"
    [("zone", "a"); ("instance_name", "vm-1")]
    [("zone", "europe-west1-b"); ("project_id", "p")]
    [point "2020-01-01T00:00:00Z" (double f1_5)].

Definition collector0 : MonitoringCollector :=
  {| projectID := "p";
     metricsTypePrefixes := ["compute.googleapis.com/instance/cpu"];
     metricsInterval := 5 * 60 * Second;
     apiCallsTotalMetric := float64_zero;
     scrapesTotalMetric := float64_zero;
     scrapeErrorsTotalMetric := float64_zero;
     lastScrapeErrorMetric := float64_zero;
     lastScrapeTimestampMetric := float64_zero;
     lastScrapeDurationSecondsMetric := float64_zero |}.

(** A clock that starts at 2020-01-01T00:00:00Z and advances by a
    millisecond from one reading to the next. *)
Definition clock0 : Clock :=
  {| reading := fun n => 1577836800000000000 + Z.of_nat n * 1000000;
     reads := 0 |}.

(** Every time-series fetch fails. *)
Definition unavailable (call : TimeSeriesListCall)
    : result (option ListTimeSeriesResponse) :=
  Err ("unavailable: " ++ call_filter call).

(** The fetch for descriptor [a] fails; any other fetch returns a page of
    one series. *)
Definition oneFails (call : TimeSeriesListCall)
    : result (option ListTimeSeriesResponse) :=
  if String.eqb (call_filter call) ("metric.type=" ++ dquote ++ "a" ++ dquote)
  then Err "unavailable"
  else Ok (Some (page [withPoint])).

(** Every fetch returns a page of one series. *)
Definition healthy (call : TimeSeriesListCall)
    : result (option ListTimeSeriesResponse) :=
  Ok (Some (page [withPoint])).

Definition descriptors (types : list string) : ListMetricDescriptorsResponse :=
  {| MetricDescriptors := map descriptor types; MD_NextPageToken := "" |}.

(** Two descriptor pages of one descriptor each. *)
Definition twoPages (filter pageToken : string)
    : result ListMetricDescriptorsResponse :=
  if String.eqb pageToken ""
  then Ok {| MetricDescriptors := [descriptor "a"]; MD_NextPageToken := "2" |}
  else Ok {| MetricDescriptors := [descriptor "b"]; MD_NextPageToken := "" |}.

(** The goroutine of the only descriptor fetches its page, passes its
    [select], reports and finishes; the group is done and the function
    returns nil. *)
Definition oneDescriptor : list action :=
  [Run 0%nat; Run 0%nat; Run 0%nat; CloseDone; SelectDone].

(** Three descriptors. Each goroutine calls [Do]; the first sends its
    error; the function receives it and returns; the second sends its
    error. *)
Definition threeFailures : list action :=
  [Run 0%nat; Run 1%nat; Run 2%nat; Run 0%nat; SelectErr; Run 1%nat].

(** Two descriptors. The goroutine of [b] fetches its page; the goroutine
    of [a] fails to fetch and sends its error; the goroutine of [b] passes
    its [select], reports and finishes; the group is done and the function
    takes the done case. *)
Definition errorTaken : list action :=
  [Run 1%nat; Run 0%nat; Run 0%nat; Run 1%nat; Run 1%nat; CloseDone;
   SelectDone].

Definition window (call : TimeSeriesListCall) : string * string :=
  (call_intervalStartTime call, call_intervalEndTime call).

End Samples.

(** ** Notions the properties are stated with *)

Section Notions.
Context {ext : Collaborators}.

(** The end time of a point parses, to [t]. *)
Definition endTimeOf (point : Point) (t : Time) : Prop :=
  time_Parse (EndTime (Interval point)) = Ok t.

(** The end times of a sequence of points all parse, to [ends]. *)
Definition endTimes (points : list Point) (ends : list Time) : Prop :=
  Forall2 endTimeOf points ends.

(** [t] is the end time of the point at index [i], it is the greatest of
    the end times, and no point before index [i] has it. *)
Definition firstNewest (ends : list Time) (i : nat) (t : Time) : Prop :=
  nth_error ends i = Some t
  /\ (forall t', In t' ends -> t' <= t)
  /\ (forall j t', (j < i)%nat -> nth_error ends j = Some t' -> t' < t).

(** The float64 [f] is finite and denotes the rational [q]. *)
Definition denotes (f : float64) (q : Q) : Prop :=
  exists q', float64_toQ f = Some q' /\ Qeq q' q.

Definition supportedKind (metricKind : string) : Prop :=
  metricKind = "GAUGE" \/ metricKind = "DELTA" \/ metricKind = "CUMULATIVE".

Definition supportedValueType (valueType : string) : Prop :=
  valueType = "BOOL" \/ valueType = "INT64" \/ valueType = "DOUBLE".

End Notions.

(** Every goroutine's call and every request issued in a scope carries the
    window [(start, finish)]. *)
Definition windowed (start finish : string) (s : scope) : Prop :=
  Forall (fun g => call_intervalStartTime (g_timeSeriesListCall g) = start
                   /\ call_intervalEndTime (g_timeSeriesListCall g) = finish)
    (goroutines s)
  /\ Forall (fun r => call_intervalStartTime r = start
                      /\ call_intervalEndTime r = finish)
       (issued s).

(** ** NewMonitoringCollector, Describe and successive scrapes *)

(** Lines 30-105: the six metrics are created at zero; the error returned
    is always nil. The monitoring service the collector holds is the remote
    end of the two listing calls. *)
Definition NewMonitoringCollector (projectID : string)
    (metricsTypePrefixes : list string) (metricsInterval : Duration)
    : MonitoringCollector * option string :=
  ({| projectID := projectID;
      metricsTypePrefixes := metricsTypePrefixes;
      metricsInterval := metricsInterval;
      apiCallsTotalMetric := float64_zero;
      scrapesTotalMetric := float64_zero;
      scrapeErrorsTotalMetric := float64_zero;
      lastScrapeErrorMetric := float64_zero;
      lastScrapeTimestampMetric := float64_zero;
      lastScrapeDurationSecondsMetric := float64_zero |},
   None).

(** Lines 107-114: the descriptions sent on the channel, in order. *)
Definition Describe (c : MonitoringCollector) : list Desc :=
  map (fun m => desc (bookkeepingMetric c m))
    [ApiCallsTotal; ScrapesTotal; ScrapeErrorsTotal; LastScrapeError;
     LastScrapeTimestamp; LastScrapeDurationSeconds].

(** The registry calls [Collect] once for every scrape; the pipeline of each
    scrape is given. *)
Fixpoint Scrapes (pipelines : list (M (option string))) : M unit :=
  match pipelines with
  | [] => ret tt
  | pipeline :: rest => bind (Collect pipeline) (fun _ => Scrapes rest)
  end.

(** A pipeline leaves alone what only [Collect] touches: the project, the
    two scrape counters and the log. *)
Definition keepsScrapeCounters (pipeline : M (option string)) : Prop :=
  forall w,
    let w' := snd (pipeline w) in
    projectID (collector w') = projectID (collector w)
    /\ scrapesTotalMetric (collector w') = scrapesTotalMetric (collector w)
    /\ scrapeErrorsTotalMetric (collector w')
       = scrapeErrorsTotalMetric (collector w)
    /\ logged w' = logged w.

(** The mantissa and the exponent of the float64 of a positive integer below
    [2^53]: the integer shifted to 53 digits. *)
Definition aligned64 (n : positive) : positive * Z :=
  (match Zpos (digits2_pos n) - 53 with
   | Zneg k => Pos.iter xO n k
   | _ => n
   end,
   Zpos (digits2_pos n) - 53).

(** ** Well-formed series *)

Section WellFormed.
Context {ext : Collaborators}.

(** The point holds the scalar the value type reads. *)
Definition carries (valueType : string) (p : Point) : Prop :=
  (valueType = "BOOL" -> BoolValue (Value p) <> None)
  /\ (valueType = "INT64" -> Int64Value (Value p) <> None)
  /\ (valueType = "DOUBLE" -> DoubleValue (Value p) <> None).

(** The end times of the points parse, one of them is later than the Unix
    epoch, and every point holds the scalar of the value type of the
    series. *)
Definition wellFormed (ts : TimeSeries) : Prop :=
  exists ends,
    endTimes (Points ts) ends
    /\ (exists t, In t ends /\ time_Unix 0 0 < t)
    /\ Forall (carries (ValueType ts)) (Points ts).

(** The reduction of one series on its own: the loop body on a page that
    holds nothing else. *)
Definition reduceSeries (md : MetricDescriptor) (ts : TimeSeries)
    : list ConstMetric :=
  fst (rangeTimeSeries md [ts] None []).

(** An error a reduction of the page can return: the error of a point whose
    end time does not parse. *)
Definition endTimeErrorOf (series : list TimeSeries) (err : string) : Prop :=
  exists ts p msg,
    In ts series /\ In p (Points ts)
    /\ time_Parse (EndTime (Interval p)) = Err msg
    /\ err = endTimeError (EndTime (Interval p)) msg.

End WellFormed.

(** ** What holds of a scope at every step *)

Section ScopeInvariant.
Context {ext : Collaborators}.
Variable Do : TimeSeriesListCall -> result (option ListTimeSeriesResponse).

(** A page some fetch returns. *)
Definition fetched (page : ListTimeSeriesResponse) : Prop :=
  exists call, Do call = Ok (Some page).

(** An error a goroutine of the scope can come to send: the error of a
    fetch, or the error of the reduction of a fetched page for one of the
    descriptors. *)
Definition raised (descriptors : list MetricDescriptor) (err : string)
    : Prop :=
  (exists call, Do call = Err err)
  \/ (exists page md metrics,
        fetched page /\ In md descriptors
        /\ reportTimeSeriesMetrics page md = (metrics, Return (Some err))).

(** The request of descriptor [md] at a page token: the call of lines
    159-162, with the token of line 186. *)
Definition requestOf (c : MonitoringCollector) (startTime endTime : Time)
    (md : MetricDescriptor) (token : string) : TimeSeriesListCall :=
  PageToken (timeSeriesListCall c md startTime endTime) token.

(** A page token a request can carry: none, or the token of a fetched
    page. *)
Definition followsPage (token : string) : Prop :=
  token = ""
  \/ exists page, fetched page /\ NextPageToken page = token /\ token <> "".

Definition goroutineOk (c : MonitoringCollector) (startTime endTime : Time)
    (descriptors : list MetricDescriptor) (g : goroutine) : Prop :=
  In (g_metricDescriptor g) descriptors
  /\ (exists token,
        g_timeSeriesListCall g
        = requestOf c startTime endTime (g_metricDescriptor g) token
        /\ followsPage token)
  /\ match g_pc g with
     | AtSend err => raised descriptors err
     | AtSelect page | AtReport page => fetched page
     | _ => True
     end.

(** A metric a goroutine of the scope sends: built for one of the
    descriptors from a series of a fetched page. *)
Definition metricOk (descriptors : list MetricDescriptor) (m : ConstMetric)
    : Prop :=
  exists md page ts kind v,
    In md descriptors /\ fetched page /\ In ts (TimeSeries_ page)
    /\ switchMetricKind (MetricKind ts) = Some kind
    /\ m = constMetricOf md ts kind v.

Definition scopeOk (c : MonitoringCollector) (startTime endTime : Time)
    (descriptors : list MetricDescriptor) (s : scope) : Prop :=
  Forall (goroutineOk c startTime endTime descriptors) (goroutines s)
  /\ Forall (fun r => exists md token,
                 In md descriptors
                 /\ r = requestOf c startTime endTime md token
                 /\ followsPage token)
       (issued s)
  /\ Forall (metricOk descriptors) (sent s)
  /\ (forall err, errChannel s = Some err -> raised descriptors err)
  /\ (forall err, returned s = Some (Some err) -> raised descriptors err)
  /\ (doneChannel s = true -> forallb isFinished (goroutines s) = true)
  /\ (returned s = Some None -> doneChannel s = true).

End ScopeInvariant.

(** ** The fan-out over the prefixes: reportMonitoringMetrics

    The goroutines started for the configured prefixes (lines 210-222), the
    two channels and the [select] of the function (lines 224-233), as a
    transition system whose steps a scheduler picks. What [Pages] returns
    for the listing call of a prefix, after running metricDescriptorsFunction
    on the pages it fetches, is given; the calls that do not return are left
    out. *)

(** Where the goroutine of a prefix stands. *)
Inductive prefix_pc : Type :=
| AtPages                      (* lines 216-218 *)
| AtPrefixSend (err : string)  (* line 219 *)
| PrefixFinished.              (* [wg.Done()] ran *)

Record prefixGoroutine : Type := {
  pg_metricsTypePrefix : string;
  pg_pc : prefix_pc
}.

Record scrape : Type := {
  prefixGoroutines : list prefixGoroutine;
  (** [errChannel] of line 208, of capacity 1: the value it buffers *)
  scrape_errChannel : option string;
  (** whether [doneChannel] of line 207 is closed *)
  scrape_doneChannel : bool;
  (** what reportMonitoringMetrics returned, once its [select] has fired *)
  scrape_returned : option (option string);
  (** the filters of the listing calls [Pages] was run on *)
  listed : list string
}.

Definition isPrefixFinished (g : prefixGoroutine) : bool :=
  match pg_pc g with
  | PrefixFinished => true
  | _ => false
  end.

Section Prefixes.

(** The error [Pages] returns for the listing call with a filter. *)
Variable PagesOf : string -> option string.

(** Lines 205-227: the state when the function reaches its [select], every
    goroutine started and none of them run yet. *)
Definition reportMonitoringMetrics (c : MonitoringCollector) : scrape :=
  {| prefixGoroutines :=
       map (fun metricsTypePrefix =>
              {| pg_metricsTypePrefix := metricsTypePrefix;
                 pg_pc := AtPages |})
           (metricsTypePrefixes c);
     scrape_errChannel := None;
     scrape_doneChannel := false;
     scrape_returned := None;
     listed := [] |}.

(** One step of the goroutine of prefix [i]; [None] when it cannot move: it
    has finished, or its send finds the channel full. *)
Definition runPrefix (s : scrape) (i : nat) : option scrape :=
  match nth_error (prefixGoroutines s) i with
  | None => None
  | Some g =>
      match pg_pc g with
      | AtPages =>
          let filter := prefixFilter (pg_metricsTypePrefix g) in
          let next :=
            match PagesOf filter with
            | Some err => AtPrefixSend err
            | None => PrefixFinished
            end in
          Some {| prefixGoroutines :=
                    update (prefixGoroutines s) i
                      {| pg_metricsTypePrefix := pg_metricsTypePrefix g;
                         pg_pc := next |};
                  scrape_errChannel := scrape_errChannel s;
                  scrape_doneChannel := scrape_doneChannel s;
                  scrape_returned := scrape_returned s;
                  listed := (listed s ++ [filter])%list |}
      | AtPrefixSend err =>
          match scrape_errChannel s with
          | Some _ => None
          | None =>
              Some {| prefixGoroutines :=
                        update (prefixGoroutines s) i
                          {| pg_metricsTypePrefix := pg_metricsTypePrefix g;
                             pg_pc := PrefixFinished |};
                      scrape_errChannel := Some err;
                      scrape_doneChannel := scrape_doneChannel s;
                      scrape_returned := scrape_returned s;
                      listed := listed s |}
          end
      | PrefixFinished => None
      end
  end.

(** One step of the fan-out; [None] when the action is not enabled. *)
Definition scrapeStep (s : scrape) (a : action) : option scrape :=
  match a with
  | Run i => runPrefix s i
  | CloseDone =>
      if (forallb isPrefixFinished (prefixGoroutines s)
          && negb (scrape_doneChannel s))%bool
      then Some {| prefixGoroutines := prefixGoroutines s;
                   scrape_errChannel := scrape_errChannel s;
                   scrape_doneChannel := true;
                   scrape_returned := scrape_returned s;
                   listed := listed s |}
      else None
  | SelectDone =>
      match scrape_returned s with
      | Some _ => None
      | None =>
          if scrape_doneChannel s
          then Some {| prefixGoroutines := prefixGoroutines s;
                       scrape_errChannel := scrape_errChannel s;
                       scrape_doneChannel := scrape_doneChannel s;
                       scrape_returned := Some None;
                       listed := listed s |}
          else None
      end
  | SelectErr =>
      match scrape_returned s, scrape_errChannel s with
      | None, Some err =>
          Some {| prefixGoroutines := prefixGoroutines s;
                  scrape_errChannel := None;
                  scrape_doneChannel := scrape_doneChannel s;
                  scrape_returned := Some (Some err);
                  listed := listed s |}
      | _, _ => None
      end
  end.

Fixpoint scrapeSteps (s : scrape) (schedule : list action) : option scrape :=
  match schedule with
  | [] => Some s
  | a :: rest =>
      match scrapeStep s a with
      | Some s' => scrapeSteps s' rest
      | None => None
      end
  end.

(** What every step of the fan-out keeps. *)
Definition scrapeOk (c : MonitoringCollector) (s : scrape) : Prop :=
  Forall (fun g =>
            In (pg_metricsTypePrefix g) (metricsTypePrefixes c)
            /\ match pg_pc g with
               | AtPrefixSend err =>
                   PagesOf (prefixFilter (pg_metricsTypePrefix g)) = Some err
               | _ => True
               end)
    (prefixGoroutines s)
  /\ (forall err, scrape_errChannel s = Some err ->
        exists prefix,
          In prefix (metricsTypePrefixes c)
          /\ PagesOf (prefixFilter prefix) = Some err)
  /\ (forall err, scrape_returned s = Some (Some err) ->
        exists prefix,
          In prefix (metricsTypePrefixes c)
          /\ PagesOf (prefixFilter prefix) = Some err)
  /\ (scrape_doneChannel s = true ->
      forallb isPrefixFinished (prefixGoroutines s) = true)
  /\ (scrape_returned s = Some None -> scrape_doneChannel s = true)
  /\ Forall (fun filter =>
               exists prefix,
                 In prefix (metricsTypePrefixes c)
                 /\ filter = prefixFilter prefix)
       (listed s).

(** The function has returned, the channel is full, and the goroutines in
    [waiting] stand at their send. *)
Definition leaked (held : string) (waiting : list nat) (s : scrape) : Prop :=
  (exists r, scrape_returned s = Some r)
  /\ scrape_errChannel s = Some held
  /\ forall i, In i waiting ->
       exists g err,
         nth_error (prefixGoroutines s) i = Some g
         /\ pg_pc g = AtPrefixSend err.

End Prefixes.

(** Three prefixes; the listing of each fails. Each goroutine runs [Pages];
    the first sends its error; the function receives it and returns; the
    second sends its error. *)
Definition threePrefixes : MonitoringCollector :=
  {| projectID := "p";
     metricsTypePrefixes := ["a"; "b"; "c"];
     metricsInterval := 5 * 60 * Second;
     apiCallsTotalMetric := float64_zero;
     scrapesTotalMetric := float64_zero;
     scrapeErrorsTotalMetric := float64_zero;
     lastScrapeErrorMetric := float64_zero;
     lastScrapeTimestampMetric := float64_zero;
     lastScrapeDurationSecondsMetric := float64_zero |}.

Definition listingFails (filter : string) : option string :=
  Some ("unavailable: " ++ filter).

(** ** The send of an error, the shared counter, a pipeline that panics *)

Section ErrorSend.
Context {ext : Collaborators}.
Variable Do : TimeSeriesListCall -> result (option ListTimeSeriesResponse).

(** The next step of the goroutine of descriptor [i] puts [metrics] on the
    channel of metrics and takes the goroutine to the send of [err] (lines
    168 and 180). That send writes [err] into the error channel when the
    channel is empty, and the goroutine has then finished without another
    fetch; it cannot move while the channel holds an error. *)
Definition sendsError (s : scope) (i : nat) (g : goroutine) (err : string)
    (metrics : list ConstMetric) : Prop :=
  exists s',
    step Do s (Run i) = Some s'
    /\ nth_error (goroutines s') i = Some (goto g (AtSend err))
    /\ errChannel s' = errChannel s
    /\ sent s' = (sent s ++ metrics)%list
    /\ (errChannel s = None ->
        exists s'',
          step Do s' (Run i) = Some s''
          /\ errChannel s'' = Some err
          /\ nth_error (goroutines s'') i = Some (goto g Finished)
          /\ sent s'' = sent s'
          /\ issued s'' = issued s')
    /\ (forall held, errChannel s = Some held -> step Do s' (Run i) = None).

(** What happens next: a step of this call, or an increment of the API-call
    counter by a goroutine of another call of metricDescriptorsFunction
    (lines 146 and 165 run in every such call, and the counter is the
    collector's). *)
Inductive event : Type :=
| Here (a : action)
| Elsewhere.

Definition stepShared (s : scope) (e : event) : option scope :=
  match e with
  | Here a => step Do s a
  | Elsewhere =>
      if crashed s then None
      else Some {| goroutines := goroutines s;
                   errChannel := errChannel s;
                   doneChannel := doneChannel s;
                   returned := returned s;
                   apiCalls := float64_add (apiCalls s) float64_one;
                   sent := sent s;
                   issued := issued s;
                   crashed := crashed s |}
  end.

Fixpoint stepsShared (s : scope) (events : list event) : option scope :=
  match events with
  | [] => Some s
  | e :: rest =>
      match stepShared s e with
      | Some s' => stepsShared s' rest
      | None => None
      end
  end.

End ErrorSend.

(** The number of increments made elsewhere. *)
Fixpoint elsewhere (events : list event) : nat :=
  match events with
  | [] => O
  | Elsewhere :: rest => S (elsewhere rest)
  | Here _ :: rest => elsewhere rest
  end.

(** What the goroutines do, between two statements of [Collect], that
    reportMonitoringMetrics left running when it returned (lines 196-200
    and 230-234 return on the first error and wait for no goroutine): they
    send metrics of time series on the channel (line 293), count API calls
    (lines 146 and 165) and read the clock (lines 151-152). *)
Record leftovers : Type := {
  leftSent : list ConstMetric;
  leftCalls : nat;
  leftReads : nat
}.

Definition nobody : leftovers :=
  {| leftSent := []; leftCalls := 0; leftReads := 0 |}.

(** A counter after [n] calls of [Inc]. *)
Definition counted (n : nat) (v : float64) : float64 :=
  Nat.iter n (fun x => float64_add x float64_one) v.

Definition Leftovers (l : leftovers) : M unit :=
  fun w =>
    (tt, {| collector :=
              setMetric (collector w) ApiCallsTotal
                (counted (leftCalls l) (apiCallsTotalMetric (collector w)));
            ch := (ch w ++ leftSent l)%list;
            clock := {| reading := reading (clock w);
                        reads := reads (clock w) + leftReads l |};
            logged := logged w |}).

Section CollectAmid.

Variable reportMonitoringMetrics : M (option string).

(** [others k] is what the goroutines left running do before the
    statement numbered [k] below. *)
Variable others : nat -> leftovers.

(** Lines 116-140, with the goroutines left running. *)
Definition CollectAmid : M unit :=
  (begun <- Now ;;
   err <- reportMonitoringMetrics ;;
   Leftovers (others 0) ;;
   errorMetric <-
     match err with
     | Some err =>
         Inc ScrapeErrorsTotal ;;
         Leftovers (others 1) ;;
         Errorf ("Error while getting Google Stackdriver Monitoring metrics: "
                   ++ err) ;;
         ret float64_one
     | None => Leftovers (others 1) ;; ret float64_zero
     end ;;
   Leftovers (others 2) ;; MetricCollect ScrapeErrorsTotal ;;
   Leftovers (others 3) ;; MetricCollect ApiCallsTotal ;;
   Leftovers (others 4) ;; Inc ScrapesTotal ;;
   Leftovers (others 5) ;; MetricCollect ScrapesTotal ;;
   Leftovers (others 6) ;; GaugeSet LastScrapeError errorMetric ;;
   Leftovers (others 7) ;; MetricCollect LastScrapeError ;;
   Leftovers (others 8) ;; now <- Now ;;
   Leftovers (others 9) ;;
   GaugeSet LastScrapeTimestamp (float64_of_int (Unix now)) ;;
   Leftovers (others 10) ;; MetricCollect LastScrapeTimestamp ;;
   Leftovers (others 11) ;; now' <- Now ;;
   Leftovers (others 12) ;;
   GaugeSet LastScrapeDurationSeconds (Seconds (Sub now' begun)) ;;
   Leftovers (others 13) ;; MetricCollect LastScrapeDurationSeconds)%collect.




End CollectAmid.




(** Every fetch returns a page whose second series has a point with an end
    time that does not parse. *)
Definition unparsablePage (call : TimeSeriesListCall)
    : result (option ListTimeSeriesResponse) :=
  Ok (Some (Samples.page
              [Samples.withPoint; Samples.unparsable; Samples.threePoints])).

(** The fetches for the descriptors [a] and [b] fail; any other fetch
    returns a page of one series. *)
Definition twoFail (call : TimeSeriesListCall)
    : result (option ListTimeSeriesResponse) :=
  if (String.eqb (call_filter call) ("metric.type=" ++ dquote ++ "a" ++ dquote)
      || String.eqb (call_filter call)
           ("metric.type=" ++ dquote ++ "b" ++ dquote))%bool
  then Err ("unavailable: " ++ call_filter call)
  else Ok (Some (Samples.page [Samples.withPoint])).

(** Three descriptors. The goroutines of [a] and [b] fail to fetch, the
    goroutine of [c] fetches its page; [a] sends its error; the [select]
    of [c] takes it; [b] sends its error; [c] reports; the function
    receives the error of [b]. *)
Definition releasedBySibling : list action :=
  [Run 0%nat; Run 1%nat; Run 2%nat; Run 0%nat; Run 2%nat; Run 1%nat;
   Run 2%nat; SelectErr].


(** * Properties *)

(** ** The scan of the points of a series *)

Section PointsScan.
Context {ext : Collaborators}.

(** The scan either leaves its two variables as they were, no end time
    being later than [newestEndTime], or ends on the first point that has
    the greatest end time. *)
Lemma rangePoints_scan (points : list Point) (ends : list Time) :
  endTimes points ends ->
  forall newestEndTime newestTSPoint,
    (Forall (fun t => t <= newestEndTime) ends
     /\ rangePoints points newestEndTime newestTSPoint
        = Ok (newestEndTime, newestTSPoint))
    \/ (exists i p t,
          nth_error points i = Some p /\ firstNewest ends i t
          /\ newestEndTime < t
          /\ rangePoints points newestEndTime newestTSPoint = Ok (t, Some p)).
Proof.
  induction 1 as [|p0 t0 points ends Hp0 Hrest IH]; intros e0 prev.
  - left. split; [constructor | reflexivity].
  - assert (Hstep : rangePoints (p0 :: points) e0 prev
                    = if e0 <? t0 then rangePoints points t0 (Some p0)
                      else rangePoints points e0 prev).
    { cbn [rangePoints]. unfold endTimeOf in Hp0. now rewrite Hp0. }
    rewrite Hstep. clear Hstep.
    destruct (Z.ltb_spec e0 t0) as [Hlt | Hge].
    + right.
      destruct (IH t0 (Some p0))
        as [[Hall Hr] | (i & p & t & Hp & (Hnth & Hmax & Hfirst) & Hlt' & Hr)].
      * exists 0%nat, p0, t0.
        split; [reflexivity |]. split; [| split; [exact Hlt | exact Hr]].
        split; [reflexivity |]. split.
        -- intros t' [<- | Hin]; [lia |].
           rewrite Forall_forall in Hall. now apply Hall.
        -- intros j t' Hj. lia.
      * exists (S i), p, t.
        split; [exact Hp |]. split; [| split; [lia | exact Hr]].
        split; [exact Hnth |]. split.
        -- intros t' [<- | Hin]; [lia | now apply Hmax].
        -- intros [|j] t' Hj Hn; cbn in Hn.
           ++ injection Hn as <-. assumption.
           ++ apply (Hfirst j); [lia | assumption].
    + destruct (IH e0 prev)
        as [[Hall Hr] | (i & p & t & Hp & (Hnth & Hmax & Hfirst) & Hlt' & Hr)].
      * left. split; [constructor; assumption | assumption].
      * right. exists (S i), p, t.
        split; [exact Hp |]. split; [| split; [exact Hlt' | exact Hr]].
        split; [exact Hnth |]. split.
        -- intros t' [<- | Hin]; [lia | now apply Hmax].
        -- intros [|j] t' Hj Hn; cbn in Hn.
           ++ injection Hn as <-. lia.
           ++ apply (Hfirst j); [lia | assumption].
Qed.

(** Two indices that are both the first with the greatest end time are the
    same index. *)
Lemma firstNewest_unique (ends : list Time) (i j : nat) (t u : Time) :
  firstNewest ends i t -> firstNewest ends j u -> i = j /\ t = u.
Proof.
  intros (Hi & Hmaxi & Hfi) (Hj & Hmaxj & Hfj).
  assert (Htu : t = u).
  { apply nth_error_In in Hi, Hj.
    specialize (Hmaxi _ Hj). specialize (Hmaxj _ Hi). lia. }
  subst u. split; [| reflexivity].
  destruct (Nat.lt_trichotomy i j) as [Hlt | [Heq | Hgt]]; [| assumption |].
  - specialize (Hfj _ _ Hlt Hi). lia.
  - specialize (Hfi _ _ Hgt Hj). lia.
Qed.

(** When some end time is later than the Unix epoch, the scan of a series
    selects the first point with the greatest end time. *)
Lemma rangePoints_firstNewest (points : list Point) (ends : list Time)
    (newestTSPoint : option Point) (i : nat) (p : Point) (t : Time) :
  endTimes points ends ->
  nth_error points i = Some p ->
  firstNewest ends i t ->
  time_Unix 0 0 < t ->
  rangePoints points (time_Unix 0 0) newestTSPoint = Ok (t, Some p).
Proof.
  intros Hends Hp Hf Hpos.
  destruct (rangePoints_scan points ends Hends (time_Unix 0 0) newestTSPoint)
    as [[Hall _] | (i' & p' & t' & Hp' & Hf' & _ & Hr)].
  - destruct Hf as (Hnth & _ & _). apply nth_error_In in Hnth.
    rewrite Forall_forall in Hall. specialize (Hall _ Hnth). lia.
  - destruct (firstNewest_unique _ _ _ _ _ Hf' Hf) as [-> ->].
    rewrite Hp in Hp'. injection Hp' as <-. exact Hr.
Qed.

(** A scan that meets a point whose end time does not parse, after points
    whose end times do, fails with the error of that point, whatever its
    two variables hold. *)
Lemma rangePoints_error (before after : list Point) (bad : Point)
    (ends : list Time) (msg : string) :
  endTimes before ends ->
  time_Parse (EndTime (Interval bad)) = Err msg ->
  forall newestEndTime newestTSPoint,
    rangePoints (before ++ bad :: after) newestEndTime newestTSPoint
    = Err (endTimeError (EndTime (Interval bad)) msg).
Proof.
  intros Hends Hbad. induction Hends as [|p0 t0 ps ts Hp0 _ IH]; intros e0 prev.
  - cbn. now rewrite Hbad.
  - cbn. rewrite Hp0. destruct (After t0 e0); apply IH.
Qed.

(** A scan of points whose end times all parse does not fail. *)
Lemma rangePoints_ok (points : list Point) (ends : list Time) :
  endTimes points ends ->
  forall newestEndTime newestTSPoint,
  exists t sel,
    rangePoints points newestEndTime newestTSPoint = Ok (t, sel).
Proof.
  intros Hends e0 prev.
  destruct (rangePoints_scan points ends Hends e0 prev)
    as [[_ Hr] | (i & p & t & _ & _ & _ & Hr)]; eauto.
Qed.

End PointsScan.

(** ** The loop over the series of a page *)

Section SeriesLoop.
Context {ext : Collaborators}.

(** One iteration that reaches the send. *)
Lemma rangeTimeSeries_send (md : MetricDescriptor) (ts : TimeSeries)
    (rest : list TimeSeries) (prev sel : option Point) (ch : list ConstMetric)
    (t : Time) (kind : PromValueType) (v : float64) :
  rangePoints (Points ts) (time_Unix 0 0) prev = Ok (t, sel) ->
  switchMetricKind (MetricKind ts) = Some kind ->
  switchValueType (ValueType ts) sel = Chosen v ->
  rangeTimeSeries md (ts :: rest) prev ch
  = rangeTimeSeries md rest sel (ch ++ [constMetricOf md ts kind v]).
Proof.
  intros Hscan Hkind Hval. cbn [rangeTimeSeries].
  now rewrite Hscan, Hkind, Hval.
Qed.

(** One iteration that leaves the series out. *)
Lemma rangeTimeSeries_continue (md : MetricDescriptor) (ts : TimeSeries)
    (rest : list TimeSeries) (prev sel : option Point) (ch : list ConstMetric)
    (t : Time) :
  rangePoints (Points ts) (time_Unix 0 0) prev = Ok (t, sel) ->
  switchMetricKind (MetricKind ts) = None
  \/ switchValueType (ValueType ts) sel = Continue ->
  rangeTimeSeries md (ts :: rest) prev ch = rangeTimeSeries md rest sel ch.
Proof.
  intros Hscan Hskip. cbn [rangeTimeSeries]. rewrite Hscan.
  destruct Hskip as [Hkind | Hval].
  - now rewrite Hkind.
  - rewrite Hval. now destruct (switchMetricKind (MetricKind ts)).
Qed.

(** The series after a prefix that was reduced without error are reduced
    from the channel the prefix left. *)
Lemma rangeTimeSeries_app (md : MetricDescriptor) (pre rest : list TimeSeries) :
  forall (prev : option Point) (ch ch' : list ConstMetric),
    rangeTimeSeries md pre prev ch = (ch', Return None) ->
    exists sel,
      rangeTimeSeries md (pre ++ rest) prev ch
      = rangeTimeSeries md rest sel ch'.
Proof.
  induction pre as [|ts pre IH]; intros prev ch ch' Hpre.
  - cbn in Hpre. injection Hpre as ->. now exists prev.
  - cbn [rangeTimeSeries app] in *.
    destruct (rangePoints (Points ts) (time_Unix 0 0) prev) as [[t sel] | err];
      [| discriminate].
    destruct (switchMetricKind (MetricKind ts)) as [kind |]; [| now apply IH].
    destruct (switchValueType (ValueType ts) sel) as [v | |];
      [now apply IH | now apply IH | discriminate].
Qed.

(** Every metric the loop sends is built from a series of the page. *)
Lemma rangeTimeSeries_sent (md : MetricDescriptor) (series : list TimeSeries) :
  forall (prev : option Point) (ch : list ConstMetric) (m : ConstMetric),
    In m (fst (rangeTimeSeries md series prev ch)) ->
    In m ch
    \/ exists ts kind v,
         In ts series /\ switchMetricKind (MetricKind ts) = Some kind
         /\ m = constMetricOf md ts kind v.
Proof.
  induction series as [|ts series IH]; intros prev ch m Hin.
  - now left.
  - cbn [rangeTimeSeries] in Hin.
    assert (Hrec : forall sel ch0,
               In m (fst (rangeTimeSeries md series sel ch0)) ->
               In m ch0
               \/ exists ts' kind v,
                    In ts' (ts :: series)
                    /\ switchMetricKind (MetricKind ts') = Some kind
                    /\ m = constMetricOf md ts' kind v).
    { intros sel ch0 H0. destruct (IH _ _ _ H0) as [H1 | (ts' & k & v & H1 & H2 & H3)].
      - now left.
      - right. exists ts', k, v. repeat split; [now right | assumption | assumption]. }
    destruct (rangePoints (Points ts) (time_Unix 0 0) prev) as [[t sel] | err];
      [| now left].
    destruct (switchMetricKind (MetricKind ts)) as [kind |] eqn:Hkind;
      [| now apply Hrec in Hin].
    destruct (switchValueType (ValueType ts) sel) as [v | |];
      [| now apply Hrec in Hin | now left].
    apply Hrec in Hin. destruct Hin as [Hin | Hin]; [| now right].
    apply in_app_or in Hin. destruct Hin as [Hin | [<- | []]]; [now left |].
    right. exists ts, kind, v. repeat split; [now left | assumption].
Qed.

Lemma combine_fst_snd (l : Labels) : combine (map fst l) (map snd l) = l.
Proof.
  induction l as [|[k v] l IH]; [reflexivity |]. cbn. now rewrite IH.
Qed.

End SeriesLoop.

(** ** Which point of a series is reduced *)

Section NewestPoint.
Context {ext : Collaborators}.

(** C2 (amended). For every series whose points' end times all parse and
    one of which is later than the Unix epoch, the scan selects a point
    whose end time is the greatest, the first such point in scan order,
    and the metric sent for the series is built from the value the switch
    on the value type reads in that point. *)
Theorem newest_point_is_reduced (md : MetricDescriptor) (ts : TimeSeries)
    (rest : list TimeSeries) (prev : option Point) (ch : list ConstMetric)
    (ends : list Time) :
  endTimes (Points ts) ends ->
  (exists t, In t ends /\ time_Unix 0 0 < t) ->
  exists i p t,
    nth_error (Points ts) i = Some p
    /\ firstNewest ends i t
    /\ rangePoints (Points ts) (time_Unix 0 0) prev = Ok (t, Some p)
    /\ forall kind v,
         switchMetricKind (MetricKind ts) = Some kind ->
         switchValueType (ValueType ts) (Some p) = Chosen v ->
         rangeTimeSeries md (ts :: rest) prev ch
         = rangeTimeSeries md rest (Some p)
             (ch ++ [constMetricOf md ts kind v]).
Proof.
  intros Hends (t0 & Hin & Hpos).
  destruct (rangePoints_scan (Points ts) ends Hends (time_Unix 0 0) prev)
    as [[Hall _] | (i & p & t & Hp & Hf & _ & Hr)].
  - rewrite Forall_forall in Hall. specialize (Hall _ Hin). lia.
  - exists i, p, t. repeat (split; [assumption |]).
    intros kind v Hkind Hval. now apply rangeTimeSeries_send with (t := t).
Qed.

(** C3 (amended). When the points at indices [i < j] of a series both have
    the greatest end time, later than the Unix epoch, and no point before
    index [i] has it, the point at index [i], the first of them in scan
    order, is the one selected and reduced. *)
Theorem first_of_equal_newest_wins (md : MetricDescriptor) (ts : TimeSeries)
    (rest : list TimeSeries) (prev : option Point) (ch : list ConstMetric)
    (ends : list Time) (i j : nat) (p q : Point) (t : Time) :
  endTimes (Points ts) ends ->
  time_Unix 0 0 < t ->
  (forall t', In t' ends -> t' <= t) ->
  (i < j)%nat ->
  nth_error (Points ts) i = Some p -> nth_error ends i = Some t ->
  nth_error (Points ts) j = Some q -> nth_error ends j = Some t ->
  (forall k t', (k < i)%nat -> nth_error ends k = Some t' -> t' < t) ->
  rangePoints (Points ts) (time_Unix 0 0) prev = Ok (t, Some p)
  /\ forall kind v,
       switchMetricKind (MetricKind ts) = Some kind ->
       switchValueType (ValueType ts) (Some p) = Chosen v ->
       rangeTimeSeries md (ts :: rest) prev ch
       = rangeTimeSeries md rest (Some p)
           (ch ++ [constMetricOf md ts kind v]).
Proof.
  intros Hends Hpos Hmax _ Hp Hti _ _ Hfirst.
  assert (Hscan : rangePoints (Points ts) (time_Unix 0 0) prev = Ok (t, Some p)).
  { apply rangePoints_firstNewest with (ends := ends) (i := i); try assumption.
    repeat split; assumption. }
  split; [exact Hscan |].
  intros kind v Hkind Hval. now apply rangeTimeSeries_send with (t := t).
Qed.

End NewestPoint.

(** The run of the testable property of the specification: of the end times
    [T], [T+5s], [T+2s] the value of the point at [T+5s] is sent. *)
Example three_points_run :
  reportTimeSeriesMetrics (ext := goRuntime)
    (Samples.page [Samples.threePoints]) Samples.cpu
  = ([constMetricOf (ext := goRuntime) Samples.cpu Samples.threePoints
        GaugeValue Samples.f2_0],
     Return None).
Proof. reflexivity. Qed.

Lemma newest_point_is_reduced_witness :
  let ends := [1577836800000000000; 1577836805000000000; 1577836802000000000] in
  endTimes (ext := goRuntime) (Points Samples.threePoints) ends
  /\ (exists t, In t ends /\ time_Unix 0 0 < t)
  /\ exists i p t,
       nth_error (Points Samples.threePoints) i = Some p
       /\ firstNewest ends i t
       /\ rangePoints (ext := goRuntime) (Points Samples.threePoints)
            (time_Unix 0 0) None = Ok (t, Some p)
       /\ forall kind v,
            switchMetricKind (MetricKind Samples.threePoints) = Some kind ->
            switchValueType (ValueType Samples.threePoints) (Some p) = Chosen v ->
            rangeTimeSeries (ext := goRuntime) Samples.cpu
              [Samples.threePoints] None []
            = rangeTimeSeries (ext := goRuntime) Samples.cpu [] (Some p)
                ([] ++ [constMetricOf (ext := goRuntime) Samples.cpu
                          Samples.threePoints kind v]).
Proof.
  intro ends.
  assert (Hends : endTimes (ext := goRuntime) (Points Samples.threePoints) ends).
  { repeat constructor. }
  assert (Hpos : exists t, In t ends /\ time_Unix 0 0 < t).
  { exists 1577836805000000000. split; [right; left; reflexivity | reflexivity]. }
  split; [exact Hends |]. split; [exact Hpos |].
  exact (newest_point_is_reduced (ext := goRuntime) Samples.cpu
           Samples.threePoints [] None [] ends Hends Hpos).
Defined.

(** C2, as stated, fails on a series whose only point ends at the Unix
    epoch: its end time parses and is the greatest, yet the scan selects no
    point, and the reduction of the page panics instead of sending a
    metric. *)
Lemma point_at_epoch_is_not_selected :
  Points Samples.atEpoch <> []
  /\ endTimes (ext := goRuntime) (Points Samples.atEpoch) [0]
  /\ rangePoints (ext := goRuntime) (Points Samples.atEpoch) (time_Unix 0 0) None
     = Ok (0, None)
  /\ reportTimeSeriesMetrics (ext := goRuntime)
       (Samples.page [Samples.atEpoch]) Samples.cpu
     = ([], Panic).
Proof.
  split; [discriminate |]. split; [repeat constructor |].
  split; reflexivity.
Qed.

Lemma first_of_equal_newest_wins_witness :
  let ends := [1577836805000000000; 1577836805000000000] in
  let p := Samples.point "2020-01-01T00:00:05Z" (Samples.double Samples.f1_5) in
  let q := Samples.point "2020-01-01T00:00:05Z" (Samples.double Samples.f2_0) in
  let t := 1577836805000000000 in
  (endTimes (ext := goRuntime) (Points Samples.tied) ends
   /\ time_Unix 0 0 < t
   /\ (forall t', In t' ends -> t' <= t)
   /\ (0 < 1)%nat
   /\ nth_error (Points Samples.tied) 0 = Some p /\ nth_error ends 0 = Some t
   /\ nth_error (Points Samples.tied) 1 = Some q /\ nth_error ends 1 = Some t
   /\ (forall k t', (k < 0)%nat -> nth_error ends k = Some t' -> t' < t))
  /\ rangePoints (ext := goRuntime) (Points Samples.tied) (time_Unix 0 0) None
     = Ok (t, Some p)
  /\ forall kind v,
       switchMetricKind (MetricKind Samples.tied) = Some kind ->
       switchValueType (ValueType Samples.tied) (Some p) = Chosen v ->
       rangeTimeSeries (ext := goRuntime) Samples.cpu [Samples.tied] None []
       = rangeTimeSeries (ext := goRuntime) Samples.cpu [] (Some p)
           ([] ++ [constMetricOf (ext := goRuntime) Samples.cpu Samples.tied
                     kind v]).
Proof.
  intros ends p q t.
  assert (Hends : endTimes (ext := goRuntime) (Points Samples.tied) ends).
  { repeat constructor. }
  assert (Hpos : time_Unix 0 0 < t) by reflexivity.
  assert (Hmax : forall t', In t' ends -> t' <= t).
  { intros t' [<- | [<- | []]]; apply Z.le_refl. }
  assert (Hij : (0 < 1)%nat) by apply Nat.lt_0_1.
  assert (Hfirst : forall k t', (k < 0)%nat -> nth_error ends k = Some t' -> t' < t).
  { intros k t' Hk. exfalso. exact (Nat.nlt_0_r k Hk). }
  split.
  - repeat (split; [first [assumption | reflexivity] |]). exact Hfirst.
  - exact (first_of_equal_newest_wins (ext := goRuntime) Samples.cpu Samples.tied
             [] None [] ends 0 1 p q t Hends Hpos Hmax Hij eq_refl eq_refl
             eq_refl eq_refl Hfirst).
Defined.

(** C3, as stated, fails on two points with the same end time: the scan
    selects the first of them, and the metric carries its value 1.5, not the
    value 2.0 of the point met last. *)
Lemma last_of_equal_newest_loses :
  let p := Samples.point "2020-01-01T00:00:05Z" (Samples.double Samples.f1_5) in
  let q := Samples.point "2020-01-01T00:00:05Z" (Samples.double Samples.f2_0) in
  Points Samples.tied = [p; q]
  /\ time_Parse (Collaborators := goRuntime) (EndTime (Interval p))
     = time_Parse (Collaborators := goRuntime) (EndTime (Interval q))
  /\ p <> q
  /\ rangePoints (ext := goRuntime) (Points Samples.tied) (time_Unix 0 0) None
     = Ok (1577836805000000000, Some p)
  /\ reportTimeSeriesMetrics (ext := goRuntime)
       (Samples.page [Samples.tied]) Samples.cpu
     = ([constMetricOf (ext := goRuntime) Samples.cpu Samples.tied GaugeValue
           Samples.f1_5],
        Return None).
Proof.
  cbv zeta. repeat split; try reflexivity. discriminate.
Qed.

(** ** A series without points *)

Section EmptySeries.
Context {ext : Collaborators}.

(** The scan of no points leaves [newestTSPoint] as the series before
    left it. *)
Lemma rangePoints_nil (newestEndTime : Time) (newestTSPoint : option Point) :
  rangePoints [] newestEndTime newestTSPoint = Ok (newestEndTime, newestTSPoint).
Proof. reflexivity. Qed.

(** A series without points, of a supported kind, is reduced from the point
    an earlier series of the page left in [newestTSPoint]. *)
Lemma series_without_points_sends (md : MetricDescriptor) (ts : TimeSeries)
    (rest : list TimeSeries) (p : Point) (ch : list ConstMetric)
    (kind : PromValueType) (v : float64) :
  Points ts = [] ->
  switchMetricKind (MetricKind ts) = Some kind ->
  switchValueType (ValueType ts) (Some p) = Chosen v ->
  rangeTimeSeries md (ts :: rest) (Some p) ch
  = rangeTimeSeries md rest (Some p) (ch ++ [constMetricOf md ts kind v]).
Proof.
  intros Hnil Hkind Hval.
  apply rangeTimeSeries_send with (t := time_Unix 0 0); try assumption.
  now rewrite Hnil.
Qed.

(** With no earlier point, the switch on a supported value type
    dereferences nil. *)
Lemma series_without_points_panics (md : MetricDescriptor) (ts : TimeSeries)
    (rest : list TimeSeries) (ch : list ConstMetric) (kind : PromValueType) :
  Points ts = [] ->
  switchMetricKind (MetricKind ts) = Some kind ->
  supportedValueType (ValueType ts) ->
  rangeTimeSeries md (ts :: rest) None ch = (ch, Panic).
Proof.
  intros Hnil Hkind Hvt. cbn [rangeTimeSeries]. rewrite Hnil, Hkind. cbn.
  unfold switchValueType.
  destruct Hvt as [-> | [-> | ->]]; reflexivity.
Qed.

End EmptySeries.

(** C1 (the code departs from it). A page whose second series has no points:
    two metrics are sent, the second for the series without points, with the
    value 1.5 of the point of the first series. A page whose only series has
    no points: the reduction panics on a nil dereference. *)
Theorem series_without_points_is_reduced :
  Points Samples.noPoints = []
  /\ reportTimeSeriesMetrics (ext := goRuntime)
       (Samples.page [Samples.withPoint; Samples.noPoints]) Samples.cpu
     = ([constMetricOf (ext := goRuntime) Samples.cpu Samples.withPoint
           GaugeValue Samples.f1_5;
         constMetricOf (ext := goRuntime) Samples.cpu Samples.noPoints
           GaugeValue Samples.f1_5],
        Return None)
  /\ reportTimeSeriesMetrics (ext := goRuntime)
       (Samples.page [Samples.noPoints]) Samples.cpu
     = ([], Panic).
Proof. repeat split. Qed.

(** ** Kinds and value types *)

Section KindsAndValueTypes.
Context {ext : Collaborators}.

Lemma switchMetricKind_unsupported (metricKind : string) :
  ~ supportedKind metricKind -> switchMetricKind metricKind = None.
Proof.
  intro Hn. unfold switchMetricKind, supportedKind in *.
  destruct (String.eqb_spec metricKind "GAUGE"); [tauto |].
  destruct (String.eqb_spec metricKind "DELTA"); [tauto |].
  destruct (String.eqb_spec metricKind "CUMULATIVE"); [tauto |].
  reflexivity.
Qed.

Lemma switchValueType_unsupported (valueType : string) (sel : option Point) :
  ~ supportedValueType valueType -> switchValueType valueType sel = Continue.
Proof.
  intro Hn. unfold switchValueType, supportedValueType in *.
  destruct (String.eqb_spec valueType "BOOL"); [tauto |].
  destruct (String.eqb_spec valueType "INT64"); [tauto |].
  destruct (String.eqb_spec valueType "DOUBLE"); [tauto |].
  reflexivity.
Qed.

(** C6 (amended). For a series whose points' end times all parse: when its
    kind is outside GAUGE, DELTA, CUMULATIVE or its value type is outside
    BOOL, INT64, DOUBLE, the loop sends nothing for it, returns no error
    and goes on with the next series; otherwise the metric sent for it has
    the kind gauge for GAUGE and counter for DELTA and CUMULATIVE. *)
Theorem kind_and_value_type_mapping (md : MetricDescriptor) (ts : TimeSeries)
    (rest : list TimeSeries) (prev : option Point) (ch : list ConstMetric)
    (ends : list Time) :
  endTimes (Points ts) ends ->
  exists t sel,
    rangePoints (Points ts) (time_Unix 0 0) prev = Ok (t, sel)
    /\ (~ supportedKind (MetricKind ts)
        \/ ~ supportedValueType (ValueType ts) ->
        rangeTimeSeries md (ts :: rest) prev ch
        = rangeTimeSeries md rest sel ch)
    /\ forall v,
         switchValueType (ValueType ts) sel = Chosen v ->
         (MetricKind ts = "GAUGE" ->
          rangeTimeSeries md (ts :: rest) prev ch
          = rangeTimeSeries md rest sel
              (ch ++ [constMetricOf md ts GaugeValue v]))
         /\ (MetricKind ts = "DELTA" \/ MetricKind ts = "CUMULATIVE" ->
             rangeTimeSeries md (ts :: rest) prev ch
             = rangeTimeSeries md rest sel
                 (ch ++ [constMetricOf md ts CounterValue v])).
Proof.
  intro Hends.
  destruct (rangePoints_ok _ _ Hends (time_Unix 0 0) prev) as (t & sel & Hscan).
  exists t, sel. split; [exact Hscan |]. split.
  - intros [Hk | Hv]; apply rangeTimeSeries_continue with (t := t);
      try assumption.
    + left. now apply switchMetricKind_unsupported.
    + right. now apply switchValueType_unsupported.
  - intros v Hval. split.
    + intro Hk. apply rangeTimeSeries_send with (t := t); try assumption.
      now rewrite Hk.
    + intros [Hk | Hk]; apply rangeTimeSeries_send with (t := t);
        try assumption; now rewrite Hk.
Qed.

End KindsAndValueTypes.

(** The runs of the testable properties of the specification: a series of an
    unknown kind and a series of distributions yield no metric and no error;
    a gauge of booleans, a delta of integers. *)
Example unsupported_series_run :
  reportTimeSeriesMetrics (ext := goRuntime)
    (Samples.page [Samples.unknownKind; Samples.distribution]) Samples.cpu
  = ([], Return None).
Proof. reflexivity. Qed.

Example supported_series_run :
  reportTimeSeriesMetrics (ext := goRuntime)
    (Samples.page [Samples.flag; Samples.fortyTwo]) Samples.cpu
  = ([constMetricOf (ext := goRuntime) Samples.cpu Samples.flag GaugeValue
        float64_one;
      constMetricOf (ext := goRuntime) Samples.cpu Samples.fortyTwo
        CounterValue (float64_of_int 42)],
     Return None).
Proof. reflexivity. Qed.

Lemma kind_and_value_type_mapping_witness :
  let ts := Samples.distribution in
  let ends := [1577836800000000000] in
  endTimes (ext := goRuntime) (Points ts) ends
  /\ ~ supportedValueType (ValueType ts)
  /\ reportTimeSeriesMetrics (ext := goRuntime) (Samples.page [ts]) Samples.cpu
     = ([], Return None).
Proof.
  intros ts ends.
  assert (Hends : endTimes (ext := goRuntime) (Points ts) ends).
  { repeat constructor. }
  assert (Hvt : ~ supportedValueType (ValueType ts)).
  { intros [H | [H | H]]; discriminate H. }
  split; [exact Hends |]. split; [exact Hvt |].
  destruct (kind_and_value_type_mapping (ext := goRuntime) Samples.cpu ts []
              None [] ends Hends) as (t & sel & _ & Hskip & _).
  exact (Hskip (or_intror Hvt)).
Defined.

(** C6, as stated, fails on a series of distributions one of whose points has
    an end time that does not parse: the reduction returns an error. *)
Lemma unsupported_series_returns_error :
  ~ supportedValueType (ValueType Samples.distributionUnparsable)
  /\ reportTimeSeriesMetrics (ext := goRuntime)
       (Samples.page [Samples.distributionUnparsable]) Samples.cpu
     = ([],
        Return (Some (endTimeError "yesterday"
                        "parsing time `yesterday` as RFC3339Nano"))).
Proof.
  split; [| reflexivity].
  intros [H | [H | H]]; discriminate H.
Qed.

(** ** The labels of a metric *)

Section LabelLayout.
Context {ext : Collaborators}.

(** The label keys and the label values are the two projections of one
    sequence of pairs: the two fixed pairs, the metric labels, the resource
    labels. *)
Lemma labels_of_pairs (md : MetricDescriptor) (ts : TimeSeries) :
  let pairs :=
    ("unit", Unit md) :: ("resource_type", Resource_Type (Resource ts))
      :: (Metric_Labels (TS_Metric ts) ++ Resource_Labels (Resource ts))%list in
  labelKeysOf ts = map fst pairs /\ labelValuesOf md ts = map snd pairs.
Proof.
  unfold labelKeysOf, labelValuesOf. cbn. now rewrite !map_app.
Qed.

(** C8. Every metric the reduction of a page sends is built from a series
    of the page; its label keys begin with [unit] and [resource_type]; it
    has as many label values as label keys; and pairing them by position
    gives the unit and the resource type followed by every metric label
    and then every resource label, with nothing merged or dropped. *)
Theorem label_layout (page : ListTimeSeriesResponse) (md : MetricDescriptor)
    (m : ConstMetric) :
  In m (fst (reportTimeSeriesMetrics page md)) ->
  exists ts,
    In ts (TimeSeries_ page)
    /\ nth_error (variableLabels (desc m)) 0 = Some "unit"
    /\ nth_error (variableLabels (desc m)) 1 = Some "resource_type"
    /\ List.length (variableLabels (desc m)) = List.length (labelValues m)
    /\ combine (variableLabels (desc m)) (labelValues m)
       = (("unit", Unit md) :: ("resource_type", Resource_Type (Resource ts))
            :: (Metric_Labels (TS_Metric ts)
                  ++ Resource_Labels (Resource ts)))%list.
Proof.
  intro Hin. unfold reportTimeSeriesMetrics in Hin.
  apply rangeTimeSeries_sent in Hin.
  destruct Hin as [[] | (ts & kind & v & Hts & _ & ->)].
  exists ts. split; [exact Hts |].
  destruct (labels_of_pairs md ts) as [Hk Hv]. cbn [constMetricOf desc
    variableLabels labelValues].
  split; [reflexivity |]. split; [reflexivity |].
  rewrite Hk, Hv. split.
  - now rewrite !length_map.
  - apply combine_fst_snd.
Qed.

End LabelLayout.

Lemma label_layout_witness :
  let m := constMetricOf (ext := goRuntime) Samples.cpu Samples.labelled
             GaugeValue Samples.f1_5 in
  let page := Samples.page [Samples.withPoint; Samples.labelled] in
  In m (fst (reportTimeSeriesMetrics (ext := goRuntime) page Samples.cpu))
  /\ variableLabels (desc m)
     = ["unit"; "resource_type"; "zone"; "instance_name"; "zone"; "project_id"]
  /\ exists ts,
       In ts (TimeSeries_ page)
       /\ nth_error (variableLabels (desc m)) 0 = Some "unit"
       /\ nth_error (variableLabels (desc m)) 1 = Some "resource_type"
       /\ List.length (variableLabels (desc m)) = List.length (labelValues m)
       /\ combine (variableLabels (desc m)) (labelValues m)
          = (("unit", Unit Samples.cpu)
               :: ("resource_type", Resource_Type (Resource ts))
               :: (Metric_Labels (TS_Metric ts)
                     ++ Resource_Labels (Resource ts)))%list.
Proof.
  intros m page.
  assert (Hin : In m (fst (reportTimeSeriesMetrics (ext := goRuntime) page
                             Samples.cpu))).
  { right. left. reflexivity. }
  split; [exact Hin |]. split; [reflexivity |].
  exact (label_layout (ext := goRuntime) page Samples.cpu m Hin).
Defined.

(** A series without labels of its own still carries the two fixed keys. *)
Example no_labels_run :
  map (fun m => (variableLabels (desc m), labelValues m))
    (fst (reportTimeSeriesMetrics (ext := goRuntime)
            (Samples.page [Samples.withPoint]) Samples.cpu))
  = [(["unit"; "resource_type"], ["1"; "gce_instance"])].
Proof. reflexivity. Qed.

(** ** The conversion of the value of a point *)

Section Float64OfInt.

(** A positive number of [d] binary digits lies between [2^(d-1)] and
    [2^d]. *)
Lemma digits2_pos_bounds (m : positive) :
  2 ^ (Zpos (digits2_pos m) - 1) <= Zpos m < 2 ^ Zpos (digits2_pos m).
Proof.
  induction m as [m IH | m IH |]; cbn [digits2_pos].
  - rewrite Pos2Z.inj_succ.
    replace (Z.succ (Zpos (digits2_pos m)) - 1)
      with (Z.succ (Zpos (digits2_pos m) - 1)) by lia.
    rewrite !Z.pow_succ_r by lia. lia.
  - rewrite Pos2Z.inj_succ.
    replace (Z.succ (Zpos (digits2_pos m)) - 1)
      with (Z.succ (Zpos (digits2_pos m) - 1)) by lia.
    rewrite !Z.pow_succ_r by lia. lia.
  - cbn. lia.
Qed.

(** Shifting left by [k] adds [k] digits and multiplies by [2^k]. *)
Lemma digits2_pos_iter_xO (m k : positive) :
  digits2_pos (Pos.iter xO m k) = (digits2_pos m + k)%positive.
Proof.
  induction k as [|k IH] using Pos.peano_ind.
  - cbn. lia.
  - rewrite Pos.iter_succ. cbn [digits2_pos]. rewrite IH. lia.
Qed.

Lemma Zpos_iter_xO (m k : positive) :
  Zpos (Pos.iter xO m k) = Zpos m * 2 ^ Zpos k.
Proof.
  induction k as [|k IH] using Pos.peano_ind.
  - cbn. lia.
  - rewrite Pos.iter_succ, Pos2Z.inj_succ, Z.pow_succ_r by lia.
    rewrite Pos2Z.inj_xO, IH. lia.
Qed.

(** Rounding a mantissa of 53 digits at an exponent in range changes
    nothing. *)
Lemma binary_round_aux_exact (s : bool) (mz : positive) (ez : Z) :
  Zpos (digits2_pos mz) = 53 ->
  -1074 <= ez <= 971 ->
  binary_round_aux prec64 emax64 s (Zpos mz) ez loc_Exact
  = S754_finite s mz ez.
Proof.
  intros Hd He.
  assert (Hshr : shr_fexp prec64 emax64 (Zpos mz) ez loc_Exact
                 = ({| shr_m := Zpos mz; shr_r := false; shr_s := false |}, ez)).
  { unfold shr_fexp. cbn [Zdigits2]. rewrite Hd.
    replace (fexp prec64 emax64 (53 + ez) - ez) with 0.
    - reflexivity.
    - unfold fexp, emin, prec64, emax64. lia. }
  unfold binary_round_aux. rewrite Hshr.
  cbn [shr_m loc_of_shr_record round_nearest_even]. rewrite Hshr.
  cbn [shr_m]. unfold emax64, prec64.
  destruct (Z.leb_spec ez (1024 - 53)); [reflexivity | lia].
Qed.

(** The conversion of an integer below [2^53] in magnitude only aligns its
    mantissa. *)
Lemma float64_of_pos (m : positive) :
  Zpos m < 2 ^ 53 ->
  exists mz ez,
    float64_of_int (Zpos m) = S754_finite false mz ez
    /\ float64_of_int (Zneg m) = S754_finite true mz ez
    /\ -52 <= ez <= 0
    /\ Zpos mz = Zpos m * 2 ^ (- ez).
Proof.
  intro Hm. pose proof (digits2_pos_bounds m) as [Hlo Hhi].
  assert (Hd : Zpos (digits2_pos m) <= 53).
  { destruct (Z.le_gt_cases (Zpos (digits2_pos m)) 53) as [H | H]; [exact H |].
    assert (2 ^ 53 <= 2 ^ (Zpos (digits2_pos m) - 1))
      by (apply Z.pow_le_mono_r; lia).
    lia. }
  unfold float64_of_int, binary_normalize, binary_round.
  replace (fexp prec64 emax64 (Zpos (digits2_pos m) + 0))
    with (Zpos (digits2_pos m) - 53)
    by (unfold fexp, emin, prec64, emax64; lia).
  unfold shl_align.
  destruct (Zpos (digits2_pos m) - 53 - 0) as [| k | k] eqn:Hk; try lia.
  - exists m, 0. rewrite !binary_round_aux_exact by lia.
    repeat split; try lia.
  - exists (Pos.iter xO m k), (Zpos (digits2_pos m) - 53).
    assert (Hdig : Zpos (digits2_pos (Pos.iter xO m k)) = 53).
    { rewrite digits2_pos_iter_xO. lia. }
    rewrite !binary_round_aux_exact by lia.
    repeat split; try lia.
    rewrite Zpos_iter_xO. f_equal. f_equal. lia.
Qed.

(** A finite float64 with a mantissa [m * 2^(-e)] at an exponent [e <= 0]
    denotes [m], with the sign. *)
Lemma denotes_aligned (s : bool) (m mz : positive) (ez : Z) :
  ez <= 0 ->
  Zpos mz = Zpos m * 2 ^ (- ez) ->
  denotes (S754_finite s mz ez)
    (inject_Z (if s then Zneg m else Zpos m)).
Proof.
  intros He Hmz. unfold denotes, float64_toQ.
  destruct ez as [| e | e]; [| lia |].
  - eexists. split; [reflexivity |].
    change (2 ^ (- 0)) with 1 in Hmz. change (2 ^ 0) with 1.
    destruct s; unfold Qeq; cbn [Qopp Qnum Qden inject_Z]; lia.
  - eexists. split; [reflexivity |].
    change (- Zneg e) with (Zpos e) in Hmz.
    destruct s; unfold Qeq; cbn [Qopp Qnum Qden inject_Z];
      rewrite Pos2Z.inj_pow; lia.
Qed.

(** The conversion of an integer of magnitude at most [2^53] is exact. *)
Lemma float64_of_int_exact (i : Z) :
  - 2 ^ 53 <= i <= 2 ^ 53 -> denotes (float64_of_int i) (inject_Z i).
Proof.
  intro Hi.
  destruct (Z.eq_dec i (2 ^ 53)) as [-> | Hhi].
  { eexists. split; [reflexivity |]. reflexivity. }
  destruct (Z.eq_dec i (- 2 ^ 53)) as [-> | Hlo].
  { eexists. split; [reflexivity |]. reflexivity. }
  destruct i as [| m | m].
  - eexists. split; reflexivity.
  - destruct (float64_of_pos m) as (mz & ez & Hf & _ & He & Hmz); [lia |].
    rewrite Hf. apply (denotes_aligned false); [lia | exact Hmz].
  - destruct (float64_of_pos m) as (mz & ez & _ & Hf & He & Hmz); [lia |].
    rewrite Hf. apply (denotes_aligned true); [lia | exact Hmz].
Qed.

End Float64OfInt.

(** C7 (amended). The switch on the value type reads the selected point as
    follows: BOOL gives 1.0 for true and 0.0 for false; INT64 gives the
    float64 conversion of the integer, which denotes that integer exactly
    when its magnitude is at most [2^53]; DOUBLE gives the value
    unchanged. *)
Theorem value_conversion (p : Point) :
  (forall b, BoolValue (Value p) = Some b ->
     switchValueType "BOOL" (Some p)
     = Chosen (if b then float64_one else float64_zero))
  /\ denotes float64_one 1
  /\ denotes float64_zero 0
  /\ (forall i, Int64Value (Value p) = Some i ->
        switchValueType "INT64" (Some p) = Chosen (float64_of_int i)
        /\ (- 2 ^ 53 <= i <= 2 ^ 53 ->
            denotes (float64_of_int i) (inject_Z i)))
  /\ (forall d, DoubleValue (Value p) = Some d ->
        switchValueType "DOUBLE" (Some p) = Chosen d).
Proof.
  split; [| split; [| split; [| split]]].
  - intros b Hb. unfold switchValueType, deref. cbn. now rewrite Hb.
  - eexists. split; reflexivity.
  - eexists. split; reflexivity.
  - intros i Hi. split.
    + unfold switchValueType, deref. cbn. now rewrite Hi.
    + apply float64_of_int_exact.
  - intros d Hd. unfold switchValueType, deref. cbn. now rewrite Hd.
Qed.

Lemma value_conversion_witness :
  let p := Samples.point "2020-01-01T00:00:00Z" (Samples.int64 (-42)) in
  Int64Value (Value p) = Some (-42)
  /\ - 2 ^ 53 <= -42 <= 2 ^ 53
  /\ switchValueType "INT64" (Some p) = Chosen (float64_of_int (-42))
  /\ denotes (float64_of_int (-42)) (inject_Z (-42)).
Proof.
  intro p.
  assert (Hi : Int64Value (Value p) = Some (-42)) by reflexivity.
  assert (Hr : - 2 ^ 53 <= -42 <= 2 ^ 53) by (split; discriminate).
  split; [exact Hi |]. split; [exact Hr |].
  destruct (value_conversion p) as (_ & _ & _ & Hint & _).
  destruct (Hint (-42) Hi) as [Hsw Hex].
  split; [exact Hsw | exact (Hex Hr)].
Defined.

(** C7, as stated, fails on the int64 value [2^53 + 1]: its conversion is the
    float64 that denotes [2^53], and that is the value of the metric sent. *)
Lemma int64_above_2_53_is_rounded :
  is_int64 9007199254740993
  /\ denotes (float64_of_int 9007199254740993) (inject_Z 9007199254740992)
  /\ ~ denotes (float64_of_int 9007199254740993) (inject_Z 9007199254740993)
  /\ reportTimeSeriesMetrics (ext := goRuntime)
       (Samples.page [Samples.bigInt]) Samples.cpu
     = ([constMetricOf (ext := goRuntime) Samples.cpu Samples.bigInt
           CounterValue (float64_of_int 9007199254740992)],
        Return None).
Proof.
  split; [split; discriminate |].
  split; [eexists; split; reflexivity |].
  split; [| reflexivity].
  intros (q & Hq & Heq). vm_compute in Hq. injection Hq as <-.
  unfold Qeq in Heq. cbn in Heq. discriminate Heq.
Qed.

(** ** The steps of a fan-out scope *)

Section UpdateFacts.
Context {A : Type}.

Lemma nth_error_update (l : list A) (i : nat) (a x : A) :
  nth_error l i = Some x -> nth_error (update l i a) i = Some a.
Proof.
  revert i. induction l as [|y l IH]; intros [|i] H; cbn in *;
    try discriminate; [reflexivity | now apply IH].
Qed.

Lemma Forall_update (P : A -> Prop) (l : list A) (i : nat) (a : A) :
  Forall P l -> P a -> Forall P (update l i a).
Proof.
  intros Hl Ha. revert i.
  induction Hl as [|y l Hy Hl IH]; intros [|i]; cbn; constructor;
    try assumption. apply IH.
Qed.

End UpdateFacts.

Section ScopeSteps.
Context {ext : Collaborators}.
Variable Do : TimeSeriesListCall -> result (option ListTimeSeriesResponse).

(** A goroutine whose fetch fails goes to the send of that error. *)
Lemma fetch_error_goes_to_send (s : scope) (i : nat) (g : goroutine)
    (err : string) :
  crashed s = false ->
  nth_error (goroutines s) i = Some g ->
  g_pc g = AtDo ->
  Do (g_timeSeriesListCall g) = Err err ->
  exists s',
    step Do s (Run i) = Some s'
    /\ nth_error (goroutines s') i = Some (goto g (AtSend err))
    /\ errChannel s' = errChannel s
    /\ sent s' = sent s
    /\ crashed s' = false.
Proof.
  intros Hc Hg Hpc Hdo. unfold step, runGoroutine. rewrite Hc, Hg, Hpc, Hdo.
  eexists. split; [reflexivity |]. cbn.
  split; [now apply nth_error_update with (x := g) | now repeat split].
Qed.

(** A goroutine whose report returns an error goes to the send of that
    error, the metrics sent before the error being on the channel. *)
Lemma report_error_goes_to_send (s : scope) (i : nat) (g : goroutine)
    (page : ListTimeSeriesResponse) (metrics : list ConstMetric)
    (err : string) :
  crashed s = false ->
  nth_error (goroutines s) i = Some g ->
  g_pc g = AtReport page ->
  reportTimeSeriesMetrics page (g_metricDescriptor g)
  = (metrics, Return (Some err)) ->
  exists s',
    step Do s (Run i) = Some s'
    /\ nth_error (goroutines s') i = Some (goto g (AtSend err))
    /\ errChannel s' = errChannel s
    /\ sent s' = (sent s ++ metrics)%list
    /\ crashed s' = false.
Proof.
  intros Hc Hg Hpc Hrep. unfold step, runGoroutine. rewrite Hc, Hg, Hpc, Hrep.
  eexists. split; [reflexivity |]. cbn.
  split; [now apply nth_error_update with (x := g) | now repeat split].
Qed.

(** A send moves when the channel is empty, and fills it. *)
Lemma send_on_empty_channel (s : scope) (i : nat) (g : goroutine)
    (err : string) :
  crashed s = false ->
  nth_error (goroutines s) i = Some g ->
  g_pc g = AtSend err ->
  errChannel s = None ->
  exists s',
    step Do s (Run i) = Some s'
    /\ nth_error (goroutines s') i = Some (goto g Finished)
    /\ errChannel s' = Some err.
Proof.
  intros Hc Hg Hpc Hch. unfold step, runGoroutine. rewrite Hc, Hg, Hpc, Hch.
  eexists. split; [reflexivity |]. cbn.
  split; [now apply nth_error_update with (x := g) | reflexivity].
Qed.

(** A send does not move while the channel is full. *)
Lemma send_on_full_channel (s : scope) (i : nat) (g : goroutine)
    (err held : string) :
  nth_error (goroutines s) i = Some g ->
  g_pc g = AtSend err ->
  errChannel s = Some held ->
  step Do s (Run i) = None.
Proof.
  intros Hg Hpc Hch. unfold step, runGoroutine.
  destruct (crashed s); [reflexivity |]. now rewrite Hg, Hpc, Hch.
Qed.

(** Once the function has returned, nothing but the [select] of a goroutine
    at lines 174-178 empties the channel. *)
Lemma channel_stays_full_after_return (s s' : scope) (a : action)
    (r : option string) (held : string) :
  returned s = Some r ->
  errChannel s = Some held ->
  step Do s a = Some s' ->
  errChannel s' = Some held
  \/ exists i g page,
       a = Run i /\ nth_error (goroutines s) i = Some g
       /\ g_pc g = AtSelect page.
Proof.
  intros Hret Hch Hstep. unfold step in Hstep.
  destruct (crashed s); [discriminate |].
  destruct a as [i | | |].
  - unfold runGoroutine in Hstep.
    destruct (nth_error (goroutines s) i) as [g |] eqn:Hnth; [| discriminate].
    destruct (g_pc g) as [| err | page | page |] eqn:Hpc.
    + injection Hstep as <-. now left.
    + rewrite Hch in Hstep. discriminate.
    + right. now exists i, g, page.
    + destruct (reportTimeSeriesMetrics page (g_metricDescriptor g)).
      injection Hstep as <-. now left.
    + discriminate.
  - destruct (forallb isFinished (goroutines s) && negb (doneChannel s))%bool;
      [| discriminate].
    injection Hstep as <-. now left.
  - rewrite Hret in Hstep. discriminate.
  - rewrite Hret in Hstep. discriminate.
Qed.

(** The send of a goroutine that stands at it: it writes its error into an
    empty channel and the goroutine has finished; it cannot move while the
    channel is full. *)
Lemma send_writes_or_waits (s : scope) (i : nat) (g : goroutine)
    (err : string) :
  crashed s = false ->
  nth_error (goroutines s) i = Some (goto g (AtSend err)) ->
  (errChannel s = None ->
   exists s',
     step Do s (Run i) = Some s'
     /\ errChannel s' = Some err
     /\ nth_error (goroutines s') i = Some (goto g Finished)
     /\ sent s' = sent s
     /\ issued s' = issued s)
  /\ (forall held, errChannel s = Some held -> step Do s (Run i) = None).
Proof.
  intros Hc Hg. split.
  - intro Hch. unfold step, runGoroutine. rewrite Hc, Hg. cbn [g_pc goto].
    rewrite Hch. eexists. split; [reflexivity |]. cbn.
    split; [reflexivity |].
    split; [now apply nth_error_update with (x := goto g (AtSend err)) |].
    now split.
  - intros held Hch. unfold step, runGoroutine. rewrite Hc, Hg.
    cbn [g_pc goto]. now rewrite Hch.
Qed.

(** After a fetch that failed, and after a report that returned an error,
    the goroutine sends the error. *)
Lemma fetch_error_is_sent (s : scope) (i : nat) (g : goroutine)
    (err : string) :
  crashed s = false ->
  nth_error (goroutines s) i = Some g ->
  g_pc g = AtDo ->
  Do (g_timeSeriesListCall g) = Err err ->
  sendsError Do s i g err [].
Proof.
  intros Hc Hg Hpc Hdo.
  destruct (fetch_error_goes_to_send s i g err Hc Hg Hpc Hdo)
    as (s' & Hstep & Hg' & Hch & Hsent & Hc').
  destruct (send_writes_or_waits s' i g err Hc' Hg') as [Hwrite Hwait].
  exists s'. split; [exact Hstep |]. split; [exact Hg' |].
  split; [exact Hch |]. split; [now rewrite app_nil_r |]. split.
  - intro He. apply Hwrite. now rewrite Hch.
  - intros held He. apply (Hwait held). now rewrite Hch.
Qed.

Lemma report_error_is_sent (s : scope) (i : nat) (g : goroutine)
    (page : ListTimeSeriesResponse) (metrics : list ConstMetric)
    (err : string) :
  crashed s = false ->
  nth_error (goroutines s) i = Some g ->
  g_pc g = AtReport page ->
  reportTimeSeriesMetrics page (g_metricDescriptor g)
  = (metrics, Return (Some err)) ->
  sendsError Do s i g err metrics.
Proof.
  intros Hc Hg Hpc Hrep.
  destruct (report_error_goes_to_send s i g page metrics err Hc Hg Hpc Hrep)
    as (s' & Hstep & Hg' & Hch & Hsent & Hc').
  destruct (send_writes_or_waits s' i g err Hc' Hg') as [Hwrite Hwait].
  exists s'. split; [exact Hstep |]. split; [exact Hg' |].
  split; [exact Hch |]. split; [exact Hsent |]. split.
  - intro He. apply Hwrite. now rewrite Hch.
  - intros held He. apply (Hwait held). now rewrite Hch.
Qed.

End ScopeSteps.

(** ** An end time that does not parse *)

Section ParseError.
Context {ext : Collaborators}.

(** C5 (amended). When a point of a series of a page has an end time that
    does not parse, the points before it in the series and the series
    before it in the page being free of such errors, the reduction of the
    page returns the error of that point at that series: the metrics sent
    are those of the series before it, and neither that series nor those
    after it are reduced. The goroutine then sends the error on the error
    channel of its scope exactly as it sends the error of a fetch that
    failed: the send writes the error into the channel when the channel is
    empty, and the goroutine has then finished without another fetch; while
    the channel holds an error the send cannot move. *)
Theorem parse_error_ends_page (md : MetricDescriptor)
    (pre post : list TimeSeries) (bad : TimeSeries)
    (before after : list Point) (p : Point) (ends : list Time)
    (msg token : string) (ch' : list ConstMetric) :
  rangeTimeSeries md pre None [] = (ch', Return None) ->
  Points bad = (before ++ p :: after)%list ->
  endTimes before ends ->
  time_Parse (EndTime (Interval p)) = Err msg ->
  let page := {| NextPageToken := token;
                 TimeSeries_ := (pre ++ bad :: post)%list |} in
  let err := endTimeError (EndTime (Interval p)) msg in
  reportTimeSeriesMetrics page md = (ch', Return (Some err))
  /\ forall Do s i g,
       crashed s = false ->
       nth_error (goroutines s) i = Some g ->
       g_metricDescriptor g = md ->
       (g_pc g = AtReport page -> sendsError Do s i g err ch')
       /\ (g_pc g = AtDo ->
           Do (g_timeSeriesListCall g) = Err err ->
           sendsError Do s i g err []).
Proof.
  intros Hpre Hbad Hends Hparse page err.
  assert (Hrep : reportTimeSeriesMetrics page md = (ch', Return (Some err))).
  { unfold reportTimeSeriesMetrics, page. cbn [TimeSeries_].
    destruct (rangeTimeSeries_app md pre (bad :: post) None [] ch' Hpre)
      as (sel & ->).
    cbn [rangeTimeSeries]. rewrite Hbad.
    now rewrite (rangePoints_error before after p ends msg Hends Hparse). }
  split; [exact Hrep |].
  intros Do s i g Hc Hg Hmd. split.
  - intro Hpc. apply report_error_is_sent with (page := page);
      try assumption. now rewrite Hmd.
  - intros Hpc Hdo. now apply fetch_error_is_sent.
Qed.

End ParseError.

Lemma parse_error_ends_page_witness :
  let bad := Samples.unparsable in
  let p := Samples.point "yesterday" (Samples.double Samples.f1_5) in
  let msg := "parsing time `yesterday` as RFC3339Nano" in
  let err := endTimeError "yesterday" msg in
  let md := Samples.descriptor "a" in
  let ch' := [constMetricOf (ext := goRuntime) md Samples.withPoint
                GaugeValue Samples.f1_5] in
  let page := Samples.page [Samples.withPoint; bad; Samples.threePoints] in
  let s0 := fst (metricDescriptorsFunction (ext := goRuntime)
                   Samples.collector0 (Samples.descriptors ["a"])
                   float64_zero Samples.clock0) in
  exists s g,
    (steps (ext := goRuntime) unparsablePage s0 [Run 0%nat; Run 0%nat] = Some s
     /\ rangeTimeSeries (ext := goRuntime) md [Samples.withPoint] None []
        = (ch', Return None)
     /\ Points bad = ([] ++ p :: [])%list
     /\ endTimes (ext := goRuntime) [] []
     /\ time_Parse (Collaborators := goRuntime) (EndTime (Interval p))
        = Err msg
     /\ crashed s = false
     /\ nth_error (goroutines s) 0 = Some g
     /\ g_metricDescriptor g = md
     /\ g_pc g = AtReport page
     /\ errChannel s = None)
    /\ reportTimeSeriesMetrics (ext := goRuntime) page md
       = (ch', Return (Some err))
    /\ sendsError (ext := goRuntime) unparsablePage s 0 g err ch'.
Proof.
  intros bad p msg err md ch' page s0.
  destruct (steps (ext := goRuntime) unparsablePage s0 [Run 0%nat; Run 0%nat])
    as [s |] eqn:Hs; [| discriminate Hs].
  vm_compute in Hs. injection Hs as Hs.
  destruct (nth_error (goroutines s) 0) as [g |] eqn:Hg;
    [| subst s; discriminate Hg].
  exists s, g.
  assert (H1 : rangeTimeSeries (ext := goRuntime) md [Samples.withPoint]
                 None [] = (ch', Return None)) by reflexivity.
  assert (H2 : Points bad = ([] ++ p :: [])%list) by reflexivity.
  assert (H3 : endTimes (ext := goRuntime) [] []) by constructor.
  assert (H4 : time_Parse (Collaborators := goRuntime) (EndTime (Interval p))
               = Err msg) by reflexivity.
  assert (Hc : crashed s = false) by (subst s; reflexivity).
  assert (Hmd : g_metricDescriptor g = md).
  { subst s. cbn in Hg. injection Hg as <-. reflexivity. }
  assert (Hpc : g_pc g = AtReport page).
  { subst s. cbn in Hg. injection Hg as <-. reflexivity. }
  assert (Hch : errChannel s = None) by (subst s; reflexivity).
  pose proof (parse_error_ends_page (ext := goRuntime) md
                [Samples.withPoint] [Samples.threePoints] bad [] [] p []
                msg "" ch' H1 H2 H3 H4) as [Hrep Hsend].
  split; [repeat split; assumption |].
  split; [exact Hrep |].
  exact (proj1 (Hsend unparsablePage s 0%nat g Hc Hg Hmd) Hpc).
Defined.

(** The run of a goroutine on such a page, to the end: it fetches, passes
    its [select], reports, sends the error, and the function returns it;
    the metric of the series before the unparsable one has been sent. *)
Example parse_error_run :
  let s0 := fst (metricDescriptorsFunction (ext := goRuntime)
                   Samples.collector0 (Samples.descriptors ["a"])
                   float64_zero Samples.clock0) in
  option_map
    (fun s => (returned s, map g_pc (goroutines s), List.length (sent s),
               List.length (issued s)))
    (steps (ext := goRuntime) unparsablePage s0
       [Run 0%nat; Run 0%nat; Run 0%nat; Run 0%nat; SelectErr])
  = Some (Some (Some (endTimeError "yesterday"
                        "parsing time `yesterday` as RFC3339Nano")),
          [Finished], 1%nat, 1%nat).
Proof. vm_compute. reflexivity. Qed.

(** C5, as stated, fails on a page whose first series has a point with an
    end time that does not parse: the series after it, which alone yields a
    metric, is not reduced. *)
Lemma series_after_parse_error_is_not_reduced :
  reportTimeSeriesMetrics (ext := goRuntime)
    (Samples.page [Samples.unparsable; Samples.withPoint]) Samples.cpu
  = ([], Return (Some (endTimeError "yesterday"
                         "parsing time `yesterday` as RFC3339Nano")))
  /\ reportTimeSeriesMetrics (ext := goRuntime)
       (Samples.page [Samples.withPoint]) Samples.cpu
     = ([constMetricOf (ext := goRuntime) Samples.cpu Samples.withPoint
           GaugeValue Samples.f1_5],
        Return None).
Proof. split; reflexivity. Qed.

(** ** The window of the requests of a scope *)

Section Window.
Context {ext : Collaborators}.
Variable Do : TimeSeriesListCall -> result (option ListTimeSeriesResponse).

Lemma step_windowed (start finish : string) (s s' : scope) (a : action) :
  windowed start finish s -> step Do s a = Some s' -> windowed start finish s'.
Proof.
  intros [Hg Hi] Hstep. unfold step in Hstep.
  destruct (crashed s); [discriminate |].
  destruct a as [i | | |].
  - unfold runGoroutine in Hstep.
    destruct (nth_error (goroutines s) i) as [g |] eqn:Hnth; [| discriminate].
    assert (Hw : call_intervalStartTime (g_timeSeriesListCall g) = start
                 /\ call_intervalEndTime (g_timeSeriesListCall g) = finish).
    { rewrite Forall_forall in Hg. apply Hg. now apply nth_error_In with i. }
    destruct (g_pc g) as [| err | page | page |].
    + injection Hstep as <-. split; cbn.
      * apply Forall_update; [exact Hg | exact Hw].
      * apply Forall_app. split; [exact Hi | now constructor].
    + destruct (errChannel s); [discriminate |].
      injection Hstep as <-. split; cbn; [| exact Hi].
      apply Forall_update; [exact Hg | exact Hw].
    + injection Hstep as <-. split; cbn; [| exact Hi].
      apply Forall_update; [exact Hg | exact Hw].
    + destruct (reportTimeSeriesMetrics page (g_metricDescriptor g))
        as [metrics how].
      injection Hstep as <-. split; cbn; [| exact Hi].
      apply Forall_update; [exact Hg |].
      destruct how as [[err |] |]; try exact Hw.
      destruct (String.eqb (NextPageToken page) ""); exact Hw.
    + discriminate.
  - destruct (forallb isFinished (goroutines s) && negb (doneChannel s))%bool;
      [| discriminate].
    injection Hstep as <-. now split.
  - destruct (returned s); [discriminate |].
    destruct (doneChannel s); [| discriminate].
    injection Hstep as <-. now split.
  - destruct (returned s); [discriminate |].
    destruct (errChannel s); [| discriminate].
    injection Hstep as <-. now split.
Qed.

Lemma steps_windowed (start finish : string) (schedule : list action) :
  forall s s',
    windowed start finish s -> steps Do s schedule = Some s' ->
    windowed start finish s'.
Proof.
  induction schedule as [|a schedule IH]; intros s s' Hw Hsteps; cbn in Hsteps.
  - now injection Hsteps as <-.
  - destruct (step Do s a) as [s1 |] eqn:Hstep; [| discriminate].
    apply (IH s1); [| exact Hsteps]. now apply step_windowed with s a.
Qed.

(** C4 (amended). The window is computed when metricDescriptorsFunction is
    entered, once for each descriptor page, from two readings of the
    clock: the start is the first reading less the interval, the end is
    the second reading. Every time-series listing request issued by the
    goroutines of that call, under any schedule, carries that start and
    that end. *)
Theorem one_window_per_descriptor_page (c : MonitoringCollector)
    (page : ListMetricDescriptorsResponse) (calls : float64) (clk : Clock)
    (schedule : list action) (s : scope) (r : TimeSeriesListCall) :
  steps Do (fst (metricDescriptorsFunction c page calls clk)) schedule
  = Some s ->
  In r (issued s) ->
  call_intervalStartTime r
  = time_Format (Add (reading clk (reads clk))
                   (wrap64 (metricsInterval c * -1)))
  /\ call_intervalEndTime r = time_Format (reading clk (S (reads clk))).
Proof.
  intros Hsteps Hin.
  set (start := time_Format (Add (reading clk (reads clk))
                               (wrap64 (metricsInterval c * -1)))).
  set (finish := time_Format (reading clk (S (reads clk)))).
  assert (H0 : windowed start finish
                 (fst (metricDescriptorsFunction c page calls clk))).
  { split; cbn; [| constructor].
    apply Forall_forall. intros g Hg. apply in_map_iff in Hg.
    destruct Hg as (md & <- & _). cbn. now split. }
  destruct (steps_windowed start finish schedule _ _ H0 Hsteps) as [_ Hi].
  rewrite Forall_forall in Hi. now apply Hi.
Qed.

End Window.

(** An interval that is an int64 other than the least one is negated
    without wrapping. *)
Lemma wrap64_negated (d : Duration) :
  int64_min < d <= int64_max -> wrap64 (d * -1) = - d.
Proof.
  unfold wrap64, int64_min, int64_max. intro Hd.
  replace (d * -1 + 2 ^ 63) with (2 ^ 63 - d) by lia.
  rewrite Z.mod_small by lia. lia.
Qed.

Lemma one_window_per_descriptor_page_witness :
  let page := Samples.descriptors ["a"; "b"] in
  let s0 := fst (metricDescriptorsFunction (ext := goRuntime)
                   Samples.collector0 page float64_zero Samples.clock0) in
  let schedule := [Run 1%nat; Run 0%nat; Run 0%nat; Run 1%nat] in
  let r := timeSeriesListCall (ext := goRuntime) Samples.collector0
             (Samples.descriptor "a")
             (1577836800000000000 - 300000000000) 1577836800001000000 in
  exists s,
    steps (ext := goRuntime) Samples.healthy s0 schedule = Some s
    /\ In r (issued s)
    /\ call_intervalStartTime r = "2019-12-31T23:55:00Z"
    /\ call_intervalEndTime r = "2020-01-01T00:00:00.001Z"
    /\ call_intervalStartTime r
       = RFC3339.Format
           (Add (reading Samples.clock0 (reads Samples.clock0))
              (wrap64 (metricsInterval Samples.collector0 * -1)))
    /\ call_intervalEndTime r
       = RFC3339.Format (reading Samples.clock0 (S (reads Samples.clock0))).
Proof.
  intros page s0 schedule r.
  destruct (steps (ext := goRuntime) Samples.healthy s0 schedule) as [s |] eqn:Hs;
    [| discriminate Hs].
  exists s.
  assert (Hin : In r (issued s)).
  { vm_compute in Hs. injection Hs as <-. right. left. reflexivity. }
  split; [reflexivity |]. split; [exact Hin |].
  split; [reflexivity |]. split; [reflexivity |].
  exact (one_window_per_descriptor_page (ext := goRuntime) Samples.healthy
           Samples.collector0 page float64_zero Samples.clock0 schedule s r
           Hs Hin).
Defined.

(** C4, as stated, fails on a scrape of one prefix whose descriptors come in
    two pages: the request issued for the first page carries the window
    23:55:00 to 00:00:00.001, the request issued for the second the window
    23:55:00.002 to 00:00:00.003. *)
Lemma two_descriptor_pages_two_windows :
  option_map
    (fun '(scopes, err) => (map (fun s => map Samples.window (issued s)) scopes, err))
    (Pages (ext := goRuntime) Samples.healthy Samples.twoPages
       Samples.collector0 (prefixFilter "compute.googleapis.com/instance/cpu")
       "" [Samples.oneDescriptor; Samples.oneDescriptor] float64_zero
       Samples.clock0)
  = Some ([[("2019-12-31T23:55:00Z", "2020-01-01T00:00:00.001Z")];
           [("2019-12-31T23:55:00.002Z", "2020-01-01T00:00:00.003Z")]],
          None).
Proof. vm_compute. reflexivity. Qed.

(** ** The error channel of a scope *)

(** C9 (the code departs from it). Three descriptors whose fetches all fail:
    the first error is received by the function, which returns it; the
    second error is not dropped but fills the channel again; the goroutine
    of the third descriptor stands at its send, and no action of the scope
    is enabled any more, so its write never completes. Two descriptors of
    which one fetch fails: the error it sends is taken out of the channel by
    the [select] of the other goroutine, and the function returns nil. *)
Theorem error_channel_blocks_and_loses :
  (exists s,
     steps (ext := goRuntime) Samples.unavailable
       (fst (metricDescriptorsFunction (ext := goRuntime) Samples.collector0
               (Samples.descriptors ["a"; "b"; "c"]) float64_zero
               Samples.clock0))
       Samples.threeFailures
     = Some s
     /\ returned s
        = Some (Some ("unavailable: metric.type=" ++ dquote ++ "a" ++ dquote))
     /\ errChannel s
        = Some ("unavailable: metric.type=" ++ dquote ++ "b" ++ dquote)
     /\ map g_pc (goroutines s)
        = [Finished; Finished;
           AtSend ("unavailable: metric.type=" ++ dquote ++ "c" ++ dquote)]
     /\ forall a, step (ext := goRuntime) Samples.unavailable s a = None)
  /\ (exists s,
        steps (ext := goRuntime) Samples.oneFails
          (fst (metricDescriptorsFunction (ext := goRuntime) Samples.collector0
                  (Samples.descriptors ["a"; "b"]) float64_zero
                  Samples.clock0))
          Samples.errorTaken
        = Some s
        /\ Samples.oneFails
             (timeSeriesListCall (ext := goRuntime) Samples.collector0
                (Samples.descriptor "a")
                (1577836800000000000 - 300000000000) 1577836800001000000)
           = Err "unavailable"
        /\ map g_pc (goroutines s) = [Finished; Finished]
        /\ errChannel s = None
        /\ returned s = Some None).
Proof.
  split.
  - eexists. split; [vm_compute; reflexivity |].
    split; [reflexivity |]. split; [reflexivity |]. split; [reflexivity |].
    intros [[|[|[|[|i]]]] | | |]; reflexivity.
  - eexists. split; [vm_compute; reflexivity |].
    repeat split.
Qed.

(** While the function has not received the first error, a second write
    finds the channel full and cannot move. *)
Example second_error_write_waits :
  exists s,
    steps (ext := goRuntime) Samples.unavailable
      (fst (metricDescriptorsFunction (ext := goRuntime) Samples.collector0
              (Samples.descriptors ["a"; "b"; "c"]) float64_zero
              Samples.clock0))
      [Run 0%nat; Run 1%nat; Run 2%nat; Run 0%nat]
    = Some s
    /\ step (ext := goRuntime) Samples.unavailable s (Run 1%nat) = None
    /\ step (ext := goRuntime) Samples.unavailable s (Run 2%nat) = None.
Proof.
  eexists. split; [vm_compute; reflexivity |]. split; reflexivity.
Qed.

(** ** Collect *)


(** The statements of [Collect], run one after the other. *)
Ltac run_statements :=
  lazy beta iota zeta delta
    [CollectAmid Collect bind ret Now time_Now Inc GaugeSet MetricCollect
     Errorf Leftovers setMetric withMetrics metricOf fst snd
     collector ch clock logged reading reads
     projectID metricsTypePrefixes metricsInterval apiCallsTotalMetric
     scrapesTotalMetric scrapeErrorsTotalMetric lastScrapeErrorMetric
     lastScrapeTimestampMetric lastScrapeDurationSecondsMetric].

(** Alone, [CollectAmid] is [Collect]. *)
Lemma CollectAmid_alone (pipeline : M (option string)) (w : world) :
  snd (CollectAmid pipeline (fun _ => nobody) w) = snd (Collect pipeline w).
Proof.
  run_statements.
  destruct (pipeline _) as [[e |] [[] ch1 [rd n] lg]]; run_statements;
    unfold nobody; cbn [leftSent leftCalls leftReads counted Nat.iter];
    rewrite ?app_nil_r, ?Nat.add_0_r; reflexivity.
Qed.

Section CollectProperties.
Variable others : nat -> leftovers.


End CollectProperties.



(** A scrape whose pipeline fails: the error gauge sent is 1, the
    scrape-error counter and the scrape counter are 1. *)
Example failed_scrape_run :
  let pipeline : M (option string) := fun w => (Some "unavailable", w) in
  let w := {| collector := Samples.collector0; ch := [];
              clock := Samples.clock0; logged := [] |} in
  map (fun m => (fqName (desc m), value m))
    (firstn 4 (ch (snd (Collect pipeline w))))
  = [("stackdriver_monitoring_scrape_errors_total", float64_one);
     ("stackdriver_monitoring_api_calls_total", float64_zero);
     ("stackdriver_monitoring_scrapes_total", float64_one);
     ("stackdriver_monitoring_last_scrape_error", float64_one)].
Proof. reflexivity. Qed.

(** * Further properties *)

(** ** The reduction of a page, series by series *)

Section PageReduction.
Context {ext : Collaborators}.

(** The scan of a well-formed series selects one of its points, whatever
    point an earlier series left selected. *)
Lemma wellFormed_scan (ts : TimeSeries) :
  wellFormed ts ->
  exists t p,
    In p (Points ts)
    /\ forall prev, rangePoints (Points ts) (time_Unix 0 0) prev = Ok (t, Some p).
Proof.
  intros (ends & Hends & (t0 & Hin & Hpos) & _).
  destruct (rangePoints_scan (Points ts) ends Hends (time_Unix 0 0) None)
    as [[Hall _] | (i & p & t & Hp & Hf & Hlt & _)].
  - rewrite Forall_forall in Hall. specialize (Hall _ Hin). lia.
  - exists t, p. split; [now apply nth_error_In with i |].
    intro prev. now apply rangePoints_firstNewest with (ends := ends) (i := i).
Qed.

(** The switch on the value type does not dereference nil at a point that
    holds the scalar of the value type. *)
Lemma switchValueType_carries (valueType : string) (p : Point) :
  carries valueType p ->
  switchValueType valueType (Some p) <> NilDereference.
Proof.
  intros (Hb & Hi & Hd). unfold switchValueType, deref.
  destruct (String.eqb_spec valueType "BOOL") as [E | _].
  { specialize (Hb E). destruct (BoolValue (Value p)); [discriminate | tauto]. }
  destruct (String.eqb_spec valueType "INT64") as [E | _].
  { specialize (Hi E). destruct (Int64Value (Value p)); [discriminate | tauto]. }
  destruct (String.eqb_spec valueType "DOUBLE") as [E | _].
  { specialize (Hd E). destruct (DoubleValue (Value p)); [discriminate | tauto]. }
  discriminate.
Qed.

(** One iteration of the loop on a well-formed series: the metrics of the
    series on its own are sent and the loop goes on. *)
Lemma rangeTimeSeries_wellFormed (md : MetricDescriptor) (ts : TimeSeries)
    (rest : list TimeSeries) (prev : option Point) (ch : list ConstMetric) :
  wellFormed ts ->
  exists sel,
    rangeTimeSeries md (ts :: rest) prev ch
    = rangeTimeSeries md rest sel (ch ++ reduceSeries md ts).
Proof.
  intro Hwf. destruct (wellFormed_scan ts Hwf) as (t & p & Hin & Hscan).
  assert (Hnil : switchValueType (ValueType ts) (Some p) <> NilDereference).
  { destruct Hwf as (_ & _ & _ & Hc). rewrite Forall_forall in Hc.
    apply switchValueType_carries. now apply Hc. }
  exists (Some p). unfold reduceSeries. cbn [rangeTimeSeries].
  rewrite (Hscan prev), (Hscan None).
  destruct (switchMetricKind (MetricKind ts)) as [kind |].
  - destruct (switchValueType (ValueType ts) (Some p)) as [v | |].
    + reflexivity.
    + cbn. now rewrite app_nil_r.
    + now contradiction Hnil.
  - cbn. now rewrite app_nil_r.
Qed.

(** X1. On a page whose series are all well formed (end times that parse,
    one of them later than the Unix epoch, every point holding the scalar of
    the value type of its series) the loop returns no error and does not
    panic, and what it sends is, in the order of the series, what each
    series yields on its own: no series is reduced from a point of another
    one, whatever point was selected before the page. *)
Theorem well_formed_page_is_reduced_series_by_series (md : MetricDescriptor)
    (series : list TimeSeries) :
  Forall wellFormed series ->
  forall (prev : option Point) (ch : list ConstMetric),
    rangeTimeSeries md series prev ch
    = ((ch ++ flat_map (reduceSeries md) series)%list, Return None).
Proof.
  induction 1 as [|ts rest Hts _ IH]; intros prev ch.
  - cbn. now rewrite app_nil_r.
  - destruct (rangeTimeSeries_wellFormed md ts rest prev ch Hts) as (sel & ->).
    rewrite IH. cbn [flat_map]. now rewrite app_assoc.
Qed.

(** X2. A well-formed series of a supported kind and value type yields
    exactly one metric on its own, of the kind of the series and with the
    value read in one of its own points; a well-formed series of another
    kind or value type yields none. *)
Theorem well_formed_series_yields_one_metric_or_none (md : MetricDescriptor)
    (ts : TimeSeries) :
  wellFormed ts ->
  (supportedKind (MetricKind ts) -> supportedValueType (ValueType ts) ->
   exists kind p v,
     switchMetricKind (MetricKind ts) = Some kind
     /\ In p (Points ts)
     /\ switchValueType (ValueType ts) (Some p) = Chosen v
     /\ reduceSeries md ts = [constMetricOf md ts kind v])
  /\ (~ supportedKind (MetricKind ts) \/ ~ supportedValueType (ValueType ts) ->
      reduceSeries md ts = []).
Proof.
  intro Hwf. destruct (wellFormed_scan ts Hwf) as (t & p & Hin & Hscan).
  assert (Hnil : switchValueType (ValueType ts) (Some p) <> NilDereference).
  { destruct Hwf as (_ & _ & _ & Hc). rewrite Forall_forall in Hc.
    apply switchValueType_carries. now apply Hc. }
  unfold reduceSeries. cbn [rangeTimeSeries]. rewrite (Hscan None). split.
  - intros Hk Hv.
    assert (Hkind : exists kind, switchMetricKind (MetricKind ts) = Some kind).
    { unfold switchMetricKind. destruct Hk as [-> | [-> | ->]]; cbn; eauto. }
    destruct Hkind as (kind & Hkind).
    assert (Hval : switchValueType (ValueType ts) (Some p) <> Continue).
    { unfold switchValueType, deref.
      destruct Hv as [-> | [-> | ->]]; cbn.
      - destruct (BoolValue (Value p)); discriminate.
      - destruct (Int64Value (Value p)); discriminate.
      - destruct (DoubleValue (Value p)); discriminate. }
    destruct (switchValueType (ValueType ts) (Some p)) as [v | |] eqn:Hsw;
      [| now contradiction Hval | now contradiction Hnil].
    exists kind, p, v. rewrite Hkind. now repeat split.
  - intros [Hk | Hv].
    + now rewrite (switchMetricKind_unsupported _ Hk).
    + rewrite (switchValueType_unsupported _ (Some p) Hv).
      now destruct (switchMetricKind (MetricKind ts)).
Qed.

(** The loop only appends to the channel, and what it appends and how it
    ends do not depend on what the channel held. *)
Lemma rangeTimeSeries_appends (md : MetricDescriptor)
    (series : list TimeSeries) :
  forall (prev : option Point) (ch : list ConstMetric),
    rangeTimeSeries md series prev ch
    = ((ch ++ fst (rangeTimeSeries md series prev []))%list,
       snd (rangeTimeSeries md series prev [])).
Proof.
  induction series as [|ts series IH]; intros prev ch.
  - cbn. now rewrite app_nil_r.
  - cbn [rangeTimeSeries].
    destruct (rangePoints (Points ts) (time_Unix 0 0) prev) as [[t sel] | err];
      [| cbn; now rewrite app_nil_r].
    destruct (switchMetricKind (MetricKind ts)) as [kind |]; [| apply IH].
    destruct (switchValueType (ValueType ts) sel) as [v | |];
      [| apply IH | cbn; now rewrite app_nil_r].
    rewrite (IH sel (ch ++ _)%list), (IH sel ([] ++ _)%list). cbn [fst snd].
    now rewrite <- app_assoc.
Qed.

Lemma rangeTimeSeries_length (md : MetricDescriptor)
    (series : list TimeSeries) :
  forall (prev : option Point),
    (List.length (fst (rangeTimeSeries md series prev []))
     <= List.length series)%nat.
Proof.
  induction series as [|ts series IH]; intro prev; [apply Nat.le_refl |].
  cbn [rangeTimeSeries].
  destruct (rangePoints (Points ts) (time_Unix 0 0) prev) as [[t sel] | err];
    [| apply Nat.le_0_l].
  destruct (switchMetricKind (MetricKind ts)) as [kind |];
    [| cbn [List.length]; specialize (IH sel); lia].
  destruct (switchValueType (ValueType ts) sel) as [v | |];
    [| cbn [List.length]; specialize (IH sel); lia | apply Nat.le_0_l].
  rewrite rangeTimeSeries_appends. cbn [fst List.length app].
  specialize (IH sel). lia.
Qed.

(** X3. Whatever the page holds and however the reduction ends, it sends at
    most one metric for each series of the page, after the metrics that
    were on the channel, which it leaves as they were. *)
Theorem at_most_one_metric_per_series (page : ListTimeSeriesResponse)
    (md : MetricDescriptor) (prev : option Point) (ch : list ConstMetric) :
  exists more,
    fst (rangeTimeSeries md (TimeSeries_ page) prev ch) = (ch ++ more)%list
    /\ (List.length more <= List.length (TimeSeries_ page))%nat
    /\ (List.length (fst (reportTimeSeriesMetrics page md))
        <= List.length (TimeSeries_ page))%nat.
Proof.
  exists (fst (rangeTimeSeries md (TimeSeries_ page) prev [])).
  rewrite rangeTimeSeries_appends. cbn [fst].
  repeat split; apply rangeTimeSeries_length.
Qed.

(** A scan fails only with the error of one of its points. *)
Lemma rangePoints_Err (points : list Point) :
  forall newestEndTime newestTSPoint err,
    rangePoints points newestEndTime newestTSPoint = Err err ->
    exists p msg,
      In p points
      /\ time_Parse (EndTime (Interval p)) = Err msg
      /\ err = endTimeError (EndTime (Interval p)) msg.
Proof.
  induction points as [|p0 points IH]; intros e0 prev err H; cbn in H;
    [discriminate |].
  destruct (time_Parse (EndTime (Interval p0))) as [t | msg] eqn:Hp.
  - destruct (After t e0); apply IH in H;
      destruct H as (p & m & Hin & H1 & H2); exists p, m;
      (split; [now right | now split]).
  - injection H as <-. exists p0, msg. split; [now left | now split].
Qed.

(** X4. The only error the reduction of a page returns is the error of a
    point of the page whose end time does not parse, with the text of that
    end time. *)
Theorem reduction_error_is_an_end_time_error (page : ListTimeSeriesResponse)
    (md : MetricDescriptor) (err : string) :
  snd (reportTimeSeriesMetrics page md) = Return (Some err) ->
  endTimeErrorOf (TimeSeries_ page) err.
Proof.
  unfold reportTimeSeriesMetrics.
  generalize (@None Point) as prev, (@nil ConstMetric) as ch.
  induction (TimeSeries_ page) as [|ts series IH]; intros prev ch H;
    cbn [rangeTimeSeries] in H; [discriminate |].
  assert (Hrec : forall sel ch0,
             snd (rangeTimeSeries md series sel ch0) = Return (Some err) ->
             endTimeErrorOf (ts :: series) err).
  { intros sel ch0 H0. destruct (IH _ _ H0) as (ts' & p & msg & H1 & H2).
    exists ts', p, msg. split; [now right | exact H2]. }
  destruct (rangePoints (Points ts) (time_Unix 0 0) prev) as [[t sel] | e]
    eqn:Hscan.
  - destruct (switchMetricKind (MetricKind ts)); [| now apply Hrec in H].
    destruct (switchValueType (ValueType ts) sel);
      [now apply Hrec in H | now apply Hrec in H | discriminate].
  - cbn in H. injection H as ->.
    destruct (rangePoints_Err _ _ _ _ Hscan) as (p & msg & Hin & Hp & ->).
    exists ts, p, msg. split; [now left | now repeat split].
Qed.

End PageReduction.

Lemma well_formed_page_is_reduced_series_by_series_witness :
  let series := [Samples.threePoints; Samples.distribution; Samples.fortyTwo] in
  let stale := Some (Samples.point "2019-01-01T00:00:00Z" (Samples.boolean true)) in
  Forall (wellFormed (ext := goRuntime)) series
  /\ rangeTimeSeries (ext := goRuntime) Samples.cpu series stale []
     = (([] ++ flat_map (reduceSeries (ext := goRuntime) Samples.cpu) series)%list,
        Return None)
  /\ flat_map (reduceSeries (ext := goRuntime) Samples.cpu) series
     = [constMetricOf (ext := goRuntime) Samples.cpu Samples.threePoints
          GaugeValue Samples.f2_0;
        constMetricOf (ext := goRuntime) Samples.cpu Samples.fortyTwo
          CounterValue (float64_of_int 42)].
Proof.
  intros series stale.
  assert (Hwf : Forall (wellFormed (ext := goRuntime)) series).
  { repeat constructor.
    - exists [1577836800000000000; 1577836805000000000; 1577836802000000000].
      split; [repeat constructor |]. split.
      + exists 1577836800000000000. split; [now left | reflexivity].
      + repeat constructor; intro; discriminate.
    - exists [1577836800000000000].
      split; [repeat constructor |]. split.
      + exists 1577836800000000000. split; [now left | reflexivity].
      + repeat constructor; intro; discriminate.
    - exists [1577836800000000000].
      split; [repeat constructor |]. split.
      + exists 1577836800000000000. split; [now left | reflexivity].
      + repeat constructor; intro; discriminate. }
  split; [exact Hwf |]. split; [| reflexivity].
  exact (well_formed_page_is_reduced_series_by_series (ext := goRuntime)
           Samples.cpu series Hwf stale []).
Defined.

Lemma well_formed_series_yields_one_metric_or_none_witness :
  let ts := Samples.fortyTwo in
  wellFormed (ext := goRuntime) ts
  /\ supportedKind (MetricKind ts)
  /\ supportedValueType (ValueType ts)
  /\ exists kind p v,
       switchMetricKind (MetricKind ts) = Some kind
       /\ In p (Points ts)
       /\ switchValueType (ValueType ts) (Some p) = Chosen v
       /\ reduceSeries (ext := goRuntime) Samples.cpu ts
          = [constMetricOf (ext := goRuntime) Samples.cpu ts kind v].
Proof.
  intro ts.
  assert (Hwf : wellFormed (ext := goRuntime) ts).
  { exists [1577836800000000000].
    split; [repeat constructor |]. split.
    - exists 1577836800000000000. split; [now left | reflexivity].
    - repeat constructor; intro; discriminate. }
  assert (Hk : supportedKind (MetricKind ts)) by (right; left; reflexivity).
  assert (Hv : supportedValueType (ValueType ts)) by (right; left; reflexivity).
  split; [exact Hwf |]. split; [exact Hk |]. split; [exact Hv |].
  exact (proj1 (well_formed_series_yields_one_metric_or_none (ext := goRuntime)
                  Samples.cpu ts Hwf) Hk Hv).
Defined.

Lemma reduction_error_is_an_end_time_error_witness :
  let page := Samples.page [Samples.withPoint; Samples.unparsable] in
  let err := endTimeError "yesterday" "parsing time `yesterday` as RFC3339Nano" in
  snd (reportTimeSeriesMetrics (ext := goRuntime) page Samples.cpu)
  = Return (Some err)
  /\ endTimeErrorOf (ext := goRuntime) (TimeSeries_ page) err.
Proof.
  intros page err.
  assert (H : snd (reportTimeSeriesMetrics (ext := goRuntime) page Samples.cpu)
              = Return (Some err)) by reflexivity.
  split; [exact H |].
  exact (reduction_error_is_an_end_time_error (ext := goRuntime) page
           Samples.cpu err H).
Defined.

(** ** What holds of a scope at every step *)

Section ScopeInvariantProofs.
Context {ext : Collaborators}.
Variable Do : TimeSeriesListCall -> result (option ListTimeSeriesResponse).
Variable c : MonitoringCollector.
Variables startTime endTime : Time.
Variable descriptors : list MetricDescriptor.

Lemma forallb_isFinished_nth (l : list goroutine) (i : nat) (g : goroutine) :
  forallb isFinished l = true -> nth_error l i = Some g -> g_pc g = Finished.
Proof.
  intros Hall Hnth. rewrite forallb_forall in Hall.
  specialize (Hall g (nth_error_In _ _ Hnth)). unfold isFinished in Hall.
  now destruct (g_pc g).
Qed.

Lemma step_scopeOk (s s' : scope) (a : action) :
  scopeOk Do c startTime endTime descriptors s ->
  step Do s a = Some s' ->
  scopeOk Do c startTime endTime descriptors s'.
Proof.
  intros (HG & HI & HM & HE & HR & HD & HN) Hstep. unfold step in Hstep.
  destruct (crashed s); [discriminate |].
  destruct a as [i | | |].
  - unfold runGoroutine in Hstep.
    destruct (nth_error (goroutines s) i) as [g |] eqn:Hnth; [| discriminate].
    assert (Hg : goroutineOk Do c startTime endTime descriptors g).
    { rewrite Forall_forall in HG. apply HG. now apply nth_error_In with i. }
    assert (Hrun : g_pc g <> Finished -> doneChannel s = false).
    { intro Hpc. destruct (doneChannel s) eqn:Hd; [| reflexivity].
      contradiction Hpc.
      now apply forallb_isFinished_nth with (goroutines s) i; [apply HD |]. }
    destruct Hg as (Hmd & (token & Hcall & Htok) & Hpc).
    destruct (g_pc g) as [| err | page | page |] eqn:Epc.
    + assert (Hd : doneChannel s = false) by (apply Hrun; discriminate).
      injection Hstep as <-.
      refine (conj _ (conj _ (conj HM (conj HE (conj HR (conj _ HN)))))); cbn.
      * apply Forall_update; [exact HG |]. unfold goroutineOk. cbn.
        split; [exact Hmd |]. split; [now exists token |].
        destruct (Do (g_timeSeriesListCall g)) as [[page |] | err] eqn:HDo; cbn.
        -- now exists (g_timeSeriesListCall g).
        -- exact I.
        -- left. now exists (g_timeSeriesListCall g).
      * apply Forall_app. split; [exact HI |]. constructor; [| constructor].
        now exists (g_metricDescriptor g), token.
      * intro H. rewrite Hd in H. discriminate.
    + destruct (errChannel s); [discriminate |].
      assert (Hd : doneChannel s = false) by (apply Hrun; discriminate).
      injection Hstep as <-.
      refine (conj _ (conj HI (conj HM (conj _ (conj HR (conj _ HN)))))); cbn.
      * apply Forall_update; [exact HG |]. unfold goroutineOk. cbn.
        split; [exact Hmd |]. split; [now exists token | exact I].
      * intros e He. now injection He as <-.
      * intro H. rewrite Hd in H. discriminate.
    + assert (Hd : doneChannel s = false) by (apply Hrun; discriminate).
      injection Hstep as <-.
      refine (conj _ (conj HI (conj HM (conj _ (conj HR (conj _ HN)))))); cbn.
      * apply Forall_update; [exact HG |]. unfold goroutineOk. cbn.
        split; [exact Hmd |]. split; [now exists token | exact Hpc].
      * discriminate.
      * intro H. rewrite Hd in H. discriminate.
    + assert (Hd : doneChannel s = false) by (apply Hrun; discriminate).
      destruct (reportTimeSeriesMetrics page (g_metricDescriptor g))
        as [metrics how] eqn:Hrep.
      injection Hstep as <-.
      refine (conj _ (conj HI (conj _ (conj HE (conj HR (conj _ HN)))))); cbn.
      * apply Forall_update; [exact HG |]. unfold goroutineOk.
        destruct how as [[err |] |]; cbn.
        -- split; [exact Hmd |]. split; [now exists token |].
           right. now exists page, (g_metricDescriptor g), metrics.
        -- destruct (String.eqb_spec (NextPageToken page) "") as [E | E]; cbn.
           ++ split; [exact Hmd |]. split; [now exists token | exact I].
           ++ split; [exact Hmd |]. split; [| exact I].
              exists (NextPageToken page). split.
              ** rewrite Hcall. reflexivity.
              ** right. now exists page.
        -- split; [exact Hmd |]. split; [now exists token |].
           now rewrite Epc.
      * apply Forall_app. split; [exact HM |].
        apply Forall_forall. intros m Hm.
        assert (Hm' : In m (fst (reportTimeSeriesMetrics page
                                   (g_metricDescriptor g))))
          by now rewrite Hrep.
        unfold reportTimeSeriesMetrics in Hm'.
        apply rangeTimeSeries_sent in Hm'.
        destruct Hm' as [[] | (ts & kind & v & Hts & Hkind & ->)].
        now exists (g_metricDescriptor g), page, ts, kind, v.
      * intro H. rewrite Hd in H. discriminate.
    + discriminate.
  - destruct (forallb isFinished (goroutines s)) eqn:Hall; cbn in Hstep;
      [| discriminate].
    destruct (negb (doneChannel s)); [| discriminate].
    injection Hstep as <-.
    refine (conj HG (conj HI (conj HM (conj HE (conj HR (conj _ _)))))); cbn.
    + intros _. exact Hall.
    + reflexivity.
  - destruct (returned s) eqn:Hret; [discriminate |].
    destruct (doneChannel s) eqn:Hd; [| discriminate].
    injection Hstep as <-.
    refine (conj HG (conj HI (conj HM (conj HE (conj _ (conj HD _)))))); cbn.
    + discriminate.
    + reflexivity.
  - destruct (returned s) eqn:Hret; [discriminate |].
    destruct (errChannel s) as [err |] eqn:Hch; [| discriminate].
    injection Hstep as <-.
    refine (conj HG (conj HI (conj HM (conj _ (conj _ (conj HD _)))))); cbn.
    + discriminate.
    + intros e He. injection He as <-. now apply HE.
    + discriminate.
Qed.

Lemma steps_scopeOk (schedule : list action) :
  forall s s',
    scopeOk Do c startTime endTime descriptors s ->
    steps Do s schedule = Some s' ->
    scopeOk Do c startTime endTime descriptors s'.
Proof.
  induction schedule as [|a schedule IH]; intros s s' Hok Hsteps; cbn in Hsteps.
  - now injection Hsteps as <-.
  - destruct (step Do s a) as [s1 |] eqn:Hstep; [| discriminate].
    apply (IH s1); [| exact Hsteps]. now apply step_scopeOk with s a.
Qed.

End ScopeInvariantProofs.

(** ** What a call of metricDescriptorsFunction does, under any schedule *)

Section ScopeProperties.
Context {ext : Collaborators}.
Variable Do : TimeSeriesListCall -> result (option ListTimeSeriesResponse).

(** The state the function starts its goroutines in satisfies what every
    step keeps. *)
Lemma metricDescriptorsFunction_scopeOk (c : MonitoringCollector)
    (page : ListMetricDescriptorsResponse) (calls : float64) (clk : Clock) :
  scopeOk Do c
    (Add (reading clk (reads clk)) (wrap64 (metricsInterval c * -1)))
    (reading clk (S (reads clk)))
    (MetricDescriptors page)
    (fst (metricDescriptorsFunction c page calls clk)).
Proof.
  unfold scopeOk. cbn.
  refine (conj _ (conj _ (conj _ (conj _ (conj _ (conj _ _)))))); try constructor;
    try discriminate.
  apply Forall_forall. intros g Hg. apply in_map_iff in Hg.
  destruct Hg as (md & <- & Hmd). unfold goroutineOk. cbn.
  split; [exact Hmd |]. split; [| exact I].
  exists "". split; [reflexivity | now left].
Qed.

(** X5. Under any schedule, the function returns nil only when every
    goroutine it started has finished, and an error only if a fetch
    returned that error or the reduction of a fetched page for one of the
    descriptors of the page returned it. *)
Theorem scope_return_values (c : MonitoringCollector)
    (page : ListMetricDescriptorsResponse) (calls : float64) (clk : Clock)
    (schedule : list action) (s : scope) :
  steps Do (fst (metricDescriptorsFunction c page calls clk)) schedule
  = Some s ->
  (returned s = Some None ->
   Forall (fun g => g_pc g = Finished) (goroutines s))
  /\ (forall err, returned s = Some (Some err) ->
        raised Do (MetricDescriptors page) err).
Proof.
  intro Hsteps.
  destruct (steps_scopeOk Do c _ _ _ schedule _ _
              (metricDescriptorsFunction_scopeOk c page calls clk) Hsteps)
    as (_ & _ & _ & _ & HR & HD & HN).
  split; [| exact HR].
  intro Hnil. specialize (HD (HN Hnil)). rewrite forallb_forall in HD.
  apply Forall_forall. intros g Hg. specialize (HD g Hg).
  unfold isFinished in HD. now destruct (g_pc g).
Qed.

(** X6. Under any schedule, every request issued is the request of lines
    159-162 for one of the descriptors of the page: the resource of the
    project, the filter on the type of the descriptor and the window of the
    call; its page token is empty or the next-page token of a page that a
    fetch returned. *)
Theorem scope_requests (c : MonitoringCollector)
    (page : ListMetricDescriptorsResponse) (calls : float64) (clk : Clock)
    (schedule : list action) (s : scope) (r : TimeSeriesListCall) :
  steps Do (fst (metricDescriptorsFunction c page calls clk)) schedule
  = Some s ->
  In r (issued s) ->
  exists md token,
    In md (MetricDescriptors page)
    /\ followsPage Do token
    /\ r = {| call_name := ProjectResource (projectID c);
              call_filter := "metric.type=" ++ dquote ++ MD_Type md ++ dquote;
              call_intervalStartTime :=
                time_Format
                  (Add (reading clk (reads clk))
                     (wrap64 (metricsInterval c * -1)));
              call_intervalEndTime := time_Format (reading clk (S (reads clk)));
              call_pageToken := token |}.
Proof.
  intros Hsteps Hin.
  destruct (steps_scopeOk Do c _ _ _ schedule _ _
              (metricDescriptorsFunction_scopeOk c page calls clk) Hsteps)
    as (_ & HI & _).
  rewrite Forall_forall in HI.
  destruct (HI r Hin) as (md & token & Hmd & -> & Htok).
  now exists md, token.
Qed.

(** X7. Under any schedule, every metric sent by the goroutines of the call
    was built for one of the descriptors of the page, whose description it
    carries as help, from a series of a page that a fetch returned; its kind
    is that of the series. *)
Theorem scope_metrics (c : MonitoringCollector)
    (page : ListMetricDescriptorsResponse) (calls : float64) (clk : Clock)
    (schedule : list action) (s : scope) (m : ConstMetric) :
  steps Do (fst (metricDescriptorsFunction c page calls clk)) schedule
  = Some s ->
  In m (sent s) ->
  exists md fetchedPage ts kind v,
    In md (MetricDescriptors page)
    /\ fetched Do fetchedPage
    /\ In ts (TimeSeries_ fetchedPage)
    /\ switchMetricKind (MetricKind ts) = Some kind
    /\ m = constMetricOf md ts kind v
    /\ help (desc m) = Description md
    /\ valType m = kind.
Proof.
  intros Hsteps Hin.
  destruct (steps_scopeOk Do c _ _ _ schedule _ _
              (metricDescriptorsFunction_scopeOk c page calls clk) Hsteps)
    as (_ & _ & HM & _).
  rewrite Forall_forall in HM.
  destruct (HM m Hin) as (md & pg & ts & kind & v & H1 & H2 & H3 & H4 & ->).
  exists md, pg, ts, kind, v. now repeat split.
Qed.

(** X8. As long as the function has not returned and no goroutine has
    panicked, the scope is not stuck: a goroutine can move, or the group can
    be closed, or the [select] of the function can fire. While the error
    channel holds an error, the receive of the function is enabled and
    returns that error, and the send of a goroutine that stands at it
    cannot move; once the channel is empty that send writes its error. The
    receive of the function is not the only one that empties the channel:
    the [select] of a sibling (lines 174-178) may take the error first. *)
Theorem scope_not_stuck_before_return (s : scope) :
  crashed s = false ->
  returned s = None ->
  (exists a s', step Do s a = Some s')
  /\ (forall held,
        errChannel s = Some held ->
        exists s',
          step Do s SelectErr = Some s'
          /\ returned s' = Some (Some held)
          /\ errChannel s' = None
          /\ goroutines s' = goroutines s)
  /\ (forall i g err,
        nth_error (goroutines s) i = Some g ->
        g_pc g = AtSend err ->
        (errChannel s = None ->
         exists s',
           step Do s (Run i) = Some s'
           /\ errChannel s' = Some err
           /\ nth_error (goroutines s') i = Some (goto g Finished))
        /\ (forall held,
              errChannel s = Some held -> step Do s (Run i) = None)).
Proof.
  intros Hc Hret.
  assert (Hcases : forallb isFinished (goroutines s) = true
                   \/ exists i g, nth_error (goroutines s) i = Some g
                                  /\ g_pc g <> Finished).
  { induction (goroutines s) as [|g l IH]; [now left |].
    cbn [forallb]. destruct (isFinished g) eqn:Hg.
    - destruct IH as [-> | (i & g' & Hn & Hp)]; [now left |].
      right. now exists (S i), g'.
    - right. exists 0%nat, g. split; [reflexivity |].
      unfold isFinished in Hg. intro E. now rewrite E in Hg. }
  unfold step. rewrite Hc. split; [| split].
  - destruct Hcases as [Hall | (i & g & Hnth & Hpc)].
    + destruct (doneChannel s) eqn:Hd.
      * exists SelectDone. rewrite ?Hret, ?Hd. eauto.
      * exists CloseDone. rewrite ?Hall, ?Hd. cbn. eauto.
    + destruct (g_pc g) as [| err | page | page |] eqn:Epc.
      * exists (Run i). unfold runGoroutine. rewrite Hnth, Epc. eauto.
      * destruct (errChannel s) as [held |] eqn:Hch.
        -- exists SelectErr. rewrite ?Hret, ?Hch. eauto.
        -- exists (Run i). unfold runGoroutine. rewrite ?Hnth, ?Epc, ?Hch.
           eauto.
      * exists (Run i). unfold runGoroutine. rewrite Hnth, Epc. eauto.
      * exists (Run i). unfold runGoroutine. rewrite Hnth, Epc.
        destruct (reportTimeSeriesMetrics page (g_metricDescriptor g)). eauto.
      * now contradiction Hpc.
  - intros held Hch. rewrite Hret, Hch. eexists. split; [reflexivity |].
    cbn. now repeat split.
  - intros i g err Hnth Hpc. unfold runGoroutine. rewrite Hnth, Hpc. split.
    + intro Hch. rewrite Hch. eexists. split; [reflexivity |]. cbn.
      split; [reflexivity |]. now apply nth_error_update with (x := g).
    + intros held Hch. now rewrite Hch.
Qed.

(** X9. A descriptor page without descriptors: whatever the schedule, no
    request is issued, no metric is sent and no error is returned; the
    function can return, and what it returns is nil. *)
Theorem page_without_descriptors (c : MonitoringCollector)
    (page : ListMetricDescriptorsResponse) (calls : float64) (clk : Clock) :
  MetricDescriptors page = [] ->
  (forall schedule s,
     steps Do (fst (metricDescriptorsFunction c page calls clk)) schedule
     = Some s ->
     issued s = [] /\ sent s = []
     /\ apiCalls s = float64_add calls float64_one
     /\ (returned s = None \/ returned s = Some None))
  /\ exists s,
       steps Do (fst (metricDescriptorsFunction c page calls clk))
         [CloseDone; SelectDone]
       = Some s
       /\ returned s = Some None.
Proof.
  intro Hnil. split.
  - intros schedule.
    assert (Hinv : forall s0 s,
               goroutines s0 = [] /\ errChannel s0 = None /\ issued s0 = []
               /\ sent s0 = [] /\ apiCalls s0 = float64_add calls float64_one
               /\ (returned s0 = None \/ returned s0 = Some None) ->
               steps Do s0 schedule = Some s ->
               issued s = [] /\ sent s = []
               /\ apiCalls s = float64_add calls float64_one
               /\ (returned s = None \/ returned s = Some None)).
    { induction schedule as [|a schedule IH]; intros s0 s Hs0 Hsteps;
        cbn in Hsteps.
      - injection Hsteps as <-. tauto.
      - destruct (step Do s0 a) as [s1 |] eqn:Hstep; [| discriminate].
        apply (IH s1 s); [| exact Hsteps].
        destruct Hs0 as (H1 & H2 & H3 & H4 & H5 & H6).
        unfold step in Hstep. destruct (crashed s0); [discriminate |].
        destruct a as [i | | |].
        + unfold runGoroutine in Hstep. rewrite H1 in Hstep.
          destruct i; discriminate.
        + destruct (forallb isFinished (goroutines s0) && negb (doneChannel s0))%bool;
            [| discriminate].
          injection Hstep as <-. cbn. tauto.
        + destruct (returned s0); [discriminate |].
          destruct (doneChannel s0); [| discriminate].
          injection Hstep as <-. cbn. tauto.
        + rewrite H2 in Hstep. destruct (returned s0); discriminate. }
    intros s Hsteps.
    apply (Hinv (fst (metricDescriptorsFunction c page calls clk)) s);
      [| exact Hsteps].
    cbn. rewrite Hnil. cbn. tauto.
  - cbn. unfold step. cbn. rewrite Hnil. cbn. eexists. split; reflexivity.
Qed.

End ScopeProperties.

Lemma scope_return_values_witness :
  let s0 := fst (metricDescriptorsFunction (ext := goRuntime)
                   Samples.collector0 (Samples.descriptors ["a"; "b"])
                   float64_zero Samples.clock0) in
  exists s,
    steps (ext := goRuntime) Samples.oneFails s0 Samples.errorTaken = Some s
    /\ returned s = Some None
    /\ Forall (fun g => g_pc g = Finished) (goroutines s).
Proof.
  intro s0.
  destruct (steps (ext := goRuntime) Samples.oneFails s0 Samples.errorTaken)
    as [s |] eqn:Hs; [| discriminate Hs].
  exists s.
  assert (Hret : returned s = Some None).
  { vm_compute in Hs. injection Hs as <-. reflexivity. }
  split; [reflexivity |]. split; [exact Hret |].
  exact (proj1 (scope_return_values (ext := goRuntime) Samples.oneFails
                  Samples.collector0 (Samples.descriptors ["a"; "b"])
                  float64_zero Samples.clock0 Samples.errorTaken s Hs) Hret).
Defined.

Lemma scope_requests_witness :
  let page := Samples.descriptors ["a"; "b"] in
  let s0 := fst (metricDescriptorsFunction (ext := goRuntime)
                   Samples.collector0 page float64_zero Samples.clock0) in
  let schedule := [Run 1%nat; Run 0%nat; Run 0%nat; Run 1%nat] in
  let r := {| call_name := "projects/p";
              call_filter := "metric.type=" ++ dquote ++ "b" ++ dquote;
              call_intervalStartTime := "2019-12-31T23:55:00Z";
              call_intervalEndTime := "2020-01-01T00:00:00.001Z";
              call_pageToken := "" |} in
  exists s,
    steps (ext := goRuntime) Samples.healthy s0 schedule = Some s
    /\ In r (issued s)
    /\ exists md token,
         In md (MetricDescriptors page)
         /\ followsPage (Samples.healthy) token
         /\ r = {| call_name := projectResourceModel "p";
                   call_filter :=
                     "metric.type=" ++ dquote ++ MD_Type md ++ dquote;
                   call_intervalStartTime :=
                     RFC3339.Format
                       (Add (reading Samples.clock0 (reads Samples.clock0))
                          (wrap64 (metricsInterval Samples.collector0 * -1)));
                   call_intervalEndTime :=
                     RFC3339.Format
                       (reading Samples.clock0 (S (reads Samples.clock0)));
                   call_pageToken := token |}.
Proof.
  intros page s0 schedule r.
  destruct (steps (ext := goRuntime) Samples.healthy s0 schedule) as [s |] eqn:Hs;
    [| discriminate Hs].
  exists s.
  assert (Hin : In r (issued s)).
  { vm_compute in Hs. injection Hs as <-. left. reflexivity. }
  split; [reflexivity |]. split; [exact Hin |].
  exact (scope_requests (ext := goRuntime) Samples.healthy Samples.collector0
           page float64_zero Samples.clock0 schedule s r Hs Hin).
Defined.

Lemma scope_metrics_witness :
  let page := Samples.descriptors ["a"] in
  let s0 := fst (metricDescriptorsFunction (ext := goRuntime)
                   Samples.collector0 page float64_zero Samples.clock0) in
  let m := constMetricOf (ext := goRuntime) (Samples.descriptor "a")
             Samples.withPoint GaugeValue Samples.f1_5 in
  exists s,
    steps (ext := goRuntime) Samples.healthy s0 Samples.oneDescriptor = Some s
    /\ In m (sent s)
    /\ exists md fetchedPage ts kind v,
         In md (MetricDescriptors page)
         /\ fetched Samples.healthy fetchedPage
         /\ In ts (TimeSeries_ fetchedPage)
         /\ switchMetricKind (MetricKind ts) = Some kind
         /\ m = constMetricOf (ext := goRuntime) md ts kind v
         /\ help (desc m) = Description md
         /\ valType m = kind.
Proof.
  intros page s0 m.
  destruct (steps (ext := goRuntime) Samples.healthy s0 Samples.oneDescriptor)
    as [s |] eqn:Hs; [| discriminate Hs].
  exists s.
  assert (Hin : In m (sent s)).
  { vm_compute in Hs. injection Hs as <-. left. reflexivity. }
  split; [reflexivity |]. split; [exact Hin |].
  exact (scope_metrics (ext := goRuntime) Samples.healthy Samples.collector0
           page float64_zero Samples.clock0 Samples.oneDescriptor s m Hs Hin).
Defined.

Lemma scope_not_stuck_before_return_witness :
  let s0 := fst (metricDescriptorsFunction (ext := goRuntime)
                   Samples.collector0 (Samples.descriptors ["a"; "b"; "c"])
                   float64_zero Samples.clock0) in
  let held := "unavailable: metric.type=" ++ dquote ++ "a" ++ dquote in
  exists s,
    steps (ext := goRuntime) Samples.unavailable s0
      [Run 0%nat; Run 1%nat; Run 2%nat; Run 0%nat]
    = Some s
    /\ crashed s = false
    /\ returned s = None
    /\ errChannel s = Some held
    /\ map g_pc (goroutines s)
       = [Finished;
          AtSend ("unavailable: metric.type=" ++ dquote ++ "b" ++ dquote);
          AtSend ("unavailable: metric.type=" ++ dquote ++ "c" ++ dquote)]
    /\ (exists a s', step (ext := goRuntime) Samples.unavailable s a = Some s')
    /\ (exists s',
          step (ext := goRuntime) Samples.unavailable s SelectErr = Some s'
          /\ returned s' = Some (Some held)
          /\ errChannel s' = None
          /\ goroutines s' = goroutines s)
    /\ step (ext := goRuntime) Samples.unavailable s (Run 1%nat) = None.
Proof.
  intros s0 held.
  destruct (steps (ext := goRuntime) Samples.unavailable s0
              [Run 0%nat; Run 1%nat; Run 2%nat; Run 0%nat])
    as [s |] eqn:Hs; [| discriminate Hs].
  vm_compute in Hs. injection Hs as Hs. exists s.
  assert (Hc : crashed s = false) by (subst s; reflexivity).
  assert (Hret : returned s = None) by (subst s; reflexivity).
  assert (Hch : errChannel s = Some held) by (subst s; reflexivity).
  destruct (nth_error (goroutines s) 1) as [g |] eqn:Hg;
    [| subst s; discriminate Hg].
  assert (Hpc : g_pc g
                = AtSend ("unavailable: metric.type=" ++ dquote ++ "b"
                            ++ dquote)).
  { subst s. cbn in Hg. injection Hg as <-. reflexivity. }
  pose proof (scope_not_stuck_before_return (ext := goRuntime)
                Samples.unavailable s Hc Hret) as (Hmove & Hrecv & Hsend).
  split; [reflexivity |]. split; [exact Hc |]. split; [exact Hret |].
  split; [exact Hch |]. split; [subst s; reflexivity |].
  split; [exact Hmove |]. split; [exact (Hrecv held Hch) |].
  exact (proj2 (Hsend 1%nat g _ Hg Hpc) held Hch).
Defined.

(** The send of [b] finds the channel full and is released by the [select]
    of [c], not by the receive of the function, which then returns the
    error of [b]. *)
Example blocked_send_released_by_sibling :
  let s0 := fst (metricDescriptorsFunction (ext := goRuntime)
                   Samples.collector0 (Samples.descriptors ["a"; "b"; "c"])
                   float64_zero Samples.clock0) in
  option_map (fun s => (errChannel s, map g_pc (firstn 2 (goroutines s))))
    (steps (ext := goRuntime) twoFail s0 (firstn 5 releasedBySibling))
  = Some (None,
          [Finished;
           AtSend ("unavailable: metric.type=" ++ dquote ++ "b" ++ dquote)])
  /\ option_map returned (steps (ext := goRuntime) twoFail s0 releasedBySibling)
     = Some (Some (Some ("unavailable: metric.type=" ++ dquote ++ "b"
                           ++ dquote))).
Proof. split; vm_compute; reflexivity. Qed.

Lemma page_without_descriptors_witness :
  let page := Samples.descriptors [] in
  MetricDescriptors page = []
  /\ exists s,
       steps (ext := goRuntime) Samples.healthy
         (fst (metricDescriptorsFunction (ext := goRuntime) Samples.collector0
                 page float64_zero Samples.clock0))
         [CloseDone; SelectDone]
       = Some s
       /\ returned s = Some None.
Proof.
  intro page. split; [reflexivity |].
  exact (proj2 (page_without_descriptors (ext := goRuntime) Samples.healthy
                  Samples.collector0 page float64_zero Samples.clock0 eq_refl)).
Defined.

(** ** Counting in float64 *)

Section Float64Counting.

Lemma iter_pos_iter {A : Type} (f : A -> A) (k : positive) :
  forall x, iter_pos f k x = Pos.iter f x k.
Proof.
  induction k as [k IH | k IH |]; intro x; cbn [iter_pos Pos.iter].
  - rewrite !IH. now rewrite <- !Pos.iter_swap.
  - now rewrite !IH.
  - reflexivity.
Qed.

(** Shifting right the bits that a shift to the left added loses nothing. *)
Lemma shr_low_zeros (k q : positive) :
  iter_pos shr_1 k
    {| shr_m := Zpos (Pos.iter xO q k); shr_r := false; shr_s := false |}
  = {| shr_m := Zpos q; shr_r := false; shr_s := false |}.
Proof.
  rewrite iter_pos_iter.
  induction k as [|k IH] using Pos.peano_ind.
  - reflexivity.
  - rewrite Pos.iter_succ_r, Pos.iter_succ. cbn [shr_1 orb]. exact IH.
Qed.

Lemma shr_fexp_exact (mz : positive) (ez : Z) :
  Zpos (digits2_pos mz) = 53 ->
  -1074 <= ez ->
  shr_fexp prec64 emax64 (Zpos mz) ez loc_Exact
  = ({| shr_m := Zpos mz; shr_r := false; shr_s := false |}, ez).
Proof.
  intros Hd He. unfold shr_fexp. cbn [Zdigits2]. rewrite Hd.
  replace (fexp prec64 emax64 (53 + ez) - ez) with 0.
  - reflexivity.
  - unfold fexp, emin, prec64, emax64. lia.
Qed.

Lemma digits2_pos_le_53 (n : positive) :
  Zpos n < 2 ^ 53 -> Zpos (digits2_pos n) <= 53.
Proof.
  intro Hm. pose proof (digits2_pos_bounds n) as [Hlo Hhi].
  destruct (Z.le_gt_cases (Zpos (digits2_pos n)) 53) as [H | H]; [exact H |].
  assert (2 ^ 53 <= 2 ^ (Zpos (digits2_pos n) - 1))
    by (apply Z.pow_le_mono_r; lia).
  lia.
Qed.

(** The float64 of a positive integer below [2^53]. *)
Lemma binary_round_aligned (s : bool) (n : positive) :
  Zpos n < 2 ^ 53 ->
  binary_round prec64 emax64 s n 0
  = S754_finite s (fst (aligned64 n)) (snd (aligned64 n)).
Proof.
  intro Hn. pose proof (digits2_pos_le_53 n Hn) as Hd.
  unfold binary_round, aligned64. cbn [fst snd].
  replace (fexp prec64 emax64 (Zpos (digits2_pos n) + 0))
    with (Zpos (digits2_pos n) - 53)
    by (unfold fexp, emin, prec64, emax64; lia).
  unfold shl_align. rewrite Z.sub_0_r.
  destruct (Zpos (digits2_pos n) - 53) as [| k | k] eqn:Hk; try lia.
  - apply binary_round_aux_exact; lia.
  - apply binary_round_aux_exact; [| lia]. rewrite digits2_pos_iter_xO. lia.
Qed.

(** The same float64 is reached from the integer written with 52 more
    binary digits at the exponent -52, as the sum with 1.0 is. *)
Lemma binary_round_shifted (s : bool) (n : positive) :
  Zpos n < 2 ^ 53 ->
  binary_round prec64 emax64 s (Pos.iter xO n 52) (-52)
  = S754_finite s (fst (aligned64 n)) (snd (aligned64 n)).
Proof.
  intro Hn. pose proof (digits2_pos_le_53 n Hn) as Hd.
  assert (Hdpos : 1 <= Zpos (digits2_pos n)) by lia.
  unfold binary_round. rewrite digits2_pos_iter_xO.
  replace (fexp prec64 emax64 (Zpos (digits2_pos n + 52) + -52))
    with (Zpos (digits2_pos n) - 53)
    by (unfold fexp, emin, prec64, emax64; lia).
  unfold shl_align.
  destruct (Zpos (digits2_pos n) - 53 - -52) as [| k | k] eqn:Hk; try lia.
  - assert (Hdig : Zpos (digits2_pos (Pos.iter xO n 52)) = 53)
      by (rewrite digits2_pos_iter_xO; lia).
    rewrite binary_round_aux_exact by (try exact Hdig; lia).
    unfold aligned64. cbn [fst snd].
    replace (Zpos (digits2_pos n) - 53) with (Zneg 52) by lia. reflexivity.
  - unfold binary_round_aux.
    assert (Hsplit : Pos.iter xO n 52 = Pos.iter xO (fst (aligned64 n)) k).
    { unfold aligned64. cbn [fst].
      destruct (Zpos (digits2_pos n) - 53) as [| j | j] eqn:Hj; try lia.
      - replace k with 52%positive by lia. reflexivity.
      - replace 52%positive with (k + j)%positive by lia.
        rewrite Pos.iter_add. reflexivity. }
    assert (Hc : -52 <= snd (aligned64 n) <= 0)
      by (unfold aligned64; cbn [snd]; lia).
    assert (Hshr : shr_fexp prec64 emax64 (Zpos (Pos.iter xO n 52)) (-52)
                     loc_Exact
                   = ({| shr_m := Zpos (fst (aligned64 n)); shr_r := false;
                         shr_s := false |},
                      snd (aligned64 n))).
    { unfold shr_fexp. cbn [Zdigits2]. rewrite digits2_pos_iter_xO.
      replace (fexp prec64 emax64 (Zpos (digits2_pos n + 52) + -52) - -52)
        with (Zpos k)
        by (unfold fexp, emin, prec64, emax64; lia).
      unfold shr. cbn [shr_record_of_loc]. rewrite Hsplit, shr_low_zeros.
      f_equal. unfold aligned64. cbn [snd]. lia. }
    rewrite Hshr. cbn [shr_m loc_of_shr_record round_nearest_even].
    assert (Hdig : Zpos (digits2_pos (fst (aligned64 n))) = 53).
    { unfold aligned64. cbn [fst].
      destruct (Zpos (digits2_pos n) - 53) as [| j | j] eqn:Hj; try lia.
      rewrite digits2_pos_iter_xO. lia. }
    rewrite shr_fexp_exact by (try exact Hdig; lia).
    cbn [shr_m]. unfold emax64, prec64.
    destruct (Z.leb_spec (snd (aligned64 n)) (1024 - 53)); [reflexivity | lia].
Qed.

(** Adding 1.0 to the float64 of a count below [2^53] gives the float64 of
    the next count: counters do not drift. *)
Lemma float64_succ (k : Z) :
  0 <= k < 2 ^ 53 ->
  float64_add (float64_of_int k) float64_one = float64_of_int (k + 1).
Proof.
  intros [Hk0 Hk].
  destruct (Z.eq_dec k (2 ^ 53 - 1)) as [-> | Hne]; [vm_compute; reflexivity |].
  destruct k as [| n | n]; [reflexivity | | lia].
  assert (Hn1 : Zpos (n + 1) < 2 ^ 53) by lia.
  replace (Zpos n + 1) with (Zpos (n + 1)) by lia.
  unfold float64_of_int at 2. unfold binary_normalize.
  rewrite binary_round_aligned by exact Hn1.
  unfold float64_of_int, binary_normalize.
  rewrite binary_round_aligned by lia.
  unfold float64_add, float64_one, SFadd.
  pose proof (digits2_pos_le_53 n ltac:(lia)) as Hd.
  assert (Hc : -52 <= snd (aligned64 n) <= 0)
    by (unfold aligned64; cbn [snd]; lia).
  rewrite Z.min_r by lia.
  assert (Hx : fst (shl_align (fst (aligned64 n)) (snd (aligned64 n)) (-52))
               = Pos.iter xO n 52).
  { unfold shl_align, aligned64. cbn [fst snd].
    destruct (Zpos (digits2_pos n) - 53) as [| j | j] eqn:Hj; try lia.
    - reflexivity.
    - destruct (-52 - Zneg j) as [| i | i] eqn:Hi; try lia.
      + cbn [fst]. replace j with 52%positive by lia. reflexivity.
      + cbn [fst]. rewrite <- Pos.iter_add. f_equal. lia. }
  rewrite Hx. cbn [shl_align Z.sub Z.opp Z.add Z.pos_sub fst cond_Zopp].
  replace (Zpos (Pos.iter xO n 52) + 4503599627370496)
    with (Zpos (Pos.iter xO (n + 1)%positive 52)).
  - unfold binary_normalize. apply binary_round_shifted. exact Hn1.
  - rewrite !Zpos_iter_xO. lia.
Qed.

End Float64Counting.

(** ** The API-call counter, shared between the calls *)

Section ApiCalls.
Context {ext : Collaborators}.
Variable Do : TimeSeriesListCall -> result (option ListTimeSeriesResponse).

(** A step issues no request and leaves the counter, or issues one request
    and adds one to the counter. *)
Lemma step_counts (s s' : scope) (a : action) :
  step Do s a = Some s' ->
  (issued s' = issued s /\ apiCalls s' = apiCalls s)
  \/ (exists r, issued s' = (issued s ++ [r])%list
                /\ apiCalls s' = float64_add (apiCalls s) float64_one).
Proof.
  intro Hstep. unfold step in Hstep. destruct (crashed s); [discriminate |].
  destruct a as [i | | |].
  - unfold runGoroutine in Hstep.
    destruct (nth_error (goroutines s) i) as [g |]; [| discriminate].
    destruct (g_pc g) as [| err | page | page |].
    + injection Hstep as <-. right. now exists (g_timeSeriesListCall g).
    + destruct (errChannel s); [discriminate |]. injection Hstep as <-.
      now left.
    + injection Hstep as <-. now left.
    + destruct (reportTimeSeriesMetrics page (g_metricDescriptor g)).
      injection Hstep as <-. now left.
    + discriminate.
  - destruct (forallb isFinished (goroutines s) && negb (doneChannel s))%bool;
      [| discriminate].
    injection Hstep as <-. now left.
  - destruct (returned s); [discriminate |].
    destruct (doneChannel s); [| discriminate].
    injection Hstep as <-. now left.
  - destruct (returned s); [discriminate |].
    destruct (errChannel s); [| discriminate].
    injection Hstep as <-. now left.
Qed.

(** An increment made elsewhere issues no request of this call. *)
Lemma stepShared_counts (s s' : scope) (e : event) :
  stepShared Do s e = Some s' ->
  match e with
  | Here _ =>
      (issued s' = issued s /\ apiCalls s' = apiCalls s)
      \/ (exists r, issued s' = (issued s ++ [r])%list
                    /\ apiCalls s' = float64_add (apiCalls s) float64_one)
  | Elsewhere =>
      issued s' = issued s
      /\ apiCalls s' = float64_add (apiCalls s) float64_one
  end.
Proof.
  destruct e as [a |]; cbn [stepShared]; intro Hstep.
  - now apply step_counts with (a := a).
  - destruct (crashed s); [discriminate |]. injection Hstep as <-. now split.
Qed.

Lemma stepsShared_issued_grows (events : list event) :
  forall s s',
    stepsShared Do s events = Some s' ->
    (List.length (issued s) <= List.length (issued s'))%nat.
Proof.
  induction events as [|e events IH]; intros s s' Hsteps; cbn in Hsteps.
  - injection Hsteps as <-. apply Nat.le_refl.
  - destruct (stepShared Do s e) as [s1 |] eqn:Hstep; [| discriminate].
    specialize (IH _ _ Hsteps).
    pose proof (stepShared_counts _ _ _ Hstep) as Hc.
    destruct e as [a |].
    + destruct Hc as [[Hi _] | (r & Hi & _)]; rewrite Hi in IH; [exact IH |].
      rewrite length_app in IH. cbn in IH. lia.
    + destruct Hc as [Hi _]. now rewrite Hi in IH.
Qed.

Lemma stepsShared_count (events : list event) :
  forall (s s' : scope) (k : Z),
    0 <= k ->
    apiCalls s = float64_of_int (k + Z.of_nat (List.length (issued s))) ->
    stepsShared Do s events = Some s' ->
    k + Z.of_nat (List.length (issued s')) + Z.of_nat (elsewhere events)
    <= 2 ^ 53 ->
    apiCalls s'
    = float64_of_int (k + Z.of_nat (List.length (issued s'))
                      + Z.of_nat (elsewhere events)).
Proof.
  induction events as [|e events IH]; intros s s' k Hk Hs Hsteps Hbound;
    cbn [stepsShared] in Hsteps.
  - injection Hsteps as <-. cbn [elsewhere]. now rewrite Z.add_0_r.
  - destruct (stepShared Do s e) as [s1 |] eqn:Hstep; [| discriminate].
    pose proof (stepsShared_issued_grows _ _ _ Hsteps) as Hgrow.
    pose proof (stepShared_counts _ _ _ Hstep) as Hc.
    pose proof (Nat2Z.is_nonneg (elsewhere events)) as He.
    destruct e as [a |]; cbn [elsewhere] in Hbound |- *.
    + apply (IH s1 s' k Hk); [| exact Hsteps | exact Hbound].
      destruct Hc as [[Hi Ha] | (r & Hi & Ha)].
      * now rewrite Hi, Ha.
      * rewrite Hi in Hgrow |- *. rewrite length_app in Hgrow |- *.
        cbn [List.length] in Hgrow |- *. rewrite Ha, Hs.
        rewrite float64_succ by lia. f_equal. lia.
    + destruct Hc as [Hi Ha]. rewrite Hi in Hgrow.
      replace (k + Z.of_nat (List.length (issued s'))
               + Z.of_nat (S (elsewhere events)))
        with (k + 1 + Z.of_nat (List.length (issued s'))
              + Z.of_nat (elsewhere events)) by lia.
      apply (IH s1 s' (k + 1)); [lia | | exact Hsteps | lia].
      rewrite Hi, Ha, Hs. rewrite float64_succ by lia. f_equal. lia.
Qed.

(** Without increments made elsewhere, the steps are those of the call. *)
Lemma stepsShared_alone (schedule : list action) :
  forall s, stepsShared Do s (map Here schedule) = steps Do s schedule.
Proof.
  induction schedule as [|a schedule IH]; intro s; cbn; [reflexivity |].
  destruct (step Do s a); [apply IH | reflexivity].
Qed.

(** X10. The API-call counter is the collector's, and the goroutines of
    other calls of metricDescriptorsFunction count on it too. Whatever this
    call and the others do, and in whatever order, the counter is the count
    it had when the call was entered, plus one for the descriptor page, plus
    one for every time-series request this call has issued, plus one for
    every call counted elsewhere meanwhile: exactly, as long as the count
    stays within [2^53]. *)
Theorem api_calls_are_counted (c : MonitoringCollector)
    (page : ListMetricDescriptorsResponse) (n : Z) (clk : Clock)
    (events : list event) (s : scope) :
  0 <= n ->
  stepsShared Do (fst (metricDescriptorsFunction c page (float64_of_int n) clk))
    events
  = Some s ->
  n + 1 + Z.of_nat (List.length (issued s)) + Z.of_nat (elsewhere events)
  <= 2 ^ 53 ->
  apiCalls s
  = float64_of_int (n + 1 + Z.of_nat (List.length (issued s))
                    + Z.of_nat (elsewhere events)).
Proof.
  intros Hn Hsteps Hbound.
  pose proof (Nat2Z.is_nonneg (List.length (issued s))) as Hlen.
  apply (stepsShared_count events
           (fst (metricDescriptorsFunction c page (float64_of_int n) clk))
           s (n + 1)); [lia | | exact Hsteps | exact Hbound].
  cbn. rewrite Z.add_0_r. apply float64_succ. lia.
Qed.

End ApiCalls.

Lemma api_calls_are_counted_witness :
  let page := Samples.descriptors ["a"; "b"] in
  let events :=
    [Here (Run 1%nat); Elsewhere; Here (Run 0%nat); Here (Run 0%nat);
     Elsewhere; Elsewhere; Here (Run 1%nat)] in
  exists s,
    stepsShared (ext := goRuntime) Samples.healthy
      (fst (metricDescriptorsFunction (ext := goRuntime) Samples.collector0
              page (float64_of_int 7) Samples.clock0))
      events
    = Some s
    /\ List.length (issued s) = 2%nat
    /\ elsewhere events = 3%nat
    /\ apiCalls s = float64_of_int 13.
Proof.
  intros page events.
  destruct (stepsShared (ext := goRuntime) Samples.healthy
              (fst (metricDescriptorsFunction (ext := goRuntime)
                      Samples.collector0 page (float64_of_int 7)
                      Samples.clock0))
              events) as [s |] eqn:Hs; [| discriminate Hs].
  exists s.
  assert (Hlen : List.length (issued s) = 2%nat).
  { vm_compute in Hs. injection Hs as <-. reflexivity. }
  split; [reflexivity |]. split; [exact Hlen |]. split; [reflexivity |].
  assert (Hn : 0 <= 7) by discriminate.
  assert (Hb : 7 + 1 + Z.of_nat (List.length (issued s))
               + Z.of_nat (elsewhere events) <= 2 ^ 53)
    by (rewrite Hlen; discriminate).
  pose proof (api_calls_are_counted (ext := goRuntime) Samples.healthy
                Samples.collector0 page 7 Samples.clock0 events s Hn Hs Hb)
    as H.
  rewrite Hlen in H. exact H.
Defined.

(** ** The fan-out over the prefixes *)

Section UpdateOther.
Context {A : Type}.

Lemma nth_error_update_other (l : list A) (i j : nat) (a : A) :
  i <> j -> nth_error (update l i a) j = nth_error l j.
Proof.
  revert i j. induction l as [|x l IH]; intros [|i] [|j] Hij; cbn;
    try reflexivity; try congruence.
  apply IH. congruence.
Qed.

End UpdateOther.

Section PrefixProperties.
Variable PagesOf : string -> option string.

Lemma forallb_isPrefixFinished_nth (l : list prefixGoroutine) (i : nat)
    (g : prefixGoroutine) :
  forallb isPrefixFinished l = true -> nth_error l i = Some g ->
  pg_pc g = PrefixFinished.
Proof.
  intros Hall Hnth. rewrite forallb_forall in Hall.
  specialize (Hall g (nth_error_In _ _ Hnth)). unfold isPrefixFinished in Hall.
  now destruct (pg_pc g).
Qed.

Lemma scrapeStep_scrapeOk (c : MonitoringCollector) (s s' : scrape)
    (a : action) :
  scrapeOk PagesOf c s -> scrapeStep PagesOf s a = Some s' ->
  scrapeOk PagesOf c s'.
Proof.
  intros (HG & HE & HR & HD & HN & HL) Hstep. unfold scrapeStep in Hstep.
  destruct a as [i | | |].
  - unfold runPrefix in Hstep.
    destruct (nth_error (prefixGoroutines s) i) as [g |] eqn:Hnth;
      [| discriminate].
    assert (Hg := HG). rewrite Forall_forall in Hg.
    specialize (Hg g (nth_error_In _ _ Hnth)). destruct Hg as [Hpre Hpc].
    assert (Hrun : pg_pc g <> PrefixFinished -> scrape_doneChannel s = false).
    { intro Hne. destruct (scrape_doneChannel s) eqn:Hd; [| reflexivity].
      contradiction Hne.
      now apply forallb_isPrefixFinished_nth with (prefixGoroutines s) i;
        [apply HD |]. }
    destruct (pg_pc g) as [| err |] eqn:Epc.
    + assert (Hd : scrape_doneChannel s = false) by (apply Hrun; discriminate).
      injection Hstep as <-.
      refine (conj _ (conj HE (conj HR (conj _ (conj HN _))))); cbn -[prefixFilter].
      * apply Forall_update; [exact HG |]. cbn -[prefixFilter]. split; [exact Hpre |].
        now destruct (PagesOf (prefixFilter (pg_metricsTypePrefix g))) eqn:E.
      * intro H. rewrite Hd in H. discriminate.
      * apply Forall_app. split; [exact HL |]. constructor; [| constructor].
        now exists (pg_metricsTypePrefix g).
    + destruct (scrape_errChannel s); [discriminate |].
      assert (Hd : scrape_doneChannel s = false) by (apply Hrun; discriminate).
      injection Hstep as <-.
      refine (conj _ (conj _ (conj HR (conj _ (conj HN HL))))); cbn -[prefixFilter].
      * apply Forall_update; [exact HG |]. cbn -[prefixFilter]. now split.
      * intros e He. injection He as <-. now exists (pg_metricsTypePrefix g).
      * intro H. rewrite Hd in H. discriminate.
    + discriminate.
  - destruct (forallb isPrefixFinished (prefixGoroutines s)) eqn:Hall;
      cbn -[prefixFilter] in Hstep; [| discriminate].
    destruct (negb (scrape_doneChannel s)); [| discriminate].
    injection Hstep as <-.
    refine (conj HG (conj HE (conj HR (conj _ (conj _ HL))))); cbn -[prefixFilter].
    + intros _. exact Hall.
    + reflexivity.
  - destruct (scrape_returned s) eqn:Hret; [discriminate |].
    destruct (scrape_doneChannel s) eqn:Hd; [| discriminate].
    injection Hstep as <-.
    refine (conj HG (conj HE (conj _ (conj HD (conj _ HL))))); cbn -[prefixFilter].
    + discriminate.
    + reflexivity.
  - destruct (scrape_returned s) eqn:Hret; [discriminate |].
    destruct (scrape_errChannel s) as [err |] eqn:Hch; [| discriminate].
    injection Hstep as <-.
    refine (conj HG (conj _ (conj _ (conj HD (conj _ HL))))); cbn -[prefixFilter].
    + discriminate.
    + intros e He. injection He as <-. now apply HE.
    + discriminate.
Qed.

Lemma scrapeSteps_scrapeOk (c : MonitoringCollector)
    (schedule : list action) :
  forall s s',
    scrapeOk PagesOf c s -> scrapeSteps PagesOf s schedule = Some s' ->
    scrapeOk PagesOf c s'.
Proof.
  induction schedule as [|a schedule IH]; intros s s' Hok Hsteps; cbn in Hsteps.
  - now injection Hsteps as <-.
  - destruct (scrapeStep PagesOf s a) as [s1 |] eqn:Hstep; [| discriminate].
    apply (IH s1); [| exact Hsteps]. now apply scrapeStep_scrapeOk with s a.
Qed.

Lemma reportMonitoringMetrics_scrapeOk (c : MonitoringCollector) :
  scrapeOk PagesOf c (reportMonitoringMetrics c).
Proof.
  refine (conj _ (conj _ (conj _ (conj _ (conj _ _))))); cbn;
    try discriminate; try constructor.
  apply Forall_forall. intros g Hg. apply in_map_iff in Hg.
  destruct Hg as (prefix & <- & Hin). cbn. now split.
Qed.

(** X11. Under any schedule, reportMonitoringMetrics returns nil only when
    the goroutine of every prefix has finished, and an error only if
    [Pages] returned that error for the listing of one of the configured
    prefixes; every listing it runs has the filter of a configured
    prefix. *)
Theorem scrape_return_values (c : MonitoringCollector)
    (schedule : list action) (s : scrape) :
  scrapeSteps PagesOf (reportMonitoringMetrics c) schedule = Some s ->
  (scrape_returned s = Some None ->
   Forall (fun g => pg_pc g = PrefixFinished) (prefixGoroutines s))
  /\ (forall err, scrape_returned s = Some (Some err) ->
        exists prefix,
          In prefix (metricsTypePrefixes c)
          /\ PagesOf ("metric.type = starts_with(" ++ dquote ++ prefix
                        ++ dquote ++ ")")
             = Some err)
  /\ (forall filter, In filter (listed s) ->
        exists prefix,
          In prefix (metricsTypePrefixes c)
          /\ filter = "metric.type = starts_with(" ++ dquote ++ prefix
                        ++ dquote ++ ")").
Proof.
  intro Hsteps.
  destruct (scrapeSteps_scrapeOk c schedule _ _
              (reportMonitoringMetrics_scrapeOk c) Hsteps)
    as (_ & _ & HR & HD & HN & HL).
  split; [| split].
  - intro Hnil. specialize (HD (HN Hnil)). rewrite forallb_forall in HD.
    apply Forall_forall. intros g Hg. specialize (HD g Hg).
    unfold isPrefixFinished in HD. now destruct (pg_pc g).
  - exact HR.
  - rewrite Forall_forall in HL. exact HL.
Qed.

(** X12. With no prefix configured, whatever the schedule, no listing is
    run and no error is returned; the function can return, and what it
    returns is nil. *)
Theorem no_prefix_configured (c : MonitoringCollector) :
  metricsTypePrefixes c = [] ->
  (forall schedule s,
     scrapeSteps PagesOf (reportMonitoringMetrics c) schedule = Some s ->
     listed s = []
     /\ (scrape_returned s = None \/ scrape_returned s = Some None))
  /\ exists s,
       scrapeSteps PagesOf (reportMonitoringMetrics c) [CloseDone; SelectDone]
       = Some s
       /\ scrape_returned s = Some None.
Proof.
  intro Hnil. split.
  - intro schedule.
    assert (Hinv : forall s0 s,
               prefixGoroutines s0 = [] /\ scrape_errChannel s0 = None
               /\ listed s0 = []
               /\ (scrape_returned s0 = None \/ scrape_returned s0 = Some None) ->
               scrapeSteps PagesOf s0 schedule = Some s ->
               listed s = []
               /\ (scrape_returned s = None \/ scrape_returned s = Some None)).
    { induction schedule as [|a schedule IH]; intros s0 s Hs0 Hsteps;
        cbn in Hsteps.
      - injection Hsteps as <-. tauto.
      - destruct (scrapeStep PagesOf s0 a) as [s1 |] eqn:Hstep; [| discriminate].
        apply (IH s1 s); [| exact Hsteps].
        destruct Hs0 as (H1 & H2 & H3 & H4).
        unfold scrapeStep in Hstep. destruct a as [i | | |].
        + unfold runPrefix in Hstep. rewrite H1 in Hstep.
          destruct i; discriminate.
        + destruct (forallb isPrefixFinished (prefixGoroutines s0)
                    && negb (scrape_doneChannel s0))%bool; [| discriminate].
          injection Hstep as <-. cbn. tauto.
        + destruct (scrape_returned s0); [discriminate |].
          destruct (scrape_doneChannel s0); [| discriminate].
          injection Hstep as <-. cbn. tauto.
        + rewrite H2 in Hstep. destruct (scrape_returned s0); discriminate. }
    intros s Hsteps.
    apply (Hinv (reportMonitoringMetrics c) s); [| exact Hsteps].
    cbn. rewrite Hnil. cbn. tauto.
  - cbn. unfold scrapeStep, reportMonitoringMetrics. cbn. rewrite Hnil. cbn.
    eexists. split; reflexivity.
Qed.

Lemma scrapeStep_leaked (held : string) (waiting : list nat) (s s' : scrape)
    (a : action) :
  leaked held waiting s -> scrapeStep PagesOf s a = Some s' ->
  leaked held waiting s'.
Proof.
  intros ((r & Hret) & Hch & Hwait) Hstep. unfold scrapeStep in Hstep.
  destruct a as [i | | |].
  - unfold runPrefix in Hstep.
    destruct (nth_error (prefixGoroutines s) i) as [g |] eqn:Hnth;
      [| discriminate].
    destruct (pg_pc g) as [| err |] eqn:Epc.
    + injection Hstep as <-. split; [now exists r |]. split; [exact Hch |].
      intros j Hj. destruct (Hwait j Hj) as (g' & e & Hg' & Hpc').
      exists g', e. split; [| exact Hpc']. cbn.
      rewrite nth_error_update_other; [exact Hg' |].
      intros ->. rewrite Hnth in Hg'. injection Hg' as <-.
      rewrite Epc in Hpc'. discriminate.
    + rewrite Hch in Hstep. discriminate.
    + discriminate.
  - destruct (forallb isPrefixFinished (prefixGoroutines s)
              && negb (scrape_doneChannel s))%bool; [| discriminate].
    injection Hstep as <-. split; [now exists r |]. now split.
  - rewrite Hret in Hstep. discriminate.
  - rewrite Hret in Hstep. discriminate.
Qed.

(** X13. Once reportMonitoringMetrics has returned and an error fills its
    error channel, no schedule empties the channel again, and every
    goroutine that stands at its send stays there: its write never
    completes and the goroutine never finishes. *)
Theorem writers_after_return_stay_blocked (held : string)
    (waiting : list nat) (schedule : list action) :
  forall s s',
    leaked held waiting s ->
    scrapeSteps PagesOf s schedule = Some s' ->
    leaked held waiting s'.
Proof.
  induction schedule as [|a schedule IH]; intros s s' Hl Hsteps; cbn in Hsteps.
  - now injection Hsteps as <-.
  - destruct (scrapeStep PagesOf s a) as [s1 |] eqn:Hstep; [| discriminate].
    apply (IH s1); [| exact Hsteps]. now apply scrapeStep_leaked with s a.
Qed.

(** X14. As long as reportMonitoringMetrics has not returned, its fan-out
    is not stuck: a goroutine can move, or the group can be closed, or the
    [select] of the function can fire. *)
Theorem scrape_not_stuck_before_return (s : scrape) :
  scrape_returned s = None ->
  exists a s', scrapeStep PagesOf s a = Some s'.
Proof.
  intro Hret.
  assert (Hcases : forallb isPrefixFinished (prefixGoroutines s) = true
                   \/ exists i g, nth_error (prefixGoroutines s) i = Some g
                                  /\ pg_pc g <> PrefixFinished).
  { induction (prefixGoroutines s) as [|g l IH]; [now left |].
    cbn [forallb]. destruct (isPrefixFinished g) eqn:Hg.
    - destruct IH as [-> | (i & g' & Hn & Hp)]; [now left |].
      right. now exists (S i), g'.
    - right. exists 0%nat, g. split; [reflexivity |].
      unfold isPrefixFinished in Hg. intro E. now rewrite E in Hg. }
  unfold scrapeStep.
  destruct Hcases as [Hall | (i & g & Hnth & Hpc)].
  - destruct (scrape_doneChannel s) eqn:Hd.
    + exists SelectDone. rewrite ?Hret, ?Hd. eauto.
    + exists CloseDone. rewrite ?Hall, ?Hd. cbn. eauto.
  - destruct (pg_pc g) as [| err |] eqn:Epc.
    + exists (Run i). unfold runPrefix. rewrite Hnth, Epc. eauto.
    + destruct (scrape_errChannel s) as [held |] eqn:Hch.
      * exists SelectErr. rewrite ?Hret, ?Hch. eauto.
      * exists (Run i). unfold runPrefix. rewrite ?Hnth, ?Epc, ?Hch. eauto.
    + now contradiction Hpc.
Qed.

End PrefixProperties.

Lemma scrape_return_values_witness :
  let schedule := [Run 0%nat; Run 0%nat; SelectErr] in
  exists s,
    scrapeSteps listingFails (reportMonitoringMetrics threePrefixes) schedule
    = Some s
    /\ scrape_returned s
       = Some (Some ("unavailable: " ++ prefixFilter "a"))
    /\ exists prefix,
         In prefix (metricsTypePrefixes threePrefixes)
         /\ listingFails ("metric.type = starts_with(" ++ dquote ++ prefix
                            ++ dquote ++ ")")
            = Some ("unavailable: " ++ prefixFilter "a").
Proof.
  intro schedule.
  destruct (scrapeSteps listingFails (reportMonitoringMetrics threePrefixes)
              schedule) as [s |] eqn:Hs; [| discriminate Hs].
  exists s.
  assert (Hret : scrape_returned s
                 = Some (Some ("unavailable: " ++ prefixFilter "a"))).
  { vm_compute in Hs. injection Hs as <-. reflexivity. }
  split; [reflexivity |]. split; [exact Hret |].
  exact (proj1 (proj2 (scrape_return_values listingFails threePrefixes
                         schedule s Hs)) _ Hret).
Defined.

Lemma no_prefix_configured_witness :
  let c := fst (NewMonitoringCollector "p" [] (5 * 60 * Second)) in
  metricsTypePrefixes c = []
  /\ exists s,
       scrapeSteps listingFails (reportMonitoringMetrics c)
         [CloseDone; SelectDone]
       = Some s
       /\ scrape_returned s = Some None.
Proof.
  intro c. split; [reflexivity |].
  exact (proj2 (no_prefix_configured listingFails c eq_refl)).
Defined.

Lemma writers_after_return_stay_blocked_witness :
  let c := fst (NewMonitoringCollector "p" ["a"; "b"; "c"; "d"]
                  (5 * 60 * Second)) in
  let before := [Run 0%nat; Run 1%nat; Run 2%nat; Run 0%nat; SelectErr;
                 Run 1%nat] in
  let held := "unavailable: " ++ prefixFilter "b" in
  exists s s',
    scrapeSteps listingFails (reportMonitoringMetrics c) before = Some s
    /\ leaked held [2%nat] s
    /\ scrapeSteps listingFails s [Run 3%nat] = Some s'
    /\ leaked held [2%nat] s'
    /\ scrapeStep listingFails s' (Run 2%nat) = None
    /\ scrapeStep listingFails s' (Run 3%nat) = None.
Proof.
  intros c before held.
  destruct (scrapeSteps listingFails (reportMonitoringMetrics c) before)
    as [s |] eqn:Hs; [| discriminate Hs].
  vm_compute in Hs. injection Hs as Hs.
  destruct (scrapeSteps listingFails s [Run 3%nat]) as [s' |] eqn:Hs';
    [| subst s; discriminate Hs'].
  exists s, s'.
  assert (Hl : leaked held [2%nat] s).
  { subst s. split; [eexists; reflexivity |]. split; [reflexivity |].
    intros i [<- | []]. eexists. eexists. split; reflexivity. }
  split; [reflexivity |]. split; [exact Hl |]. split; [exact Hs' |].
  split.
  - exact (writers_after_return_stay_blocked listingFails held [2%nat]
             [Run 3%nat] s s' Hl Hs').
  - subst s. vm_compute in Hs'. injection Hs' as <-. split; reflexivity.
Defined.

Lemma scrape_not_stuck_before_return_witness :
  scrape_returned (reportMonitoringMetrics threePrefixes) = None
  /\ exists a s',
       scrapeStep listingFails (reportMonitoringMetrics threePrefixes) a
       = Some s'.
Proof.
  split; [reflexivity |].
  exact (scrape_not_stuck_before_return listingFails
           (reportMonitoringMetrics threePrefixes) eq_refl).
Defined.

(** ** Describe, Collect and successive scrapes *)

Section DescribeAndCollect.

(** What a call of [Collect] leaves, from what its pipeline leaves. *)
Lemma Collect_effect (pipeline : M (option string)) (w : world) :
  let err := fst (pipeline (snd (Now w))) in
  let w1 := snd (pipeline (snd (Now w))) in
  let w' := snd (Collect pipeline w) in
  projectID (collector w') = projectID (collector w1)
  /\ ch w'
     = (ch w1
          ++ map (bookkeepingMetric (collector w'))
               [ScrapeErrorsTotal; ApiCallsTotal; ScrapesTotal;
                LastScrapeError; LastScrapeTimestamp;
                LastScrapeDurationSeconds])%list
  /\ scrapesTotalMetric (collector w')
     = float64_add (scrapesTotalMetric (collector w1)) float64_one
  /\ scrapeErrorsTotalMetric (collector w')
     = match err with
       | Some _ =>
           float64_add (scrapeErrorsTotalMetric (collector w1)) float64_one
       | None => scrapeErrorsTotalMetric (collector w1)
       end
  /\ logged w'
     = (logged w1
          ++ match err with
             | Some e =>
                 [("Error while getting Google Stackdriver Monitoring metrics: "
                     ++ e)%string]
             | None => []
             end)%list.
Proof.
  unfold Collect, bind, Now. cbn [time_Now fst snd].
  destruct (pipeline _) as [[e |] w1]; cbn; rewrite <- ?app_assoc; cbn;
    repeat split; try reflexivity.
  symmetry. apply app_nil_r.
Qed.

(** The descriptions depend on the project only. *)
Lemma Describe_project (c c' : MonitoringCollector) :
  projectID c' = projectID c -> Describe c' = Describe c.
Proof. intro H. unfold Describe, bookkeepingMetric. cbn. now rewrite H. Qed.

(** X15. The six metrics [Collect] sends after those of the pipeline are
    described by [Describe]: their descriptions are the six descriptions
    [Describe] sends, in another order, and these have six different
    names. *)
Theorem Collect_sends_what_Describe_describes (pipeline : M (option string))
    (w : world) :
  projectID (collector (snd (pipeline (snd (Now w)))))
  = projectID (collector w) ->
  exists metrics,
    ch (snd (Collect pipeline w))
    = (ch (snd (pipeline (snd (Now w)))) ++ metrics)%list
    /\ Permutation (map desc metrics) (Describe (collector w))
    /\ NoDup (map fqName (Describe (collector w))).
Proof.
  intro Hproject.
  destruct (Collect_effect pipeline w) as (Hp & Hch & _).
  eexists. split; [exact Hch |]. split.
  - rewrite map_map.
    change (map (fun m => desc (bookkeepingMetric
                                  (collector (snd (Collect pipeline w))) m))
              [ScrapeErrorsTotal; ApiCallsTotal; ScrapesTotal; LastScrapeError;
               LastScrapeTimestamp; LastScrapeDurationSeconds])
      with (let d := fun m => desc (bookkeepingMetric
                                      (collector (snd (Collect pipeline w))) m) in
            [d ScrapeErrorsTotal; d ApiCallsTotal; d ScrapesTotal;
             d LastScrapeError; d LastScrapeTimestamp;
             d LastScrapeDurationSeconds]).
    rewrite <- (Describe_project (collector w)
                  (collector (snd (Collect pipeline w))))
      by (now rewrite Hp, Hproject).
    unfold Describe. cbn [map]. cbv zeta.
    eapply perm_trans; [apply perm_swap |]. apply perm_skip.
    apply perm_swap.
  - unfold Describe. cbn.
    repeat constructor; cbn; intuition discriminate.
Qed.

(** X16. No metric the reduction of a page sends is described by
    [Describe]: the description of such a metric has no constant label,
    and each of the six that [Describe] sends has the constant label
    [project_id]. *)
Theorem series_metrics_are_not_described {ext : Collaborators}
    (c : MonitoringCollector) (page : ListTimeSeriesResponse)
    (md : MetricDescriptor) (m : ConstMetric) :
  In m (fst (reportTimeSeriesMetrics page md)) ->
  constLabels (desc m) = []
  /\ Forall (fun d => constLabels d = [("project_id", projectID c)])
       (Describe c)
  /\ ~ In (desc m) (Describe c).
Proof.
  intro Hin. unfold reportTimeSeriesMetrics in Hin.
  apply rangeTimeSeries_sent in Hin.
  destruct Hin as [[] | (ts & kind & v & _ & _ & ->)].
  split; [reflexivity |]. split.
  - unfold Describe. repeat constructor.
  - unfold Describe. cbn.
    intros [H | [H | [H | [H | [H | [H | []]]]]]]; discriminate H.
Qed.

(** The counters after a run of scrapes, from the counts they stood at. *)
Lemma Scrapes_count (pipelines : list (M (option string))) :
  Forall keepsScrapeCounters pipelines ->
  forall (w : world) (n e : Z),
    0 <= n -> 0 <= e ->
    scrapesTotalMetric (collector w) = float64_of_int n ->
    scrapeErrorsTotalMetric (collector w) = float64_of_int e ->
    n + Z.of_nat (List.length pipelines) <= 2 ^ 53 ->
    e + Z.of_nat (List.length pipelines) <= 2 ^ 53 ->
    let w' := snd (Scrapes pipelines w) in
    exists k : nat,
      (k <= List.length pipelines)%nat
      /\ scrapesTotalMetric (collector w')
         = float64_of_int (n + Z.of_nat (List.length pipelines))
      /\ scrapeErrorsTotalMetric (collector w') = float64_of_int (e + Z.of_nat k)
      /\ List.length (logged w') = (List.length (logged w) + k)%nat.
Proof.
  induction 1 as [|pipeline rest Hkeep _ IH]; intros w n e Hn He Hs Hse Hbn Hbe.
  - exists 0%nat. cbn. rewrite !Z.add_0_r, Nat.add_0_r. now repeat split.
  - cbn [List.length] in Hbn, Hbe. rewrite Nat2Z.inj_succ in Hbn, Hbe.
    pose proof (Nat2Z.is_nonneg (List.length rest)) as Hlen.
    destruct (Collect_effect pipeline w) as (_ & _ & Hs1 & Hse1 & Hlog1).
    destruct (Hkeep (snd (Now w))) as (_ & Hks & Hke & Hkl).
    change (collector (snd (Now w))) with (collector w) in Hks, Hke.
    change (logged (snd (Now w))) with (logged w) in Hkl.
    rewrite Hks, Hs, float64_succ in Hs1 by lia.
    rewrite Hke, Hse in Hse1. rewrite Hkl in Hlog1.
    destruct (Collect pipeline w) as [[] w2] eqn:HC. cbn [snd] in *.
    assert (Hrun : snd (Scrapes (pipeline :: rest) w) = snd (Scrapes rest w2)).
    { cbn [Scrapes]. unfold bind. now rewrite HC. }
    cbv zeta. rewrite Hrun.
    destruct (fst (pipeline (snd (Now w)))) as [err |].
    + rewrite float64_succ in Hse1 by lia.
      destruct (IH w2 (n + 1) (e + 1)) as (k & Hk & H1 & H2 & H3);
        try assumption; try lia.
      exists (S k). split; [cbn; lia |].
      split; [rewrite H1; f_equal; cbn [List.length]; lia |].
      split; [rewrite H2; f_equal; lia |].
      rewrite H3, Hlog1, length_app. cbn. lia.
    + destruct (IH w2 (n + 1) e) as (k & Hk & H1 & H2 & H3);
        try assumption; try lia.
      exists k. split; [cbn; lia |].
      split; [rewrite H1; f_equal; cbn [List.length]; lia |].
      split; [exact H2 |].
      rewrite H3, Hlog1, app_nil_r. reflexivity.
Qed.

(** X17. After any number of scrapes of a new collector, up to [2^53], the
    scrape counter is exactly the number of scrapes, and the scrape-error
    counter is exactly the number of errors logged, which is at most the
    number of scrapes. *)
Theorem scrapes_are_counted (project : string) (prefixes : list string)
    (interval : Duration) (sent0 : list ConstMetric) (clk : Clock)
    (pipelines : list (M (option string))) :
  Forall keepsScrapeCounters pipelines ->
  Z.of_nat (List.length pipelines) <= 2 ^ 53 ->
  let w := {| collector := fst (NewMonitoringCollector project prefixes interval);
              ch := sent0; clock := clk; logged := [] |} in
  let w' := snd (Scrapes pipelines w) in
  scrapesTotalMetric (collector w')
  = float64_of_int (Z.of_nat (List.length pipelines))
  /\ scrapeErrorsTotalMetric (collector w')
     = float64_of_int (Z.of_nat (List.length (logged w')))
  /\ (List.length (logged w') <= List.length pipelines)%nat.
Proof.
  intros Hkeep Hbound w w'.
  destruct (Scrapes_count pipelines Hkeep w 0 0) as (k & Hk & H1 & H2 & H3);
    try reflexivity; try lia.
  fold w' in H1, H2, H3. cbn [logged w List.length Nat.add] in H3.
  rewrite H3. now repeat split.
Qed.

End DescribeAndCollect.

Lemma Collect_sends_what_Describe_describes_witness :
  let pipeline : M (option string) := fun w => (Some "unavailable", w) in
  let w := {| collector := Samples.collector0; ch := [];
              clock := Samples.clock0; logged := [] |} in
  projectID (collector (snd (pipeline (snd (Now w)))))
  = projectID (collector w)
  /\ exists metrics,
       ch (snd (Collect pipeline w))
       = (ch (snd (pipeline (snd (Now w)))) ++ metrics)%list
       /\ Permutation (map desc metrics) (Describe (collector w))
       /\ NoDup (map fqName (Describe (collector w))).
Proof.
  intros pipeline w. split; [reflexivity |].
  exact (Collect_sends_what_Describe_describes pipeline w eq_refl).
Defined.

Lemma series_metrics_are_not_described_witness :
  let m := constMetricOf (ext := goRuntime) Samples.cpu Samples.withPoint
             GaugeValue Samples.f1_5 in
  let page := Samples.page [Samples.withPoint] in
  In m (fst (reportTimeSeriesMetrics (ext := goRuntime) page Samples.cpu))
  /\ ~ In (desc m) (Describe Samples.collector0).
Proof.
  intros m page.
  assert (Hin : In m (fst (reportTimeSeriesMetrics (ext := goRuntime) page
                             Samples.cpu))) by (left; reflexivity).
  split; [exact Hin |].
  exact (proj2 (proj2 (series_metrics_are_not_described (ext := goRuntime)
                         Samples.collector0 page Samples.cpu m Hin))).
Defined.

Lemma scrapes_are_counted_witness :
  let ok : M (option string) := fun w => (None, w) in
  let failing : M (option string) := fun w => (Some "unavailable", w) in
  let pipelines := [ok; failing; ok] in
  let w := {| collector :=
                fst (NewMonitoringCollector "p" ["compute"] (5 * 60 * Second));
              ch := []; clock := Samples.clock0; logged := [] |} in
  let w' := snd (Scrapes pipelines w) in
  Forall keepsScrapeCounters pipelines
  /\ Z.of_nat (List.length pipelines) <= 2 ^ 53
  /\ List.length (logged w') = 1%nat
  /\ scrapesTotalMetric (collector w') = float64_of_int 3
  /\ scrapeErrorsTotalMetric (collector w') = float64_of_int 1.
Proof.
  intros ok failing pipelines w w'.
  assert (Hkeep : Forall keepsScrapeCounters pipelines).
  { repeat constructor. }
  assert (Hbound : Z.of_nat (List.length pipelines) <= 2 ^ 53) by discriminate.
  assert (Hlog : List.length (logged w') = 1%nat) by reflexivity.
  split; [exact Hkeep |]. split; [exact Hbound |]. split; [exact Hlog |].
  destruct (scrapes_are_counted "p" ["compute"] (5 * 60 * Second) []
              Samples.clock0 pipelines Hkeep Hbound) as (H1 & H2 & _).
  fold w w' in H1, H2. rewrite Hlog in H2. split; [exact H1 | exact H2].
Defined.
